(** * Olist recommendation pipeline: cleaning, segmentation and popularity
      rankings, embedded over a small model of the pandas operations the two
      scripts call (data_preprocessing.py, models.py). *)

From Stdlib Require Import List String Ascii ZArith QArith Qcanon Bool Lia.
From Stdlib Require Import Permutation Sorted.
Import ListNotations.

Local Open Scope string_scope.
Local Open Scope list_scope.
Local Open Scope Z_scope.

(* ================================================================== *)
(** ** Cell values *)
(* ================================================================== *)

(** One cell of a table, and also one column label (pandas labels are
    arbitrary scalars: the scripts use names, [pd.DataFrame(list)] uses the
    integer 0).  [VNull] stands for None, NaN and NaT.  A float64 is
    modelled by the exact rational it denotes; rounding is not modelled.
    A datetime64[ns] is its count of nanoseconds since 1970-01-01 00:00:00. *)
Inductive value :=
| VNull
| VInt (z : Z)
| VFloat (q : Qc)
| VStr (s : string)
| VTime (ns : Z).

Coercion VStr : string >-> value.

Definition Qc_eqb (a b : Qc) : bool := Qeq_bool (this a) (this b).

(** Equality as the hash tables behind [groupby], [unique], [value_counts]
    and [drop_duplicates] see it: missing values are equal to each other. *)
Definition value_eqb (a b : value) : bool :=
  match a, b with
  | VNull, VNull => true
  | VInt x, VInt y => (x =? y)%Z
  | VFloat x, VFloat y => Qc_eqb x y
  | VStr x, VStr y => String.eqb x y
  | VTime x, VTime y => (x =? y)%Z
  | _, _ => false
  end.

Definition isnull (v : value) : bool :=
  match v with VNull => true | _ => false end.

(** The elementwise comparison [series == v]: a missing value equals
    nothing, itself included. *)
Definition value_cmp_eq (a b : value) : bool :=
  negb (isnull a) && value_eqb a b.

(** Numeric reading of a cell (int64 or float64). *)
Definition as_number (v : value) : option Qc :=
  match v with
  | VInt z => Some (Q2Qc (inject_Z z))
  | VFloat q => Some q
  | _ => None
  end.

Definition is_numeric (v : value) : bool :=
  match v with VNull | VInt _ | VFloat _ => true | _ => false end.

Definition is_int (v : value) : bool :=
  match v with VInt _ => true | _ => false end.

(* ================================================================== *)
(** ** Exceptions *)
(* ================================================================== *)

Inductive exn :=
| KeyError (label : value)
| AttributeError (name : string)
| ValueError (msg : string)
| TypeError (msg : string).

Inductive result (A : Type) :=
| Ok (a : A)
| Raise (e : exn).

Arguments Ok {A} a.
Arguments Raise {A} e.

Definition rbind {A B} (r : result A) (k : A -> result B) : result B :=
  match r with
  | Ok a => k a
  | Raise e => Raise e
  end.

Declare Scope result_scope.
Delimit Scope result_scope with result.
Notation "x <- r ;; k" := (rbind r (fun x => k))
  (at level 61, r at next level, right associativity) : result_scope.

(* ================================================================== *)
(** ** Tables *)
(* ================================================================== *)

(** A row is its cells in column order, each under its column label. *)
Definition row := list (value * value).

(** A DataFrame: the column labels, and the rows, each under its index
    label. *)
Record DataFrame := mkDF {
  columns : list value;
  rows : list (Z * row)
}.

Definition row_eqb (a b : row) : bool :=
  (List.length a =? List.length b)%nat &&
  forallb (fun p => value_eqb (fst (fst p)) (fst (snd p)) &&
                    value_eqb (snd (fst p)) (snd (snd p)))
          (combine a b).

Definition has_label (c : value) (kv : value * value) : bool :=
  value_eqb (fst kv) c.

(** The cell of a row under label [c] (missing when the row has none). *)
Definition cell (c : value) (r : row) : value :=
  match find (has_label c) r with
  | Some kv => snd kv
  | None => VNull
  end.

Definition count_label (c : value) (cols : list value) : nat :=
  List.length (filter (value_eqb c) cols).

(** [data[c]] for a label that names one column: the column's values, by
    position.  A label naming no column is a KeyError.  With a repeated
    label pandas hands back a sub-table, on which each use the scripts make
    of the selection fails; that failure is raised here. *)
Definition getitem (data : DataFrame) (c : value) : result (list value) :=
  match count_label c (columns data) with
  | O => Raise (KeyError c)
  | S O => Ok (map (fun ir => cell c (snd ir)) (rows data))
  | _ => Raise (ValueError "selection is not 1-dimensional")
  end.

(** [data.name]: attribute access to a column. *)
Definition getattr (data : DataFrame) (name : string) : result (list value) :=
  match count_label name (columns data) with
  | O => Raise (AttributeError name)
  | S O => Ok (map (fun ir => cell name (snd ir)) (rows data))
  | _ => Raise (ValueError "selection is not 1-dimensional")
  end.

Definition has_column (c : value) (r : row) : bool := existsb (has_label c) r.

(** Writing one cell: an existing label is overwritten in place, a new one
    is appended as the last column. *)
Definition set_cell (c v : value) (r : row) : row :=
  if has_column c r
  then map (fun kv => if has_label c kv then (fst kv, v) else kv) r
  else r ++ [(c, v)].

Definition add_label (c : value) (cols : list value) : list value :=
  if existsb (value_eqb c) cols then cols else cols ++ [c].

Fixpoint set_cells (c : value) (rs : list (Z * row)) (vs : list value)
  : list (Z * row) :=
  match rs, vs with
  | (i, r) :: rs', v :: vs' => (i, set_cell c v r) :: set_cells c rs' vs'
  | _, _ => rs
  end.

(** [data[c] = vs] with [vs] aligned on the rows of [data]. *)
Definition setitem (data : DataFrame) (c : value) (vs : list value)
  : DataFrame :=
  mkDF (add_label c (columns data)) (set_cells c (rows data) vs).

(** [data[c] = v] with a scalar, broadcast over the rows. *)
Definition setitem_scalar (data : DataFrame) (c v : value) : DataFrame :=
  mkDF (add_label c (columns data))
       (map (fun ir => (fst ir, set_cell c v (snd ir))) (rows data)).

Definition drop_cell (c : value) (r : row) : row :=
  filter (fun kv => negb (has_label c kv)) r.

(** [data.drop(c, axis=1)]: every column labelled [c] goes; a label that
    names no column is a KeyError. *)
Definition drop_column (data : DataFrame) (c : value) : result DataFrame :=
  if existsb (value_eqb c) (columns data)
  then Ok (mkDF (filter (fun c' => negb (value_eqb c' c)) (columns data))
                (map (fun ir => (fst ir, drop_cell c (snd ir))) (rows data)))
  else Raise (KeyError c).

(* ================================================================== *)
(** ** Grouping, aggregation and deduplication *)
(* ================================================================== *)

(** The cells of [vals] on the rows whose key is [k]. *)
Definition group_cells (keys vals : list value) (k : value) : list value :=
  map snd (filter (fun kv => value_eqb (fst kv) k) (combine keys vals)).

Fixpoint sum_numbers (l : list (option Qc)) : Qc :=
  match l with
  | [] => Q2Qc 0
  | Some q :: l' => (q + sum_numbers l')%Qc
  | None :: l' => sum_numbers l'
  end.

Fixpoint sum_ints (l : list value) : Z :=
  match l with
  | [] => 0%Z
  | VInt z :: l' => (z + sum_ints l')%Z
  | _ :: l' => sum_ints l'
  end.

(** The sum of a group, missing cells skipped.  [as_int] says whether the
    result column stays int64 (an all-integer column and no NaN to store). *)
Definition sum_group (as_int : bool) (cells : list value) : value :=
  if as_int then VInt (sum_ints cells)
  else VFloat (sum_numbers (map as_number cells)).

(** [vals.groupby(keys).transform('sum')]: on each row the sum of its
    group; rows under a missing key belong to no group and get NaN.  The
    column summed is numeric in the query's result; a column holding
    anything else is refused here, and the results below assume none. *)
Definition transform_sum (vals keys : list value) : result (list value) :=
  if forallb is_numeric vals then
    let as_int := forallb is_int vals &&
                  forallb (fun k => negb (isnull k)) keys in
    Ok (map (fun k => if isnull k then VNull
                      else sum_group as_int (group_cells keys vals k))
            keys)
  else Raise (TypeError "sum of a non-numeric column").

(** [drop_duplicates(keep='first')]: a row stays unless an equal row (all
    cells, index label apart) came before it. *)
Fixpoint drop_dups (seen : list row) (rs : list (Z * row)) : list (Z * row) :=
  match rs with
  | [] => []
  | (i, r) :: rs' =>
      if existsb (row_eqb r) seen then drop_dups seen rs'
      else (i, r) :: drop_dups (r :: seen) rs'
  end.

Definition drop_duplicates (data : DataFrame) : DataFrame :=
  mkDF (columns data) (drop_dups [] (rows data)).

(** [len(x)] of a table. *)
Definition len (x : DataFrame) : nat := List.length (rows x).

(** The sub-table [groupby] hands to a callback for key [k]. *)
Definition get_group (data : DataFrame) (keys : list value) (k : value)
  : DataFrame :=
  mkDF (columns data)
       (map snd (filter (fun kr => value_eqb (fst kr) k)
                        (combine keys (rows data)))).

(** [data.groupby(by).filter(func)]: the rows of the groups on which
    [func] holds, in their original order and under their original index
    labels.  Rows whose key is missing are in no group, so in no result. *)
Definition groupby_filter (data : DataFrame) (by_ : value)
           (func : DataFrame -> bool) : result DataFrame :=
  rbind (getitem data by_) (fun keys =>
  Ok (mkDF (columns data)
           (map snd (filter (fun kr => negb (isnull (fst kr)) &&
                                       func (get_group data keys (fst kr)))
                            (combine keys (rows data)))))).

Definition list_value_eqb (a b : list value) : bool :=
  (List.length a =? List.length b)%nat &&
  forallb (fun p => value_eqb (fst p) (snd p)) (combine a b).

Fixpoint distinct (l : list value) : list value :=
  match l with
  | [] => []
  | v :: l' => v :: filter (fun w => negb (value_eqb w v)) (distinct l')
  end.

Definition nodupb (l : list value) : bool :=
  (List.length (distinct l) =? List.length l)%nat.

Definition reindex_row (cols : list value) (r : row) : row :=
  map (fun c => (c, cell c r)) cols.

(** [pd.concat((a, b), axis=0)]: the rows of [a], then those of [b], index
    labels kept.  With the same columns on both sides the rows are stacked
    as they are; otherwise the columns are united (those of [a] first) and
    cells a side lacks are missing, which pandas can do only when no label
    is repeated. *)
Definition concat (a b : DataFrame) : result DataFrame :=
  if list_value_eqb (columns a) (columns b) then
    Ok (mkDF (columns a) (rows a ++ rows b))
  else if nodupb (columns a) && nodupb (columns b) then
    let cols := columns a ++
                filter (fun c => negb (existsb (value_eqb c) (columns a)))
                       (columns b) in
    Ok (mkDF cols (map (fun ir => (fst ir, reindex_row cols (snd ir)))
                       (rows a ++ rows b)))
  else Raise (ValueError "cannot reindex on an axis with duplicate labels").

Fixpoint enumerate_from {A} (n : Z) (l : list A) : list (Z * A) :=
  match l with
  | [] => []
  | x :: l' => (n, x) :: enumerate_from (n + 1) l'
  end.

(** [reset_index()]: the old index labels become the first column, named
    index (level_0 when that name is taken), and the rows are renumbered
    from 0. *)
Definition reset_index (data : DataFrame) : result DataFrame :=
  let fresh (name : value) := negb (existsb (value_eqb name) (columns data)) in
  let build (name : value) :=
    mkDF (name :: columns data)
         (enumerate_from 0
            (map (fun ir => (name, VInt (fst ir)) :: snd ir) (rows data))) in
  if fresh "index" then Ok (build "index")
  else if fresh "level_0" then Ok (build "level_0")
  else Raise (ValueError "cannot insert level_0, already exists").

(** [rename(mapping, axis=1)]: labels found in the mapping are replaced,
    the others are kept. *)
Definition rename_label (mapping : list (value * value)) (c : value) : value :=
  match find (fun kv => value_eqb (fst kv) c) mapping with
  | Some kv => snd kv
  | None => c
  end.

Definition rename (data : DataFrame) (mapping : list (value * value))
  : DataFrame :=
  mkDF (map (rename_label mapping) (columns data))
       (map (fun ir => (fst ir,
                        map (fun kv => (rename_label mapping (fst kv), snd kv))
                            (snd ir)))
            (rows data)).

(** Order on group keys, as [groupby(sort=True)] lays the groups out:
    numbers by size, text by code point, time stamps by instant.  Within
    one column all keys have one type; across types the order below is by
    constructor and only makes the comparison total. *)
Definition type_rank (v : value) : Z :=
  match v with
  | VNull => 0 | VInt _ => 1 | VFloat _ => 1 | VStr _ => 2 | VTime _ => 3
  end.

Definition value_compare (a b : value) : comparison :=
  match a, b with
  | VStr x, VStr y => String.compare x y
  | VTime x, VTime y => Z.compare x y
  | _, _ =>
      match as_number a, as_number b with
      | Some x, Some y => Qccompare x y
      | _, _ => Z.compare (type_rank a) (type_rank b)
      end
  end.

Definition key2 := (value * value)%type.

Definition key2_eqb (a b : key2) : bool :=
  value_eqb (fst a) (fst b) && value_eqb (snd a) (snd b).

(** Tuples compare lexicographically. *)
Definition key2_leb (a b : key2) : bool :=
  match value_compare (fst a) (fst b) with
  | Lt => true
  | Gt => false
  | Eq => match value_compare (snd a) (snd b) with
          | Gt => false
          | _ => true
          end
  end.

Fixpoint insert_key (k : key2) (l : list key2) : list key2 :=
  match l with
  | [] => [k]
  | k' :: l' => if key2_leb k k' then k :: l else k' :: insert_key k l'
  end.

Fixpoint sort_keys (l : list key2) : list key2 :=
  match l with
  | [] => []
  | k :: l' => insert_key k (sort_keys l')
  end.

Fixpoint distinct_keys (l : list key2) : list key2 :=
  match l with
  | [] => []
  | k :: l' => k :: filter (fun k' => negb (key2_eqb k' k)) (distinct_keys l')
  end.

Definition key2_present (k : key2) : bool :=
  negb (isnull (fst k)) && negb (isnull (snd k)).

(** The cells of [vals] on the rows whose pair of keys is [k]. *)
Definition group_cells2 (keys : list key2) (vals : list value) (k : key2)
  : list value :=
  map snd (filter (fun kv => key2_eqb (fst kv) k) (combine keys vals)).

(** The mean of a group: missing cells are skipped, a group with nothing
    left has mean NaN, and the mean of integers is a float. *)
Definition mean_group (cells : list value) : value :=
  let present := filter (fun v => negb (isnull v)) cells in
  match present with
  | [] => VNull
  | _ => VFloat (sum_numbers (map as_number present) /
                 Q2Qc (inject_Z (Z.of_nat (List.length present))))%Qc
  end.

(** [data.groupby([k1, k2])[col].agg(['mean'])]: one line per pair of keys
    present in the data (a pair with a missing member is in no group), the
    lines sorted by key, each with the mean of its group.  A column that
    is not numeric has no mean. *)
Definition groupby2_agg_mean (k1 k2 vals : list value)
  : result (list (key2 * value)) :=
  if forallb is_numeric vals then
    let keys := combine k1 k2 in
    Ok (map (fun k => (k, mean_group (group_cells2 keys vals k)))
            (sort_keys (distinct_keys (filter key2_present keys))))
  else Raise (TypeError "mean of a non-numeric column").

(** [reset_index()] on such a result: the two key levels become the first
    two columns, before the aggregate, and the rows are numbered from 0. *)
Definition reset_index2 (n1 n2 agg : value) (l : list (key2 * value))
  : DataFrame :=
  mkDF [n1; n2; agg]
       (enumerate_from 0
          (map (fun kv => [(n1, fst (fst kv)); (n2, snd (fst kv));
                           (agg, snd kv)]) l)).

(* ================================================================== *)
(** ** Files written by the scripts *)
(* ================================================================== *)

(** What [to_csv(index=False)] puts in a file: the header line and the
    rows, without their index labels. *)
Record csv := mkCSV {
  header : list value;
  records : list row
}.

(** The files written so far, the latest first. *)
Definition files := list (string * csv).

(** A step of a script: it may write files, and ends in a value or in an
    exception; files written before an exception stay written. *)
Definition io (A : Type) := files -> result A * files.

Definition ret {A} (a : A) : io A := fun fs => (Ok a, fs).

Definition lift {A} (r : result A) : io A := fun fs => (r, fs).

Definition bind {A B} (m : io A) (k : A -> io B) : io B :=
  fun fs =>
    match m fs with
    | (Ok a, fs') => k a fs'
    | (Raise e, fs') => (Raise e, fs')
    end.

Declare Scope io_scope.
Delimit Scope io_scope with io.
Notation "x <~ m ;; k" := (bind m (fun x => k))
  (at level 61, m at next level, right associativity) : io_scope.
Notation "m ;;; k" := (bind m (fun _ => k))
  (at level 61, right associativity) : io_scope.

Definition to_csv (data : DataFrame) : csv :=
  mkCSV (columns data) (map snd (rows data)).

(** Both scripts define the same helper. *)
Definition save_csv (data : DataFrame) (file_name : string) : io unit :=
  fun fs => (Ok tt, (("data/" ++ file_name ++ ".csv")%string, to_csv data) :: fs).

Definition read_file (name : string) (fs : files) : option csv :=
  match find (fun f => String.eqb (fst f) name) fs with
  | Some f => Some (snd f)
  | None => None
  end.

(* ================================================================== *)
(** ** Counting and ranking *)
(* ================================================================== *)

(** [sort_values(ascending=False)] on a series of counts.  pandas sorts
    with an unstable algorithm, so the order of labels with equal counts
    is not fixed by the program: every descending sort is a possible
    behaviour, and results are stated for all of them. *)
Class SortValues := {
  sort_values_desc : list (value * nat) -> list (value * nat);
  sort_values_perm : forall l, Permutation l (sort_values_desc l);
  sort_values_sorted :
    forall l, StronglySorted (fun a b => (snd b <= snd a)%nat)
                             (sort_values_desc l)
}.

Definition count_value (v : value) (vals : list value) : nat :=
  List.length (filter (value_eqb v) vals).

Definition notnull (v : value) : bool := negb (isnull v).

(** [series.unique()]: the values in order of first appearance, a missing
    value included (once). *)
Definition unique (vals : list value) : list value := distinct vals.

(** [series.value_counts()]: each value present with the number of rows
    holding it, missing values left out, most frequent first. *)
Definition value_counts `{SortValues} (vals : list value)
  : list (value * nat) :=
  sort_values_desc
    (map (fun v => (v, count_value v vals)) (distinct (filter notnull vals))).

(** The slice [s[:n]]: the first [n] entries, all of them when [n] is
    larger than the length; a negative [n] counts from the end. *)
Definition slice_to {A} (n : Z) (l : list A) : list A :=
  if 0 <=? n then firstn (Z.to_nat n) l
  else firstn (List.length l - Z.to_nat (- n)) l.

(** [pd.DataFrame(list)] on a list of scalars: one column, labelled 0. *)
Definition DataFrame_of_list (l : list value) : DataFrame :=
  match l with
  | [] => mkDF [] []
  | _ => mkDF [VInt 0] (enumerate_from 0 (map (fun v => [(VInt 0, v)]) l))
  end.

Definition same_lengths (d : list (value * list value)) : bool :=
  match d with
  | [] => true
  | kv :: d' =>
      forallb (fun kv' => (List.length (snd kv') =? List.length (snd kv))%nat) d'
  end.

(** [pd.DataFrame(dict)] on a dict of arrays (an Index is taken as a plain
    array, not aligned like a Series): one column per key, in insertion
    order; arrays of different lengths are a ValueError. *)
Definition DataFrame_of_dict (d : list (value * list value))
  : result DataFrame :=
  match d with
  | [] => Ok (mkDF [] [])
  | kv :: _ =>
      if same_lengths d then
        Ok (mkDF (map fst d)
                 (enumerate_from 0
                    (map (fun i => map (fun kv' => (fst kv', nth i (snd kv') VNull)) d)
                         (seq 0 (List.length (snd kv))))))
      else Raise (ValueError "All arrays must be of the same length")
  end.

(** [data[mask]]: the rows on which the mask holds. *)
Definition select_rows (data : DataFrame) (mask : list bool) : DataFrame :=
  mkDF (columns data)
       (map snd (filter (fun mr => fst mr) (combine mask (rows data)))).

(* ================================================================== *)
(** ** Parsing time stamps: [pd.to_datetime(col, format=...)] *)
(* ================================================================== *)

(** The fields read from a text, before they are checked. *)
Record datetime := mkDT {
  dt_year : Z; dt_month : Z; dt_day : Z;
  dt_hour : Z; dt_minute : Z; dt_second : Z
}.

(** A backtracking matcher: every way to match a prefix of the input, in
    the order a regular-expression engine tries them. *)
Definition matcher (A : Type) := list ascii -> list (A * list ascii).

Definition m_ret {A} (a : A) : matcher A := fun cs => [(a, cs)].

Definition m_bind {A B} (p : matcher A) (k : A -> matcher B) : matcher B :=
  fun cs => flat_map (fun ar => k (fst ar) (snd ar)) (p cs).

Definition m_alt {A} (p q : matcher A) : matcher A :=
  fun cs => p cs ++ q cs.

Definition digit_of (c : ascii) : option Z :=
  let n := Z.of_nat (nat_of_ascii c) in
  if (48 <=? n) && (n <=? 57) then Some (n - 48) else None.

(** One digit between [lo] and [hi]: the class [[lo-hi]]. *)
Definition digit_in (lo hi : Z) : matcher Z :=
  fun cs =>
    match cs with
    | c :: rest =>
        match digit_of c with
        | Some d => if (lo <=? d) && (d <=? hi) then [(d, rest)] else []
        | None => []
        end
    | [] => []
    end.

Definition two_digits (p q : matcher Z) : matcher Z :=
  m_bind p (fun a => m_bind q (fun b => m_ret (10 * a + b))).

Definition lit (c : ascii) : matcher unit :=
  fun cs =>
    match cs with
    | c' :: rest => if Ascii.eqb c' c then [(tt, rest)] else []
    | [] => []
    end.

(** The characters [\s] matches, among code points below 256. *)
Definition is_space (c : ascii) : bool :=
  let n := Z.of_nat (nat_of_ascii c) in
  ((9 <=? n) && (n <=? 13)) || ((28 <=? n) && (n <=? 32)) ||
  (n =? 133) || (n =? 160).

(** [\s+], greedy: the longest run first, then the shorter ones. *)
Fixpoint spaces1 (cs : list ascii) : list (unit * list ascii) :=
  match cs with
  | c :: rest => if is_space c then spaces1 rest ++ [(tt, rest)] else []
  | [] => []
  end.

(** The directives of the format, as strptime compiles them:
    %Y is \d\d\d\d, %m is 1[0-2]|0[1-9]|[1-9],
    %d is 3[0-1]|[1-2]\d|0[1-9]|[1-9]| [1-9],
    %H is 2[0-3]|[0-1]\d|\d, %M is [0-5]\d|\d, %S is 6[0-1]|[0-5]\d|\d. *)
Definition re_Y : matcher Z :=
  m_bind (digit_in 0 9) (fun a => m_bind (digit_in 0 9) (fun b =>
  m_bind (digit_in 0 9) (fun c => m_bind (digit_in 0 9) (fun d =>
  m_ret (1000 * a + 100 * b + 10 * c + d))))).

Definition re_m : matcher Z :=
  m_alt (two_digits (digit_in 1 1) (digit_in 0 2))
 (m_alt (two_digits (digit_in 0 0) (digit_in 1 9))
        (digit_in 1 9)).

Definition re_d : matcher Z :=
  m_alt (two_digits (digit_in 3 3) (digit_in 0 1))
 (m_alt (two_digits (digit_in 1 2) (digit_in 0 9))
 (m_alt (two_digits (digit_in 0 0) (digit_in 1 9))
 (m_alt (digit_in 1 9)
        (m_bind (lit " ") (fun _ => digit_in 1 9))))).

Definition re_H : matcher Z :=
  m_alt (two_digits (digit_in 2 2) (digit_in 0 3))
 (m_alt (two_digits (digit_in 0 1) (digit_in 0 9))
        (digit_in 0 9)).

Definition re_M : matcher Z :=
  m_alt (two_digits (digit_in 0 5) (digit_in 0 9)) (digit_in 0 9).

Definition re_S : matcher Z :=
  m_alt (two_digits (digit_in 6 6) (digit_in 0 1))
 (m_alt (two_digits (digit_in 0 5) (digit_in 0 9))
        (digit_in 0 9)).

(** The format "%Y/%m/%d %H:%M:%S" as a matcher; the blank of the format
    stands for [\s+]. *)
Definition format_regex : matcher datetime :=
  m_bind re_Y (fun y => m_bind (lit "/") (fun _ =>
  m_bind re_m (fun mo => m_bind (lit "/") (fun _ =>
  m_bind re_d (fun d => m_bind spaces1 (fun _ =>
  m_bind re_H (fun h => m_bind (lit ":") (fun _ =>
  m_bind re_M (fun mi => m_bind (lit ":") (fun _ =>
  m_bind re_S (fun s => m_ret (mkDT y mo d h mi s)))))))))))).

Definition is_leap (y : Z) : bool :=
  (y mod 4 =? 0) && (negb (y mod 100 =? 0) || (y mod 400 =? 0)).

Definition days_in_month (y m : Z) : Z :=
  match m with
  | 2 => if is_leap y then 29 else 28
  | 4 | 6 | 9 | 11 => 30
  | _ => 31
  end.

Definition days_before_year (y : Z) : Z :=
  let y1 := y - 1 in y1 * 365 + y1 / 4 - y1 / 100 + y1 / 400.

Definition days_before_month (y m : Z) : Z :=
  match m with
  | 1 => 0 | 2 => 31 | 3 => 59 | 4 => 90 | 5 => 120 | 6 => 151
  | 7 => 181 | 8 => 212 | 9 => 243 | 10 => 273 | 11 => 304 | _ => 334
  end + (if (2 <? m) && is_leap y then 1 else 0).

(** [date(y, m, d).toordinal()]: day 1 is 0001-01-01. *)
Definition toordinal (y m d : Z) : Z :=
  days_before_year y + days_before_month y m + d.

(** What [date(y, m, d)] accepts. *)
Definition valid_date (y m d : Z) : bool :=
  (1 <=? y) && (y <=? 9999) && (1 <=? m) && (m <=? 12) &&
  (1 <=? d) && (d <=? days_in_month y m).

Definition epoch_seconds (t : datetime) : Z :=
  (toordinal (dt_year t) (dt_month t) (dt_day t) - 719163) * 86400 +
  dt_hour t * 3600 + dt_minute t * 60 + dt_second t.

Definition epoch_ns (t : datetime) : Z := epoch_seconds t * 1000000000.

(** The int64 range of datetime64[ns]; its lowest value is NaT. *)
Definition in_bounds (ns : Z) : bool :=
  (- 2 ^ 63 <? ns) && (ns <? 2 ^ 63).

(** One text under the format: the first match of the regular expression
    must use the whole text, the date must exist, and the instant must fit
    in 64 bits of nanoseconds.  Anything else is a ValueError. *)
Definition strptime (s : string) : result Z :=
  match format_regex (list_ascii_of_string s) with
  | [] => Raise (ValueError "time data does not match format")
  | (t, rest) :: _ =>
      match rest with
      | _ :: _ => Raise (ValueError "unconverted data remains")
      | [] =>
          if valid_date (dt_year t) (dt_month t) (dt_day t) then
            if in_bounds (epoch_ns t) then Ok (epoch_ns t)
            else Raise (ValueError "Out of bounds nanosecond timestamp")
          else Raise (ValueError "day is out of range for month")
      end
  end.

(** One cell: a missing value stays missing (NaT), a time stamp stays what
    it is, a text is parsed, and a number, written out, has no "/" and so
    never matches the format. *)
Definition to_datetime_cell (v : value) : result value :=
  match v with
  | VNull => Ok VNull
  | VTime ns => Ok (VTime ns)
  | VStr s => rbind (strptime s) (fun ns => Ok (VTime ns))
  | VInt _ | VFloat _ => Raise (ValueError "time data does not match format")
  end.

(** [pd.to_datetime(vals, format="%Y/%m/%d %H:%M:%S")], with the default
    [errors='raise']: the first cell that fails aborts the conversion. *)
Fixpoint to_datetime (vals : list value) : result (list value) :=
  match vals with
  | [] => Ok []
  | v :: vals' =>
      rbind (to_datetime_cell v) (fun t =>
      rbind (to_datetime vals') (fun ts => Ok (t :: ts)))
  end.

Definition two_chars (n : Z) : list ascii :=
  [ascii_of_nat (Z.to_nat (48 + n / 10)); ascii_of_nat (Z.to_nat (48 + n mod 10))].

Definition four_chars (n : Z) : list ascii :=
  [ascii_of_nat (Z.to_nat (48 + n / 1000));
   ascii_of_nat (Z.to_nat (48 + (n / 100) mod 10));
   ascii_of_nat (Z.to_nat (48 + (n / 10) mod 10));
   ascii_of_nat (Z.to_nat (48 + n mod 10))].

(** The text of a date and time under the format, fields zero-padded:
    YYYY/MM/DD HH:MM:SS. *)
Definition strftime (t : datetime) : string :=
  string_of_list_ascii
    (four_chars (dt_year t) ++ "/"%char :: two_chars (dt_month t) ++
     "/"%char :: two_chars (dt_day t) ++ " "%char :: two_chars (dt_hour t) ++
     ":"%char :: two_chars (dt_minute t) ++ ":"%char :: two_chars (dt_second t)).

(** A date and time that exists, in the years every datetime64[ns] holds. *)
Definition well_formed (t : datetime) : Prop :=
  1678 <= dt_year t <= 2261 /\
  1 <= dt_month t <= 12 /\
  1 <= dt_day t <= days_in_month (dt_year t) (dt_month t) /\
  0 <= dt_hour t <= 23 /\ 0 <= dt_minute t <= 59 /\ 0 <= dt_second t <= 59.

(* ================================================================== *)
(** ** data_preprocessing.py *)
(* ================================================================== *)

Module DataPreprocessing.

Local Open Scope result_scope.
Local Open Scope io_scope.

(** The sum of the payment lines of each order, on every row of the order,
    in a new column; the per-line column is then dropped. *)
Definition create_total_payment_value (data : DataFrame) : result DataFrame :=
  payment_value <- getitem data "payment_value" ;;
  order_id <- getitem data "order_id" ;;
  total_payment <- transform_sum payment_value order_id ;;
  let data := setitem data "total_payment" total_payment in
  drop_column data "payment_value".

Definition duplicates (data : DataFrame) : DataFrame :=
  drop_duplicates data.

(** The three time-stamp columns, converted one after the other. *)
Definition convert_to_datetime (data : DataFrame) : result DataFrame :=
  purchase <- getattr data "order_purchase_timestamp" ;;
  purchase <- to_datetime purchase ;;
  let data := setitem data "order_purchase_timestamp" purchase in
  delivered <- getattr data "order_delivered_customer_date" ;;
  delivered <- to_datetime delivered ;;
  let data := setitem data "order_delivered_customer_date" delivered in
  estimated <- getattr data "order_estimated_delivery_date" ;;
  estimated <- to_datetime estimated ;;
  let data := setitem data "order_estimated_delivery_date" estimated in
  Ok data.

Definition repeat_and_first_time (data : DataFrame)
  : io (DataFrame * DataFrame) :=
  repeaters <~ lift (groupby_filter data "customer_unique_id"
                                    (fun x => (1 <? len x)%nat)) ;;
  first_timers <~ lift (groupby_filter data "customer_unique_id"
                                       (fun x => (len x =? 1)%nat)) ;;
  save_csv repeaters "repeater_data" ;;;
  save_csv first_timers "first_timers_data" ;;;
  ret (repeaters, first_timers).

(** The two assignments write into the caller's tables, so the function is
    given as: the two tables as it leaves them, and then what it does.  The
    labelled tables are stacked, the column "Unnamed: 0" is dropped, the
    index is reset and the result is saved. *)
Definition regenerate_dataset_with_indicators
           (repeaters first_timers : DataFrame)
  : (DataFrame * DataFrame) * io unit :=
  let repeaters := setitem_scalar repeaters "repeater" (VInt 1) in
  let first_timers := setitem_scalar first_timers "repeater" (VInt 0) in
  ((repeaters, first_timers),
   combined_df <~ lift (concat repeaters first_timers) ;;
   combined_df <~ lift (dropped <- drop_column combined_df "Unnamed: 0" ;;
                        reset_index dropped) ;;
   save_csv combined_df "combined_data").

Definition create_user_ratings_df (data : DataFrame) : io unit :=
  user_prod_reviewscore_data <~ lift (
    customers <- getitem data "customer_unique_id" ;;
    products <- getitem data "product_id" ;;
    scores <- getitem data "review_score" ;;
    means <- groupby2_agg_mean customers products scores ;;
    Ok (reset_index2 "customer_unique_id" "product_id" "mean" means)) ;;
  let user_prod_reviewscore_data :=
    rename user_prod_reviewscore_data
           [(VStr "mean", VStr "estimator");
            (VStr "product_id", VStr "productId")] in
  save_csv user_prod_reviewscore_data "repeat_user_ratings_data".

(** [main], from the table the query returns on. *)
Definition main (olist_data : DataFrame) : io unit :=
  olist_data <~ lift (create_total_payment_value olist_data) ;;
  let olist_data := duplicates olist_data in
  olist_data <~ lift (convert_to_datetime olist_data) ;;
  datasets <~ repeat_and_first_time olist_data ;;
  let (mutated, run) :=
    regenerate_dataset_with_indicators (fst datasets) (snd datasets) in
  run ;;;
  create_user_ratings_df (fst mutated).

End DataPreprocessing.

(* ================================================================== *)
(** ** models.py: the popularity rankings *)
(* ================================================================== *)

Module Models.

Local Open Scope result_scope.
Local Open Scope io_scope.

Section Rankings.

Context `{SortValues}.

(** [series.value_counts().sort_values(ascending=False)[:n_recs].index] *)
Definition top_n_index (product_id : list value) (n_recs : Z) : list value :=
  map fst (slice_to n_recs (sort_values_desc (value_counts product_id))).

Definition find_popular_items (data : DataFrame) (n_recs : Z) : io unit :=
  top_n_items <~ lift (product_id <- getattr data "product_id" ;;
                       Ok (top_n_index product_id n_recs)) ;;
  let top_n_items_df := DataFrame_of_list top_n_items in
  save_csv top_n_items_df "hot_items".

(** The body of the loop over the states: the ranking of one state. *)
Definition top_in_area (data : DataFrame) (customer_state : list value)
           (n_recs : Z) (state : value) : result (list value) :=
  let location_df :=
    select_rows data (map (fun s => value_cmp_eq s state) customer_state) in
  product_id <- getattr location_df "product_id" ;;
  Ok (top_n_index product_id n_recs).

Fixpoint top_in_area_loop (data : DataFrame) (customer_state : list value)
         (n_recs : Z) (all_states : list value)
  : result (list (value * list value)) :=
  match all_states with
  | [] => Ok []
  | state :: states =>
      top_n_items <- top_in_area data customer_state n_recs state ;;
      others <- top_in_area_loop data customer_state n_recs states ;;
      Ok ((state, top_n_items) :: others)
  end.

Definition popular_in_your_area (data : DataFrame) (n_recs : Z) : io unit :=
  top_n_items_df <~ lift (
    customer_state <- getattr data "customer_state" ;;
    let all_states := unique customer_state in
    top_in_area_dict <-
      top_in_area_loop data customer_state n_recs all_states ;;
    DataFrame_of_dict top_in_area_dict) ;;
  save_csv top_n_items_df "in_your_area".

End Rankings.

End Models.

(* ================================================================== *)
(** ** A descending sort *)
(* ================================================================== *)

(** A stable descending insertion sort, one of the sorts [SortValues]
    stands for: labels with equal counts keep their order. *)
Fixpoint insert_desc (x : value * nat) (l : list (value * nat))
  : list (value * nat) :=
  match l with
  | [] => [x]
  | y :: l' => if (snd y <=? snd x)%nat then x :: l else y :: insert_desc x l'
  end.

Fixpoint stable_sort_desc (l : list (value * nat)) : list (value * nat) :=
  match l with
  | [] => []
  | x :: l' => insert_desc x (stable_sort_desc l')
  end.

(* ================================================================== *)
(** ** Notions used in the statements *)
(* ================================================================== *)

(** The rows of order [o]. *)
Definition rows_of_order (data : DataFrame) (o : value) : list (Z * row) :=
  filter (fun ir => value_eqb (cell "order_id" (snd ir)) o) (rows data).

(** The payment lines of order [o]: the per-line payment values on its
    rows, in row order. *)
Definition payment_lines (data : DataFrame) (o : value) : list value :=
  map (fun ir => cell "payment_value" (snd ir)) (rows_of_order data o).

(** Column [c] holds numbers (int64 or float64, NaN allowed). *)
Definition numeric_column (data : DataFrame) (c : value) : Prop :=
  forall ir, In ir (rows data) -> is_numeric (cell c (snd ir)) = true.

(** The total laid on a row by [create_total_payment_value]. *)
Definition total_of (data : DataFrame) (ir : Z * row) : value :=
  let keys := map (fun ir => cell "order_id" (snd ir)) (rows data) in
  let vals := map (fun ir => cell "payment_value" (snd ir)) (rows data) in
  let k := cell "order_id" (snd ir) in
  if isnull k then VNull
  else sum_group (forallb is_int vals &&
                  forallb (fun k => negb (isnull k)) keys)
                 (group_cells keys vals k).

Definition customer_of (ir : Z * row) : value :=
  cell "customer_unique_id" (snd ir).

(** The rows of customer [c]. *)
Definition rows_of_customer (data : DataFrame) (c : value) : list (Z * row) :=
  filter (fun ir => value_eqb (customer_of ir) c) (rows data).

(** The orders customer [c] appears in. *)
Definition orders_of_customer (data : DataFrame) (c : value) : list value :=
  distinct (map (fun ir => cell "order_id" (snd ir)) (rows_of_customer data c)).

(** No row lacks its customer identifier. *)
Definition customers_present (data : DataFrame) : Prop :=
  forall ir, In ir (rows data) -> customer_of ir <> VNull.

(** What [groupby('customer_unique_id').filter(lambda x: f(len(x)))]
    keeps: the rows with a customer whose number of rows passes [f]. *)
Definition kept (data : DataFrame) (f : nat -> bool) (ir : Z * row) : bool :=
  negb (isnull (customer_of ir)) &&
  f (List.length (rows_of_customer data (customer_of ir))).

(** The review scores customer [c] gave product [p], in row order. *)
Definition scores_of (data : DataFrame) (c p : value) : list value :=
  map (fun ir => cell "review_score" (snd ir))
      (filter (fun ir => key2_eqb (customer_of ir, cell "product_id" (snd ir))
                                  (c, p))
              (rows data)).

(** The lines of a ratings file about customer [c] and product [p]. *)
Definition ratings_of (out : csv) (c p : value) : list row :=
  filter (fun r => key2_eqb (cell "customer_unique_id" r, cell "productId" r)
                            (c, p))
         (records out).

Definition product_ids (data : DataFrame) : list value :=
  map (fun ir => cell "product_id" (snd ir)) (rows data).

(** The product identifiers present in a table, each once. *)
Definition distinct_products (data : DataFrame) : list value :=
  distinct (filter notnull (product_ids data)).

(** The number of rows of a table that carry product [p]. *)
Definition purchases (data : DataFrame) (p : value) : nat :=
  count_value p (product_ids data).

(** The rows of a table whose customer state is [state]. *)
Definition rows_in_state (data : DataFrame) (state : value) : DataFrame :=
  select_rows data
    (map (fun ir => value_cmp_eq (cell "customer_state" (snd ir)) state)
         (rows data)).

(** A list of products in descending order of purchases in [data]. *)
Definition ranked (data : DataFrame) (l : list value) : Prop :=
  StronglySorted (fun p q => (purchases data q <= purchases data p)%nat) l.

(** The counts of the values present, before they are sorted. *)
Definition counted (prods : list value) : list (value * nat) :=
  map (fun v => (v, count_value v prods)) (distinct (filter notnull prods)).

(** The three columns [convert_to_datetime] converts. *)
Definition timestamp_columns : list value :=
  [VStr "order_purchase_timestamp"; VStr "order_delivered_customer_date";
   VStr "order_estimated_delivery_date"].

Definition is_timestamp_column (c : value) : bool :=
  existsb (value_eqb c) timestamp_columns.

(** The shape of a text the format can match: a year of four digits, "/",
    a month of one or two digits, "/", a day of one or two digits (or a
    blank and one digit), blanks, then hour, minute and second of one or two
    digits each, separated by ":". *)
Definition all_digits (l : list ascii) : Prop :=
  Forall (fun c => digit_of c <> None) l.

Definition short_number (l : list ascii) : Prop :=
  all_digits l /\ (1 <= List.length l <= 2)%nat.

Definition day_text (l : list ascii) : Prop :=
  short_number l \/ exists c, l = [" "%char; c] /\ digit_of c <> None.

Definition blanks (l : list ascii) : Prop :=
  l <> [] /\ Forall (fun c => is_space c = true) l.

Definition format_shaped (s : string) : Prop :=
  exists Y M D W h m sec,
    list_ascii_of_string s =
      Y ++ "/"%char :: M ++ "/"%char :: D ++ W ++
      h ++ ":"%char :: m ++ ":"%char :: sec /\
    all_digits Y /\ List.length Y = 4%nat /\
    short_number M /\ day_text D /\ blanks W /\
    short_number h /\ short_number m /\ short_number sec.

(** The cell a conversion that succeeds leaves. *)
Definition converted_cell (v : value) : value :=
  match to_datetime_cell v with
  | Ok t => t
  | Raise _ => VNull
  end.

(** A table with column [c] converted, cell by cell. *)
Definition convert_column (c : value) (data : DataFrame) : DataFrame :=
  mkDF (columns data)
       (map (fun ir => (fst ir,
                        set_cell c (converted_cell (cell c (snd ir))) (snd ir)))
            (rows data)).

(** The cells of a row after the three conversions. *)
Definition converted_row (r : row) : row :=
  set_cell "order_estimated_delivery_date"
    (converted_cell (cell "order_estimated_delivery_date" r))
    (set_cell "order_delivered_customer_date"
       (converted_cell (cell "order_delivered_customer_date" r))
       (set_cell "order_purchase_timestamp"
          (converted_cell (cell "order_purchase_timestamp" r)) r)).

(** The character of a digit. *)
Definition digit_char (k : Z) : ascii := ascii_of_nat (Z.to_nat (48 + k)).

(** [first_match p cs x]: [x] is the match the engine tries first. *)
Definition first_match {A : Type} (p : matcher A) (cs : list ascii)
           (x : A * list ascii) : Prop :=
  exists others, p cs = x :: others.

(* ================================================================== *)
(** ** Example tables *)
(* ================================================================== *)

Definition order_row (customer order product : value) (payment : value)
           (score : value) (state : value) : row :=
  [(VStr "customer_unique_id", customer); (VStr "customer_state", state);
   (VStr "order_id", order); (VStr "product_id", product);
   (VStr "payment_value", payment); (VStr "review_score", score)].

Definition order_columns : list value :=
  [VStr "customer_unique_id"; VStr "customer_state"; VStr "order_id";
   VStr "product_id"; VStr "payment_value"; VStr "review_score"].

(** Order o1 is paid in two lines, 30 and 20; order o2 in one. *)
Definition voucher_orders : DataFrame :=
  mkDF order_columns
       [(0, order_row "c1" "o1" "p1" (VFloat (Q2Qc 30)) (VInt 4) "SP");
        (1, order_row "c1" "o1" "p1" (VFloat (Q2Qc 20)) (VInt 4) "SP");
        (2, order_row "c2" "o2" "p2" (VFloat (Q2Qc 75)) (VInt 5) "RJ")].

(** A cleaned table (payment column already collapsed) in which customer
    c1 has a single order of two products, c2 has two orders and c3 one. *)
Definition cleaned_row (customer order product score state : value) : row :=
  [(VStr "customer_unique_id", customer); (VStr "customer_state", state);
   (VStr "order_id", order); (VStr "product_id", product);
   (VStr "review_score", score)].

Definition cleaned_columns : list value :=
  [VStr "customer_unique_id"; VStr "customer_state"; VStr "order_id";
   VStr "product_id"; VStr "review_score"].

Definition cleaned_orders : DataFrame :=
  mkDF cleaned_columns
       [(0, cleaned_row "c1" "o1" "p1" (VInt 5) "SP");
        (1, cleaned_row "c1" "o1" "p2" (VInt 3) "SP");
        (2, cleaned_row "c2" "o2" "p1" (VInt 4) "RJ");
        (3, cleaned_row "c2" "o3" "p1" (VInt 5) "RJ");
        (4, cleaned_row "c3" "o4" "p3" (VInt 2) "SP")].

(** A cleaned table with a row whose customer identifier is missing. *)
Definition orders_with_unknown_customer : DataFrame :=
  mkDF cleaned_columns
       [(0, cleaned_row "c1" "o1" "p1" (VInt 5) "SP");
        (1, cleaned_row VNull "o2" "p2" (VInt 3) "SP")].

(** Five purchases of A, three of B, three of C and one of D, all in one
    state. *)
Definition purchase_row (product state : value) : row :=
  [(VStr "customer_state", state); (VStr "product_id", product)].

Definition hot_orders : DataFrame :=
  mkDF [VStr "customer_state"; VStr "product_id"]
       (enumerate_from 0
          (map (fun p => purchase_row (VStr p) "SP")
               ["B"; "A"; "C"; "A"; "D"; "A"; "C"; "B"; "A"; "C"; "B"; "A"])).

(** State SP buys two products, state RJ a single one. *)
Definition two_states : DataFrame :=
  mkDF [VStr "customer_state"; VStr "product_id"]
       [(0, purchase_row "p1" "SP"); (1, purchase_row "p2" "SP");
        (2, purchase_row "p1" "SP"); (3, purchase_row "p3" "RJ")].

Definition timestamps_row (purchase delivered estimated : value) : row :=
  [(VStr "order_id", VStr "o1");
   (VStr "order_purchase_timestamp", purchase);
   (VStr "order_delivered_customer_date", delivered);
   (VStr "order_estimated_delivery_date", estimated)].

Definition timestamps_columns : list value :=
  [VStr "order_id"; VStr "order_purchase_timestamp";
   VStr "order_delivered_customer_date"; VStr "order_estimated_delivery_date"].

(** An order that has not been delivered yet: no delivery date. *)
Definition undelivered_order : DataFrame :=
  mkDF timestamps_columns
       [(0, timestamps_row "2018/05/01 10:00:00" VNull "2018/05/20 00:00:00")].

(** An order whose purchase date is written day first. *)
Definition misdated_order : DataFrame :=
  mkDF timestamps_columns
       [(0, timestamps_row "05/01/2018" "2018/05/09 16:30:00"
                           "2018/05/20 00:00:00")].


(* ================================================================== *)
(** ** Further notions used in the statements *)
(* ================================================================== *)

(** [subseq l1 l2]: [l1] is [l2] with some elements left out, the others
    in their order. *)
Inductive subseq {A : Type} : list A -> list A -> Prop :=
| subseq_nil : subseq [] []
| subseq_skip (x : A) (l1 l2 : list A) : subseq l1 l2 -> subseq l1 (x :: l2)
| subseq_keep (x : A) (l1 l2 : list A) :
    subseq l1 l2 -> subseq (x :: l1) (x :: l2).

Definition order_of (ir : Z * row) : value := cell "order_id" (snd ir).

(** A table with every customer on two orders, already collapsed and
    carrying the column a CSV saved with its index has when read back. *)
Definition reloaded_row (n : Z) (customer product score : value) : row :=
  [(VStr "Unnamed: 0", VInt n); (VStr "customer_unique_id", customer);
   (VStr "product_id", product); (VStr "review_score", score)].

Definition reloaded_columns : list value :=
  [VStr "Unnamed: 0"; VStr "customer_unique_id"; VStr "product_id";
   VStr "review_score"].

Definition reloaded_repeaters : DataFrame :=
  mkDF reloaded_columns
       [(0, reloaded_row 0 "c1" "p1" (VInt 4));
        (2, reloaded_row 2 "c1" "p1" (VInt 5))].

Definition reloaded_first_timers : DataFrame :=
  mkDF reloaded_columns [(1, reloaded_row 1 "c2" "p2" (VInt 3))].

(** Every cell of row [r] labelled [c] holds [v]. *)
Definition cells_are (c v : value) (r : row) : Prop :=
  forall kv, In kv r -> has_label c kv = true -> snd kv = v.

(** Fields that can be written with the digits of the format, whether or
    not the day exists in the month. *)
Definition fields_in_range (t : datetime) : Prop :=
  0 <= dt_year t <= 9999 /\ 1 <= dt_month t <= 12 /\ 1 <= dt_day t <= 31 /\
  0 <= dt_hour t <= 23 /\ 0 <= dt_minute t <= 59 /\ 0 <= dt_second t <= 59.

(** The line of the combined file made from a row labelled [label]. *)
Definition combined_record (label : Z) (ir : Z * row) : row :=
  (VStr "index", VInt (fst ir)) ::
  drop_cell "Unnamed: 0" (set_cell "repeater" (VInt label) (snd ir)).

(** A count, as a rational. *)
Definition count_Qc (n : nat) : Qc := Q2Qc (inject_Z (Z.of_nat n)).

(** Every review score of the table lies between [lo] and [hi]. *)
Definition scores_within (data : DataFrame) (lo hi : Qc) : Prop :=
  forall ir q, In ir (rows data) ->
    as_number (cell "review_score" (snd ir)) = Some q ->
    (lo <= q)%Qc /\ (q <= hi)%Qc.

(** The customer states of a table, in order of first appearance. *)
Definition states_of (data : DataFrame) : list value :=
  unique (map (fun ir => cell "customer_state" (snd ir)) (rows data)).

(** The number of products bought in a state. *)
Definition products_in_state (data : DataFrame) (state : value) : nat :=
  List.length (distinct_products (rows_in_state data state)).

(** The columns the query selects, in its order; it names the seller state
    twice. *)
Definition query_columns : list value :=
  [VStr "customer_unique_id"; VStr "customer_zip_code_prefix";
   VStr "customer_city"; VStr "customer_state"; VStr "order_id";
   VStr "product_id"; VStr "seller_id"; VStr "price";
   VStr "order_purchase_timestamp"; VStr "order_delivered_customer_date";
   VStr "order_estimated_delivery_date"; VStr "payment_type";
   VStr "payment_installments"; VStr "payment_value"; VStr "review_score";
   VStr "product_weight_g"; VStr "product_category_name_english";
   VStr "seller_zip_code_prefix"; VStr "seller_state"; VStr "seller_state"].

Definition query_row (customer order product : string) (purchase : string)
           (payment : Z) (score : Z) : row :=
  combine query_columns
    [VStr customer; VInt 1310; VStr "sao paulo"; VStr "SP"; VStr order;
     VStr product; VStr "s1"; VFloat (Q2Qc (inject_Z payment));
     VStr purchase; VNull; VStr "2018/06/01 00:00:00"; VStr "voucher";
     VInt 1; VFloat (Q2Qc (inject_Z payment)); VInt score; VInt 500;
     VStr "toys"; VInt 4100; VStr "SP"; VStr "SP"].

(** A result of the query: customer c1 paid order o1 in two voucher lines
    and came back for order o3; customer c2 ordered once. *)
Definition query_result : DataFrame :=
  mkDF query_columns
       [(0, query_row "c1" "o1" "p1" "2018/05/01 10:00:00" 30 4);
        (1, query_row "c1" "o1" "p1" "2018/05/01 10:00:00" 20 4);
        (2, query_row "c2" "o2" "p2" "2018/05/02 11:30:00" 75 5);
        (3, query_row "c1" "o3" "p1" "2018/05/09 09:15:00" 40 5)].
(* ================================================================== *)
(** ** Basic facts on values and cells *)
(* ================================================================== *)

Lemma Qc_eqb_eq (a b : Qc) : Qc_eqb a b = true <-> a = b.
Proof.
  unfold Qc_eqb. rewrite Qeq_bool_iff. split.
  - apply Qc_is_canon.
  - intros ->. reflexivity.
Qed.

Lemma value_eqb_eq (a b : value) : value_eqb a b = true <-> a = b.
Proof.
  destruct a, b; simpl; try (split; [discriminate | congruence]).
  - tauto.
  - rewrite Z.eqb_eq. split; congruence.
  - rewrite Qc_eqb_eq. split; congruence.
  - rewrite String.eqb_eq. split; congruence.
  - rewrite Z.eqb_eq. split; congruence.
Qed.

Lemma value_eqb_refl (a : value) : value_eqb a a = true.
Proof. apply value_eqb_eq. reflexivity. Qed.

Lemma value_eqb_neq (a b : value) : value_eqb a b = false <-> a <> b.
Proof.
  rewrite <- value_eqb_eq. destruct (value_eqb a b); split; congruence.
Qed.

Lemma value_eqb_sym (a b : value) : value_eqb a b = value_eqb b a.
Proof.
  destruct (value_eqb a b) eqn:E.
  - apply value_eqb_eq in E. subst. symmetry. apply value_eqb_refl.
  - symmetry. apply value_eqb_neq. apply value_eqb_neq in E. congruence.
Qed.

Lemma row_eqb_eq (a b : row) : row_eqb a b = true <-> a = b.
Proof.
  unfold row_eqb. revert b.
  induction a as [|[k v] a IH]; intros [|[k' v'] b]; simpl;
    try (split; [discriminate | congruence]).
  - tauto.
  - rewrite andb_true_iff in *. specialize (IH b).
    rewrite !andb_true_iff, !value_eqb_eq. rewrite andb_true_iff in IH.
    split.
    + intros [Hl [[-> ->] Hf]]. f_equal. apply IH. split; assumption.
    + intros H. injection H as -> -> ->.
      assert (E : b = b) by reflexivity. apply IH in E. tauto.
Qed.

Lemma row_eqb_refl (a : row) : row_eqb a a = true.
Proof. apply row_eqb_eq. reflexivity. Qed.

(* ================================================================== *)
(** ** Cells under writes and drops *)
(* ================================================================== *)

Lemma cell_set_cell_same (c v : value) (r : row) :
  cell c (set_cell c v r) = v.
Proof.
  unfold set_cell, cell, has_column.
  destruct (existsb (has_label c) r) eqn:E.
  - induction r as [|kv r IH]; simpl in *; [discriminate|].
    destruct (has_label c kv) eqn:Hkv; simpl.
    + unfold has_label in *. simpl. rewrite Hkv. reflexivity.
    + rewrite Hkv. simpl in E. apply IH. exact E.
  - induction r as [|kv r IH]; simpl in *.
    + unfold has_label. simpl. rewrite value_eqb_refl. reflexivity.
    + apply orb_false_iff in E. destruct E as [E1 E2].
      rewrite E1. apply IH. exact E2.
Qed.

Lemma cell_set_cell_other (c c' v : value) (r : row) :
  c <> c' -> cell c' (set_cell c v r) = cell c' r.
Proof.
  intros Hne. unfold set_cell, cell.
  destruct (has_column c r).
  - induction r as [|kv r IH]; simpl; [reflexivity|].
    destruct (has_label c kv) eqn:Hkv.
    + unfold has_label in *. simpl.
      apply value_eqb_eq in Hkv. rewrite Hkv.
      assert (E : value_eqb c c' = false) by (apply value_eqb_neq; exact Hne).
      rewrite E. exact IH.
    + destruct (has_label c' kv); [reflexivity | exact IH].
  - induction r as [|kv r IH]; simpl.
    + unfold has_label. simpl.
      assert (E : value_eqb c c' = false) by (apply value_eqb_neq; exact Hne).
      rewrite E. reflexivity.
    + destruct (has_label c' kv); [reflexivity | exact IH].
Qed.

Lemma cell_drop_cell_other (c c' : value) (r : row) :
  c <> c' -> cell c' (drop_cell c r) = cell c' r.
Proof.
  intros Hne. unfold drop_cell, cell.
  induction r as [|kv r IH]; simpl; [reflexivity|].
  destruct (has_label c kv) eqn:Hkv; simpl.
  - assert (E : has_label c' kv = false).
    { unfold has_label in *. apply value_eqb_eq in Hkv. rewrite Hkv.
      apply value_eqb_neq. exact Hne. }
    rewrite E. exact IH.
  - destruct (has_label c' kv); [reflexivity | exact IH].
Qed.

Lemma has_column_drop_cell (c : value) (r : row) :
  has_column c (drop_cell c r) = false.
Proof.
  unfold has_column, drop_cell.
  induction r as [|kv r IH]; simpl; [reflexivity|].
  destruct (has_label c kv) eqn:Hkv; simpl; [exact IH|].
  rewrite Hkv. exact IH.
Qed.

Lemma set_cells_map (c : value) (g : Z * row -> value) (rs : list (Z * row)) :
  set_cells c rs (map g rs) =
  map (fun ir => (fst ir, set_cell c (g ir) (snd ir))) rs.
Proof.
  induction rs as [|[i r] rs IH]; simpl; [reflexivity|].
  rewrite IH. reflexivity.
Qed.

Lemma getitem_ok (data : DataFrame) (c : value) :
  count_label c (columns data) = 1%nat ->
  getitem data c = Ok (map (fun ir => cell c (snd ir)) (rows data)).
Proof. intros E. unfold getitem. rewrite E. reflexivity. Qed.

Lemma getattr_ok (data : DataFrame) (name : string) :
  count_label name (columns data) = 1%nat ->
  getattr data name = Ok (map (fun ir => cell name (snd ir)) (rows data)).
Proof. intros E. unfold getattr. rewrite E. reflexivity. Qed.

Lemma count_label_existsb (c : value) (cols : list value) :
  count_label c cols <> 0%nat -> existsb (value_eqb c) cols = true.
Proof.
  unfold count_label. induction cols as [|c' cols IH]; simpl.
  - congruence.
  - destruct (value_eqb c c'); simpl; [reflexivity | exact IH].
Qed.

Lemma existsb_add_label (c c' : value) (cols : list value) :
  existsb (value_eqb c) cols = true ->
  existsb (value_eqb c) (add_label c' cols) = true.
Proof.
  intros E. unfold add_label. destruct (existsb (value_eqb c') cols).
  - exact E.
  - rewrite existsb_app, E. reflexivity.
Qed.

(* ================================================================== *)
(** ** Sums *)
(* ================================================================== *)

Lemma sum_ints_numbers (l : list value) :
  forallb is_int l = true ->
  Q2Qc (inject_Z (sum_ints l)) = sum_numbers (map as_number l).
Proof.
  induction l as [|v l IH]; simpl; [reflexivity|].
  destruct v; simpl; try discriminate.
  intros Hl. rewrite <- (IH Hl).
  unfold Qcplus. apply Q2Qc_eq_iff. unfold Q2Qc. cbn [this].
  rewrite !Qred_correct, inject_Z_plus. reflexivity.
Qed.

Lemma forallb_group_cells (f : value -> bool) (keys vals : list value) k :
  forallb f vals = true -> forallb f (group_cells keys vals k) = true.
Proof.
  unfold group_cells. revert vals.
  induction keys as [|k' keys IH]; intros [|v vals]; simpl; try reflexivity.
  intros Hv. apply andb_true_iff in Hv. destruct Hv as [Hv Hvs].
  destruct (value_eqb k' k); simpl.
  - rewrite Hv. apply IH. exact Hvs.
  - apply IH. exact Hvs.
Qed.

Lemma as_number_sum_group (as_int : bool) (cells : list value) :
  (as_int = true -> forallb is_int cells = true) ->
  as_number (sum_group as_int cells) = Some (sum_numbers (map as_number cells)).
Proof.
  intros Hint. unfold sum_group. destruct as_int; simpl.
  - rewrite sum_ints_numbers; [reflexivity | apply Hint; reflexivity].
  - reflexivity.
Qed.

Lemma group_cells_rows {A : Type} (key val : A -> value) (k : value)
      (l : list A) :
  group_cells (map key l) (map val l) k =
  map val (filter (fun a => value_eqb (key a) k) l).
Proof.
  unfold group_cells.
  induction l as [|a l IH]; simpl; [reflexivity|].
  destruct (value_eqb (key a) k); simpl; rewrite IH; reflexivity.
Qed.

(* ================================================================== *)
(** ** Deduplication *)
(* ================================================================== *)

Lemma drop_dups_idempotent (rs : list (Z * row)) :
  forall seen, drop_dups seen (drop_dups seen rs) = drop_dups seen rs.
Proof.
  induction rs as [|[i r] rs IH]; intros seen; simpl; [reflexivity|].
  destruct (existsb (row_eqb r) seen) eqn:E.
  - apply IH.
  - simpl. rewrite E. rewrite IH. reflexivity.
Qed.

(** C9: deduplication is idempotent: dropping the duplicate rows of a table
    whose duplicates were already dropped gives back the same table. *)
Theorem duplicates_idempotent (data : DataFrame) :
  DataPreprocessing.duplicates (DataPreprocessing.duplicates data) =
  DataPreprocessing.duplicates data.
Proof.
  unfold DataPreprocessing.duplicates, drop_duplicates. simpl.
  rewrite drop_dups_idempotent. reflexivity.
Qed.

(* ================================================================== *)
(** ** Payment totals *)
(* ================================================================== *)

Lemma filter_map_comm {A B : Type} (f : B -> bool) (h : A -> B) (l : list A) :
  filter f (map h l) = map h (filter (fun a => f (h a)) l).
Proof.
  induction l as [|a l IH]; simpl; [reflexivity|].
  destruct (f (h a)); simpl; rewrite IH; reflexivity.
Qed.

Lemma filter_ext_in_bool {A : Type} (f g : A -> bool) (l : list A) :
  (forall a, In a l -> f a = g a) -> filter f l = filter g l.
Proof.
  induction l as [|a l IH]; simpl; intros Hfg; [reflexivity|].
  rewrite (Hfg a (or_introl eq_refl)), IH; [reflexivity|].
  intros b Hb. apply Hfg. right. exact Hb.
Qed.

Lemma create_total_payment_value_ok (data : DataFrame) :
  count_label "payment_value" (columns data) = 1%nat ->
  count_label "order_id" (columns data) = 1%nat ->
  numeric_column data "payment_value" ->
  DataPreprocessing.create_total_payment_value data =
  Ok (mkDF (filter (fun c' => negb (value_eqb c' "payment_value"))
                   (add_label "total_payment" (columns data)))
           (map (fun ir => (fst ir,
                            drop_cell "payment_value"
                              (set_cell "total_payment" (total_of data ir)
                                        (snd ir))))
                (rows data))).
Proof.
  intros Hpv Hoid Hnum. unfold DataPreprocessing.create_total_payment_value.
  rewrite (getitem_ok _ _ Hpv). cbn [rbind].
  rewrite (getitem_ok _ _ Hoid). cbn [rbind].
  unfold transform_sum.
  assert (Hall : forallb is_numeric
                   (map (fun ir => cell "payment_value" (snd ir)) (rows data))
                 = true).
  { apply forallb_forall. intros v Hv. apply in_map_iff in Hv.
    destruct Hv as [ir [<- Hir]]. apply Hnum. exact Hir. }
  rewrite Hall. cbn [rbind]. unfold drop_column, setitem.
  cbn [columns rows].
  rewrite existsb_add_label
    by (apply count_label_existsb; rewrite Hpv; discriminate).
  f_equal. f_equal.
  match goal with
  | |- context [set_cells _ _ ?l] =>
      replace l with (map (total_of data) (rows data))
        by (rewrite map_map; reflexivity)
  end.
  rewrite set_cells_map, map_map. reflexivity.
Qed.

Lemma sum_30_20 :
  sum_numbers [Some (Q2Qc 30); Some (Q2Qc 20)] = Q2Qc 50.
Proof. apply Qc_is_canon. vm_compute. reflexivity. Qed.



(* ================================================================== *)
(** ** Segmentation *)
(* ================================================================== *)

Lemma filter_keyed {A : Type} (key : A -> value) (P : value -> bool)
      (l : list A) :
  map snd (filter (fun kr => P (fst kr)) (combine (map key l) l)) =
  filter (fun a => P (key a)) l.
Proof.
  induction l as [|a l IH]; simpl; [reflexivity|].
  destruct (P (key a)); simpl; rewrite IH; reflexivity.
Qed.

Lemma groupby_filter_customer (data : DataFrame) (f : nat -> bool) :
  count_label "customer_unique_id" (columns data) = 1%nat ->
  groupby_filter data "customer_unique_id" (fun x => f (len x)) =
  Ok (mkDF (columns data) (filter (kept data f) (rows data))).
Proof.
  intros Hc. unfold groupby_filter. rewrite (getitem_ok _ _ Hc).
  cbn [rbind]. f_equal. f_equal.
  rewrite (filter_keyed (fun ir => cell "customer_unique_id" (snd ir))
             (fun k => negb (isnull k) &&
                       f (len (get_group data
                                 (map (fun ir => cell "customer_unique_id" (snd ir))
                                      (rows data)) k)))
             (rows data)).
  apply filter_ext_in_bool. intros ir _. unfold kept, customer_of.
  f_equal. f_equal. unfold len, get_group. cbn [rows].
  rewrite (filter_keyed (fun ir => cell "customer_unique_id" (snd ir))
             (fun k => value_eqb k (cell "customer_unique_id" (snd ir)))
             (rows data)).
  reflexivity.
Qed.

Lemma repeat_and_first_time_ok (data : DataFrame) (fs : files) :
  count_label "customer_unique_id" (columns data) = 1%nat ->
  DataPreprocessing.repeat_and_first_time data fs =
  (Ok (mkDF (columns data) (filter (kept data (fun n => (1 <? n)%nat)) (rows data)),
       mkDF (columns data) (filter (kept data (fun n => (n =? 1)%nat)) (rows data))),
   ("data/first_timers_data.csv",
    to_csv (mkDF (columns data)
                 (filter (kept data (fun n => (n =? 1)%nat)) (rows data)))) ::
   ("data/repeater_data.csv",
    to_csv (mkDF (columns data)
                 (filter (kept data (fun n => (1 <? n)%nat)) (rows data)))) ::
   fs).
Proof.
  intros Hc. unfold DataPreprocessing.repeat_and_first_time, bind, lift.
  rewrite (groupby_filter_customer data (fun n => (1 <? n)%nat) Hc).
  rewrite (groupby_filter_customer data (fun n => (n =? 1)%nat) Hc).
  reflexivity.
Qed.

Lemma own_group_nonempty (data : DataFrame) (ir : Z * row) :
  In ir (rows data) ->
  (1 <= List.length (rows_of_customer data (customer_of ir)))%nat.
Proof.
  intros Hin.
  assert (Hm : In ir (rows_of_customer data (customer_of ir))).
  { unfold rows_of_customer. apply filter_In. split; [exact Hin|].
    apply value_eqb_refl. }
  destruct (rows_of_customer data (customer_of ir)); simpl in *; [tauto | lia].
Qed.

Lemma Permutation_filter_split {A : Type} (f g : A -> bool) (l : list A) :
  (forall a, In a l -> g a = negb (f a)) ->
  Permutation l (filter f l ++ filter g l).
Proof.
  induction l as [|a l IH]; intros Hfg; simpl; [constructor|].
  assert (IH' : Permutation l (filter f l ++ filter g l)).
  { apply IH. intros b Hb. apply Hfg. right. exact Hb. }
  rewrite (Hfg a (or_introl eq_refl)).
  destruct (f a); simpl.
  - constructor. exact IH'.
  - apply Permutation_cons_app. exact IH'.
Qed.

Lemma kept_exclusive (data : DataFrame) (ir : Z * row) :
  In ir (rows data) -> customer_of ir <> VNull ->
  kept data (fun n => (n =? 1)%nat) ir =
  negb (kept data (fun n => (1 <? n)%nat) ir).
Proof.
  intros Hin Hnn. unfold kept.
  assert (E : isnull (customer_of ir) = false)
    by (destruct (customer_of ir); simpl; congruence).
  rewrite E. cbn [negb andb].
  pose proof (own_group_nonempty data ir Hin) as Hn.
  destruct (Nat.eqb_spec (List.length (rows_of_customer data (customer_of ir))) 1);
    destruct (Nat.ltb_spec 1 (List.length (rows_of_customer data (customer_of ir))));
    simpl; try reflexivity; lia.
Qed.

(** C2, as the code has it: when no row lacks its customer identifier, the
    repeat-customer and first-time subsets split the rows of the table:
    together they hold every row exactly once, every row is in exactly one
    of them, and they hold nothing else. *)
Theorem repeat_and_first_time_partition (data : DataFrame) (fs : files) :
  count_label "customer_unique_id" (columns data) = 1%nat ->
  customers_present data ->
  exists repeaters first_timers fs',
    DataPreprocessing.repeat_and_first_time data fs =
      (Ok (repeaters, first_timers), fs') /\
    Permutation (rows data) (rows repeaters ++ rows first_timers) /\
    (forall ir, In ir (rows data) ->
       (In ir (rows repeaters) /\ ~ In ir (rows first_timers)) \/
       (~ In ir (rows repeaters) /\ In ir (rows first_timers))) /\
    (forall ir, In ir (rows repeaters) \/ In ir (rows first_timers) ->
                In ir (rows data)).
Proof.
  intros Hc Hpresent.
  eexists _, _, _. split; [apply repeat_and_first_time_ok; exact Hc|].
  cbn [rows]. split; [|split].
  - apply Permutation_filter_split. intros ir Hin.
    apply kept_exclusive; [exact Hin | apply Hpresent; exact Hin].
  - intros ir Hin.
    pose proof (kept_exclusive data ir Hin (Hpresent ir Hin)) as Hex.
    rewrite !filter_In.
    destruct (kept data (fun n => (1 <? n)%nat) ir); rewrite Hex; simpl.
    + left. split; [tauto|]. intros [_ F]. discriminate.
    + right. split; [|tauto]. intros [_ F]. discriminate.
  - intros ir [Hin|Hin]; apply filter_In in Hin; tauto.
Qed.

Lemma cleaned_orders_present : customers_present cleaned_orders.
Proof.
  intros ir [<-|[<-|[<-|[<-|[<-|[]]]]]]; discriminate.
Qed.

Lemma repeat_and_first_time_partition_witness :
  exists repeaters first_timers fs',
    DataPreprocessing.repeat_and_first_time cleaned_orders [] =
      (Ok (repeaters, first_timers), fs') /\
    Permutation (rows cleaned_orders) (rows repeaters ++ rows first_timers) /\
    (forall ir, In ir (rows cleaned_orders) ->
       (In ir (rows repeaters) /\ ~ In ir (rows first_timers)) \/
       (~ In ir (rows repeaters) /\ In ir (rows first_timers))) /\
    (forall ir, In ir (rows repeaters) \/ In ir (rows first_timers) ->
                In ir (rows cleaned_orders)).
Proof.
  apply (repeat_and_first_time_partition cleaned_orders []).
  - reflexivity.
  - exact cleaned_orders_present.
Defined.

(** C2 as stated fails: a row whose customer identifier is missing belongs
    to no group, and is in neither subset. *)
Lemma unknown_customer_in_neither_subset :
  exists repeaters first_timers fs' ir,
    DataPreprocessing.repeat_and_first_time orders_with_unknown_customer [] =
      (Ok (repeaters, first_timers), fs') /\
    In ir (rows orders_with_unknown_customer) /\
    ~ In ir (rows repeaters) /\ ~ In ir (rows first_timers).
Proof.
  eexists _, _, _, (1, cleaned_row VNull "o2" "p2" (VInt 3) "SP").
  split; [reflexivity|]. split; [right; left; reflexivity|].
  split.
  - intros [].
  - intros [F|[]]. discriminate.
Qed.

Lemma rows_of_customer_kept (data : DataFrame) (cols : list value)
      (f : nat -> bool) (c : value) :
  c <> VNull ->
  rows_of_customer (mkDF cols (filter (kept data f) (rows data))) c =
  if f (List.length (rows_of_customer data c))
  then rows_of_customer data c else [].
Proof.
  intros Hc. unfold rows_of_customer at 1. cbn [rows].
  assert (Hnn : isnull c = false) by (destruct c; simpl; congruence).
  assert (E : forall l : list (Z * row),
             filter (fun ir => value_eqb (customer_of ir) c)
                    (filter (kept data f) l) =
             if f (List.length (rows_of_customer data c))
             then filter (fun ir => value_eqb (customer_of ir) c) l else []).
  { induction l as [|ir l IH]; simpl.
    - destruct (f _); reflexivity.
    - destruct (value_eqb (customer_of ir) c) eqn:Hk.
      + apply value_eqb_eq in Hk. unfold kept at 1. rewrite Hk, Hnn.
        cbn [negb andb].
        destruct (f (List.length (rows_of_customer data c))) eqn:Hf.
        * simpl. rewrite <- Hk at 1. rewrite value_eqb_refl.
          rewrite IH. reflexivity.
        * exact IH.
      + destruct (kept data f ir); simpl; [rewrite Hk|]; exact IH. }
  apply E.
Qed.

Lemma rows_of_customer_labelled (data : DataFrame) (v c : value) :
  rows_of_customer (setitem_scalar data "repeater" v) c =
  map (fun ir => (fst ir, set_cell "repeater" v (snd ir)))
      (rows_of_customer data c).
Proof.
  unfold rows_of_customer, setitem_scalar. cbn [rows].
  rewrite filter_map_comm. f_equal.
  apply filter_ext_in_bool. intros ir _. unfold customer_of. cbn [snd].
  rewrite cell_set_cell_other by discriminate. reflexivity.
Qed.




(* ================================================================== *)
(** ** Recombination *)
(* ================================================================== *)

Lemma concat_columns (a b out : DataFrame) (c : value) :
  concat a b = Ok out ->
  existsb (value_eqb c) (columns a) = false ->
  existsb (value_eqb c) (columns b) = false ->
  existsb (value_eqb c) (columns out) = false.
Proof.
  unfold concat. intros Hc Ha Hb.
  destruct (list_value_eqb (columns a) (columns b)).
  - injection Hc as <-. exact Ha.
  - destruct (nodupb (columns a) && nodupb (columns b)); [|discriminate].
    injection Hc as <-. cbn [columns]. rewrite existsb_app, Ha. simpl.
    apply not_true_is_false. intros F. apply existsb_exists in F.
    destruct F as [x [Hx Hcx]]. apply filter_In in Hx. destruct Hx as [Hx _].
    assert (T : existsb (value_eqb c) (columns b) = true)
      by (apply existsb_exists; exists x; tauto).
    congruence.
Qed.

Lemma existsb_add_label_other (c c' : value) (cols : list value) :
  c <> c' ->
  existsb (value_eqb c) (add_label c' cols) = existsb (value_eqb c) cols.
Proof.
  intros Hne. unfold add_label. destruct (existsb (value_eqb c') cols).
  - reflexivity.
  - rewrite existsb_app. simpl.
    assert (E : value_eqb c c' = false) by (apply value_eqb_neq; exact Hne).
    rewrite E, !orb_false_r. reflexivity.
Qed.

(** On tables without a column "Unnamed: 0" (the query returns none, and no
    step of the script adds one) the recombination ends in an exception and
    writes no file. *)
Lemma regenerate_raises_without_unnamed
      (repeaters first_timers : DataFrame) (fs : files) :
  existsb (value_eqb "Unnamed: 0") (columns repeaters) = false ->
  existsb (value_eqb "Unnamed: 0") (columns first_timers) = false ->
  exists e,
    snd (DataPreprocessing.regenerate_dataset_with_indicators
           repeaters first_timers) fs = (Raise e, fs).
Proof.
  intros Hr Hf.
  cbn [DataPreprocessing.regenerate_dataset_with_indicators snd].
  unfold bind, lift.
  destruct (concat (setitem_scalar repeaters "repeater" (VInt 1))
                   (setitem_scalar first_timers "repeater" (VInt 0)))
    as [combined|e] eqn:Hc.
  - exists (KeyError "Unnamed: 0").
    assert (E : existsb (value_eqb "Unnamed: 0") (columns combined) = false).
    { apply (concat_columns _ _ _ _ Hc); cbn [setitem_scalar columns];
        rewrite existsb_add_label_other by discriminate; assumption. }
    unfold drop_column. rewrite E. reflexivity.
  - exists e. reflexivity.
Qed.

(** C4 fails on the script's own data: the subsets cut from a cleaned
    table have no column "Unnamed: 0", dropping it is a KeyError, and
    combined_data is never written. *)
Theorem regenerate_raises_on_pipeline_subsets :
  exists repeaters first_timers fs',
    DataPreprocessing.repeat_and_first_time cleaned_orders [] =
      (Ok (repeaters, first_timers), fs') /\
    snd (DataPreprocessing.regenerate_dataset_with_indicators
           repeaters first_timers) fs' =
      (Raise (KeyError "Unnamed: 0"), fs') /\
    read_file "data/combined_data.csv" fs' = None.
Proof.
  eexists _, _, _. split; [reflexivity|]. split; reflexivity.
Qed.

(* ================================================================== *)
(** ** Rating aggregation *)
(* ================================================================== *)

Lemma key2_eqb_eq (a b : key2) : key2_eqb a b = true <-> a = b.
Proof.
  unfold key2_eqb. rewrite andb_true_iff, !value_eqb_eq.
  destruct a, b; simpl. split.
  - intros [-> ->]. reflexivity.
  - intros E. injection E as -> ->. tauto.
Qed.

Lemma key2_eqb_refl (a : key2) : key2_eqb a a = true.
Proof. apply key2_eqb_eq. reflexivity. Qed.

Lemma insert_key_perm (k : key2) (l : list key2) :
  Permutation (k :: l) (insert_key k l).
Proof.
  induction l as [|k' l IH]; simpl; [apply Permutation_refl|].
  destruct (key2_leb k k'); [apply Permutation_refl|].
  eapply perm_trans; [apply perm_swap|]. constructor. exact IH.
Qed.

Lemma sort_keys_perm (l : list key2) : Permutation l (sort_keys l).
Proof.
  induction l as [|k l IH]; simpl; [constructor|].
  eapply perm_trans; [|apply insert_key_perm]. constructor. exact IH.
Qed.

Lemma distinct_keys_In (k : key2) (l : list key2) :
  In k (distinct_keys l) <-> In k l.
Proof.
  induction l as [|k' l IH]; simpl; [tauto|].
  rewrite filter_In, IH. split.
  - intros [E|[Hin _]]; [left | right]; assumption.
  - intros [E|Hin]; [left; exact E|].
    destruct (key2_eqb k k') eqn:Ek.
    + left. apply key2_eqb_eq in Ek. congruence.
    + right. split; [exact Hin | reflexivity].
Qed.

Lemma distinct_keys_NoDup (l : list key2) : NoDup (distinct_keys l).
Proof.
  induction l as [|k l IH]; simpl; constructor.
  - intros Hin. apply filter_In in Hin. destruct Hin as [_ Hin].
    rewrite key2_eqb_refl in Hin. discriminate.
  - apply NoDup_filter. exact IH.
Qed.

Lemma filter_key_absent (k : key2) (l : list key2) :
  ~ In k l -> filter (fun k' => key2_eqb k' k) l = [].
Proof.
  induction l as [|x l IH]; simpl; intros Hx; [reflexivity|].
  destruct (key2_eqb x k) eqn:Ex.
  - apply key2_eqb_eq in Ex. subst x. tauto.
  - apply IH. tauto.
Qed.

Lemma filter_key_present (k : key2) (l : list key2) :
  NoDup l -> In k l -> filter (fun k' => key2_eqb k' k) l = [k].
Proof.
  intros Hnd. induction Hnd as [|k' l Hk' Hnd IH]; intros Hin;
    [destruct Hin|]. simpl.
  destruct (key2_eqb k' k) eqn:E.
  - apply key2_eqb_eq in E. subst k'. f_equal.
    apply filter_key_absent. exact Hk'.
  - apply IH. destruct Hin as [Hin|Hin]; [|exact Hin].
    subst k'. rewrite key2_eqb_refl in E. discriminate.
Qed.

Lemma group_cells2_rows {A : Type} (k1 k2 val : A -> value) (k : key2)
      (l : list A) :
  group_cells2 (combine (map k1 l) (map k2 l)) (map val l) k =
  map val (filter (fun a => key2_eqb (k1 a, k2 a) k) l).
Proof.
  unfold group_cells2.
  induction l as [|a l IH]; simpl; [reflexivity|].
  destruct (key2_eqb (k1 a, k2 a) k); simpl; rewrite IH; reflexivity.
Qed.

Lemma combine_map_In {A : Type} (k1 k2 : A -> value) (k : key2) (l : list A) :
  In k (combine (map k1 l) (map k2 l)) <->
  exists a, In a l /\ (k1 a, k2 a) = k.
Proof.
  induction l as [|a l IH]; simpl.
  - split; [tauto | intros [a [[] _]]].
  - rewrite IH. split.
    + intros [E|[b [Hb E]]]; [exists a | exists b]; tauto.
    + intros [b [[E|Hb] Hk]]; [left; congruence | right; exists b; tauto].
Qed.

(** The lines [create_user_ratings_df] writes. *)
Lemma create_user_ratings_df_ok (data : DataFrame) (fs : files) :
  count_label "customer_unique_id" (columns data) = 1%nat ->
  count_label "product_id" (columns data) = 1%nat ->
  count_label "review_score" (columns data) = 1%nat ->
  numeric_column data "review_score" ->
  DataPreprocessing.create_user_ratings_df data fs =
  (Ok tt,
   ("data/repeat_user_ratings_data.csv",
    mkCSV [VStr "customer_unique_id"; VStr "productId"; VStr "estimator"]
          (map (fun k => [(VStr "customer_unique_id", fst k);
                          (VStr "productId", snd k);
                          (VStr "estimator",
                           mean_group (scores_of data (fst k) (snd k)))])
               (sort_keys
                  (distinct_keys
                     (filter key2_present
                        (combine
                           (map customer_of (rows data))
                           (map (fun ir => cell "product_id" (snd ir))
                                (rows data)))))))) :: fs).
Proof.
  intros Hc Hp Hs Hnum.
  unfold DataPreprocessing.create_user_ratings_df, bind, lift.
  rewrite (getitem_ok _ _ Hc). cbn [rbind].
  rewrite (getitem_ok _ _ Hp). cbn [rbind].
  rewrite (getitem_ok _ _ Hs). cbn [rbind].
  unfold groupby2_agg_mean.
  assert (Hall : forallb is_numeric
                   (map (fun ir => cell "review_score" (snd ir)) (rows data))
                 = true).
  { apply forallb_forall. intros v Hv. apply in_map_iff in Hv.
    destruct Hv as [ir [<- Hir]]. apply Hnum. exact Hir. }
  rewrite Hall. cbn [rbind]. unfold save_csv, to_csv, rename, reset_index2.
  cbn [columns rows]. f_equal. f_equal. f_equal. f_equal.
  fold customer_of.
  generalize (sort_keys
                (distinct_keys
                   (filter key2_present
                      (combine (map customer_of (rows data))
                         (map (fun ir => cell "product_id" (snd ir))
                              (rows data)))))).
  intros ks. generalize 0.
  induction ks as [|k ks IH]; intros n; [reflexivity|].
  cbn [map enumerate_from snd fst]. f_equal.
  - unfold scores_of. rewrite <- group_cells2_rows. destruct k; reflexivity.
  - apply IH.
Qed.

Lemma mean_4_5 (cells : list value) :
  map as_number cells = [Some (Q2Qc 4); Some (Q2Qc 5)] ->
  mean_group cells = VFloat (Q2Qc (9 # 2)).
Proof.
  destruct cells as [|a [|b [|? ?]]]; try discriminate.
  intros E. injection E as Ea Eb. unfold mean_group.
  assert (Ha : isnull a = false) by (destruct a; simpl in *; congruence).
  assert (Hb : isnull b = false) by (destruct b; simpl in *; congruence).
  cbn [filter]. rewrite Ha, Hb. cbn [negb map List.length].
  rewrite Ea, Eb. f_equal; try (apply Qc_is_canon; vm_compute; reflexivity).
Qed.

Lemma scores_of_nonempty (data : DataFrame) (c p : value) :
  scores_of data c p <> [] <->
  exists ir, In ir (rows data) /\
             (customer_of ir, cell "product_id" (snd ir)) = (c, p).
Proof.
  unfold scores_of.
  set (f := fun ir : Z * row =>
              key2_eqb (customer_of ir, cell "product_id" (snd ir)) (c, p)).
  split.
  - intros Hne. destruct (filter f (rows data)) as [|ir l] eqn:E;
      [contradiction Hne; reflexivity|].
    assert (Hin : In ir (filter f (rows data))) by (rewrite E; left; reflexivity).
    apply filter_In in Hin. destruct Hin as [Hin Hk].
    exists ir. split; [exact Hin | apply key2_eqb_eq; exact Hk].
  - intros [ir [Hin Hk]] E.
    assert (Hf : In ir (filter f (rows data))).
    { apply filter_In. split; [exact Hin | apply key2_eqb_eq; exact Hk]. }
    destruct (filter f (rows data)); [destruct Hf | discriminate].
Qed.


Lemma cleaned_orders_scores : numeric_column cleaned_orders "review_score".
Proof.
  intros ir [<-|[<-|[<-|[<-|[<-|[]]]]]]; reflexivity.
Qed.


(* ================================================================== *)
(** ** Rankings *)
(* ================================================================== *)

Lemma distinct_In (v : value) (l : list value) :
  In v (distinct l) <-> In v l.
Proof.
  induction l as [|w l IH]; simpl; [tauto|].
  rewrite filter_In, IH. split.
  - intros [E|[Hin _]]; [left | right]; assumption.
  - intros [E|Hin]; [left; exact E|].
    destruct (value_eqb v w) eqn:Ev.
    + left. apply value_eqb_eq in Ev. congruence.
    + right. split; [exact Hin | reflexivity].
Qed.

Lemma distinct_NoDup (l : list value) : NoDup (distinct l).
Proof.
  induction l as [|v l IH]; simpl; constructor.
  - intros Hin. apply filter_In in Hin. destruct Hin as [_ Hin].
    rewrite value_eqb_refl in Hin. discriminate.
  - apply NoDup_filter. exact IH.
Qed.

Lemma insert_desc_perm (x : value * nat) (l : list (value * nat)) :
  Permutation (x :: l) (insert_desc x l).
Proof.
  induction l as [|y l IH]; simpl; [apply Permutation_refl|].
  destruct (snd y <=? snd x)%nat; [apply Permutation_refl|].
  eapply perm_trans; [apply perm_swap|]. constructor. exact IH.
Qed.

Lemma stable_sort_desc_perm (l : list (value * nat)) :
  Permutation l (stable_sort_desc l).
Proof.
  induction l as [|x l IH]; simpl; [constructor|].
  eapply perm_trans; [|apply insert_desc_perm]. constructor. exact IH.
Qed.

Lemma insert_desc_sorted (x : value * nat) (l : list (value * nat)) :
  StronglySorted (fun a b => (snd b <= snd a)%nat) l ->
  StronglySorted (fun a b => (snd b <= snd a)%nat) (insert_desc x l).
Proof.
  induction l as [|y l IH]; intros Hs; simpl.
  - constructor; constructor.
  - apply StronglySorted_inv in Hs. destruct Hs as [Hs Hy].
    destruct (Nat.leb_spec (snd y) (snd x)) as [Hle|Hlt].
    + constructor; [constructor; assumption|].
      constructor; [exact Hle|].
      eapply Forall_impl; [|exact Hy]. simpl. intros a Ha. lia.
    + constructor; [apply IH; exact Hs|].
      apply (Permutation_Forall (insert_desc_perm x l)).
      constructor; [lia | exact Hy].
Qed.

Lemma stable_sort_desc_sorted (l : list (value * nat)) :
  StronglySorted (fun a b => (snd b <= snd a)%nat) (stable_sort_desc l).
Proof.
  induction l as [|x l IH]; simpl; [constructor|].
  apply insert_desc_sorted. exact IH.
Qed.

(** The stable sort is a descending sort. *)
#[export] Instance stable_sort : SortValues := {|
  sort_values_desc := stable_sort_desc;
  sort_values_perm := stable_sort_desc_perm;
  sort_values_sorted := stable_sort_desc_sorted
|}.

Lemma StronglySorted_app_cross {A : Type} (R : A -> A -> Prop)
      (l1 l2 : list A) :
  StronglySorted R (l1 ++ l2) ->
  forall x y, In x l1 -> In y l2 -> R x y.
Proof.
  induction l1 as [|a l1 IH]; simpl; intros Hs x y Hx Hy; [destruct Hx|].
  apply StronglySorted_inv in Hs. destruct Hs as [Hs Ha].
  destruct Hx as [<-|Hx].
  - rewrite Forall_forall in Ha. apply Ha. apply in_or_app. right. exact Hy.
  - apply (IH Hs x y Hx Hy).
Qed.

Lemma StronglySorted_app_l {A : Type} (R : A -> A -> Prop) (l1 l2 : list A) :
  StronglySorted R (l1 ++ l2) -> StronglySorted R l1.
Proof.
  induction l1 as [|a l1 IH]; simpl; intros Hs; [constructor|].
  apply StronglySorted_inv in Hs. destruct Hs as [Hs Ha].
  constructor; [apply IH; exact Hs|].
  apply Forall_app in Ha. tauto.
Qed.

Lemma StronglySorted_map_fst (cnt : value -> nat) (l : list (value * nat)) :
  (forall x, In x l -> snd x = cnt (fst x)) ->
  StronglySorted (fun a b => (snd b <= snd a)%nat) l ->
  StronglySorted (fun p q => (cnt q <= cnt p)%nat) (map fst l).
Proof.
  induction l as [|x l IH]; intros Hc Hs; simpl; [constructor|].
  apply StronglySorted_inv in Hs. destruct Hs as [Hs Hx].
  constructor.
  - apply IH; [|exact Hs]. intros y Hy. apply Hc. right. exact Hy.
  - rewrite Forall_forall in *. intros q Hq. apply in_map_iff in Hq.
    destruct Hq as [y [<- Hy]].
    rewrite <- (Hc y (or_intror Hy)), <- (Hc x (or_introl eq_refl)).
    apply Hx. exact Hy.
Qed.

Section RankingFacts.

Context `{SortValues}.

Lemma counted_fst (prods : list value) :
  map fst (counted prods) = distinct (filter notnull prods).
Proof.
  unfold counted. rewrite map_map. simpl. apply map_id.
Qed.

Lemma sorted_counts_perm (prods : list value) :
  Permutation (counted prods) (sort_values_desc (value_counts prods)).
Proof.
  unfold value_counts. fold (counted prods).
  eapply perm_trans; apply sort_values_perm.
Qed.

Lemma sorted_counts_snd (prods : list value) (x : value * nat) :
  In x (sort_values_desc (value_counts prods)) ->
  snd x = count_value (fst x) prods.
Proof.
  intros Hin.
  apply (Permutation_in _ (Permutation_sym (sorted_counts_perm prods))) in Hin.
  unfold counted in Hin. apply in_map_iff in Hin.
  destruct Hin as [v [<- _]]. reflexivity.
Qed.

Lemma sorted_fst_perm (prods : list value) :
  Permutation (distinct (filter notnull prods))
              (map fst (sort_values_desc (value_counts prods))).
Proof.
  rewrite <- counted_fst. apply Permutation_map. apply sorted_counts_perm.
Qed.

Lemma slice_to_firstn {A : Type} (n : Z) (l : list A) :
  0 <= n -> slice_to n l = firstn (Z.to_nat n) l.
Proof.
  intros Hn. unfold slice_to.
  destruct (Z.leb_spec 0 n); [reflexivity | lia].
Qed.

Lemma slice_to_all {A : Type} (n : Z) (l : list A) :
  Z.of_nat (List.length l) <= n -> slice_to n l = l.
Proof.
  intros Hn. rewrite slice_to_firstn by lia.
  apply firstn_all2. lia.
Qed.

(** The top of the ranking, for a count that is not negative. *)
Lemma top_n_index_spec (prods : list value) (n_recs : Z) :
  0 <= n_recs ->
  let top := Models.top_n_index prods n_recs in
  let present := distinct (filter notnull prods) in
  NoDup top /\
  (forall p, In p top -> In p present) /\
  List.length top = Nat.min (Z.to_nat n_recs) (List.length present) /\
  StronglySorted
    (fun p q => (count_value q prods <= count_value p prods)%nat) top /\
  (forall p q, In p top -> In q present -> ~ In q top ->
               (count_value q prods <= count_value p prods)%nat).
Proof.
  intros Hn top present. unfold top, Models.top_n_index.
  rewrite slice_to_firstn by exact Hn.
  set (k := Z.to_nat n_recs).
  set (l := sort_values_desc (value_counts prods)).
  pose proof (sorted_fst_perm prods) as Hperm. fold l present in Hperm.
  assert (Hnd : NoDup (map fst l)).
  { apply (Permutation_NoDup Hperm). apply distinct_NoDup. }
  assert (Hsplit : map fst l = map fst (firstn k l) ++ map fst (skipn k l)).
  { rewrite <- map_app, firstn_skipn. reflexivity. }
  assert (Hsorted : StronglySorted (fun a b => (snd b <= snd a)%nat) l)
    by apply sort_values_sorted.
  assert (Hcnt : forall x, In x (firstn k l) \/ In x (skipn k l) ->
                           snd x = count_value (fst x) prods).
  { intros x Hx. apply sorted_counts_snd. fold l.
    rewrite <- (firstn_skipn k l). apply in_or_app. exact Hx. }
  rewrite <- (firstn_skipn k l) in Hsorted.
  split; [|split; [|split; [|split]]].
  - rewrite Hsplit in Hnd. apply NoDup_app_remove_r in Hnd. exact Hnd.
  - intros p Hp. apply (Permutation_in _ (Permutation_sym Hperm)).
    rewrite Hsplit. apply in_or_app. left. exact Hp.
  - rewrite length_map, length_firstn.
    rewrite (Permutation_length Hperm), length_map. reflexivity.
  - apply StronglySorted_map_fst.
    + intros x Hx. apply Hcnt. left. exact Hx.
    + apply StronglySorted_app_l in Hsorted. exact Hsorted.
  - intros p q Hp Hq Hnq.
    apply (Permutation_in _ Hperm) in Hq. rewrite Hsplit in Hq.
    apply in_app_or in Hq. destruct Hq as [Hq|Hq]; [contradiction|].
    apply in_map_iff in Hp. destruct Hp as [x [<- Hx]].
    apply in_map_iff in Hq. destruct Hq as [y [<- Hy]].
    rewrite <- (Hcnt x (or_introl Hx)), <- (Hcnt y (or_intror Hy)).
    apply (StronglySorted_app_cross _ _ _ Hsorted x y Hx Hy).
Qed.

(** Asking for more than there is gives the whole ranking. *)
Lemma top_n_index_all (prods : list value) (n_recs : Z) :
  Z.of_nat (List.length (distinct (filter notnull prods))) < n_recs ->
  let top := Models.top_n_index prods n_recs in
  Permutation (distinct (filter notnull prods)) top /\
  StronglySorted
    (fun p q => (count_value q prods <= count_value p prods)%nat) top.
Proof.
  intros Hn top. unfold top, Models.top_n_index.
  pose proof (sorted_fst_perm prods) as Hperm.
  rewrite slice_to_all.
  - split; [exact Hperm|].
    apply StronglySorted_map_fst; [apply sorted_counts_snd|].
    apply sort_values_sorted.
  - rewrite <- (length_map fst), <- (Permutation_length Hperm). lia.
Qed.

End RankingFacts.

Lemma value_eq_cases (a b : value) : a = b \/ a <> b.
Proof.
  destruct (value_eqb a b) eqn:E.
  - left. apply value_eqb_eq. exact E.
  - right. apply value_eqb_neq. exact E.
Qed.

Lemma find_popular_items_ok `{SortValues} (data : DataFrame) (n_recs : Z)
      (fs : files) :
  count_label "product_id" (columns data) = 1%nat ->
  Models.find_popular_items data n_recs fs =
  (Ok tt,
   ("data/hot_items.csv",
    to_csv (DataFrame_of_list (Models.top_n_index (product_ids data) n_recs)))
   :: fs).
Proof.
  intros Hp. unfold Models.find_popular_items, bind, lift.
  rewrite (getattr_ok _ _ Hp). reflexivity.
Qed.

(** The example of the claim, from the properties of a top-2 list. *)
Lemma top_two_of_four (cnt : value -> nat) (present top : list value)
      (a b c d : value) :
  NoDup [a; b; c; d] ->
  (forall p, In p present <-> In p [a; b; c; d]) ->
  cnt a = 5%nat -> cnt b = 3%nat -> cnt c = 3%nat -> cnt d = 1%nat ->
  NoDup top ->
  (forall p, In p top -> In p present) ->
  List.length top = 2%nat ->
  StronglySorted (fun p q => (cnt q <= cnt p)%nat) top ->
  (forall p q, In p top -> In q present -> ~ In q top ->
               (cnt q <= cnt p)%nat) ->
  top = [a; b] \/ top = [a; c].
Proof.
  intros Hnd Hpres Ha Hb Hc Hd Hndt Hin Hlen Hsort Htop.
  destruct top as [|x [|y [|z t]]]; simpl in Hlen; try lia.
  assert (Hxy : x <> y).
  { inversion Hndt as [|? ? Hx _]. intros E. apply Hx. left. congruence. }
  assert (Hyx : (cnt y <= cnt x)%nat).
  { apply StronglySorted_inv in Hsort. destruct Hsort as [_ Hf].
    inversion Hf. assumption. }
  assert (Hbig : forall q, In q [a; b; c; d] -> (cnt q <= cnt x)%nat).
  { intros q Hq. destruct (value_eq_cases q x) as [->|Hqx]; [lia|].
    destruct (value_eq_cases q y) as [->|Hqy]; [exact Hyx|].
    apply Htop; [left; reflexivity | apply Hpres; exact Hq |].
    intros [E|[E|[]]]; congruence. }
  assert (Hx : In x [a; b; c; d]) by (apply Hpres, Hin; left; reflexivity).
  assert (Hy : In y [a; b; c; d])
    by (apply Hpres, Hin; right; left; reflexivity).
  pose proof (Hbig a (or_introl eq_refl)) as Hax.
  assert (Exa : x = a).
  { destruct Hx as [<-|[<-|[<-|[<-|[]]]]]; [reflexivity | lia | lia | lia]. }
  subst x.
  assert (Hdist : a <> b /\ a <> c /\ a <> d /\ b <> c /\ b <> d /\ c <> d).
  { inversion Hnd as [|? ? N1 Hnd1]. inversion Hnd1 as [|? ? N2 Hnd2].
    inversion Hnd2 as [|? ? N3 _]. simpl in N1, N2, N3.
    repeat split; intros E; subst; intuition congruence. }
  destruct Hdist as [Nab [Nac [Nad [Nbc [Nbd Ncd]]]]].
  destruct Hy as [<-|[<-|[<-|[<-|[]]]]].
  - congruence.
  - left. reflexivity.
  - right. reflexivity.
  - exfalso.
    assert (Hbd : (cnt b <= cnt d)%nat).
    { apply Htop; [right; left; reflexivity
                  | apply Hpres; right; left; reflexivity |].
      intros [E|[E|[]]]; congruence. }
    lia.
Qed.



Lemma select_rows_In (data : DataFrame) (mask : list bool) (ir : Z * row) :
  In ir (rows (select_rows data mask)) -> In ir (rows data).
Proof.
  unfold select_rows. cbn [rows]. intros Hin.
  apply in_map_iff in Hin. destruct Hin as [[m ir'] [E Hin]].
  simpl in E. subst ir'. apply filter_In in Hin. destruct Hin as [Hin _].
  apply in_combine_r in Hin. exact Hin.
Qed.

Lemma distinct_products_state (data : DataFrame) (state : value) :
  (List.length (distinct_products (rows_in_state data state)) <=
   List.length (distinct_products data))%nat.
Proof.
  apply NoDup_incl_length; [apply distinct_NoDup|].
  intros p Hp. unfold distinct_products in *.
  apply distinct_In. apply (proj1 (distinct_In _ _)) in Hp.
  apply filter_In in Hp. destruct Hp as [Hp Hnn].
  apply filter_In. split; [|exact Hnn].
  unfold product_ids in *. apply in_map_iff in Hp.
  destruct Hp as [ir [E Hin]]. apply in_map_iff. exists ir.
  split; [exact E|]. apply (select_rows_In _ _ _ Hin).
Qed.

Lemma top_in_area_ok `{SortValues} (data : DataFrame) (n_recs : Z)
      (state : value) :
  count_label "product_id" (columns data) = 1%nat ->
  Models.top_in_area data
    (map (fun ir => cell "customer_state" (snd ir)) (rows data))
    n_recs state =
  Ok (Models.top_n_index (product_ids (rows_in_state data state)) n_recs).
Proof.
  intros Hp. unfold Models.top_in_area. rewrite map_map.
  fold (rows_in_state data state).
  rewrite getattr_ok by exact Hp. reflexivity.
Qed.



Lemma top_n_index_length `{SortValues} (prods : list value) (n_recs : Z) :
  0 <= n_recs ->
  List.length (Models.top_n_index prods n_recs) =
  Nat.min (Z.to_nat n_recs) (List.length (distinct (filter notnull prods))).
Proof.
  intros Hn. apply (top_n_index_spec prods n_recs Hn).
Qed.

(** When two states have rankings of different lengths, the table of the
    states cannot be built. *)
Lemma DataFrame_of_dict_uneven (s1 s2 : value) (l1 l2 : list value)
      (d : list (value * list value)) :
  List.length l2 <> List.length l1 ->
  DataFrame_of_dict ((s1, l1) :: (s2, l2) :: d) =
  Raise (ValueError "All arrays must be of the same length").
Proof.
  intros Hne. unfold DataFrame_of_dict, same_lengths. cbn [forallb snd].
  apply Nat.eqb_neq in Hne. rewrite Hne. reflexivity.
Qed.

(** C8 fails on the code: with two products bought in state SP and one in
    state RJ and N = 2, the ranking of RJ is the single product bought
    there, but the table of the states is not built: the two rankings
    differ in length, the run ends in a ValueError, and in_your_area is
    not written.  This holds whatever order the sort gives to ties. *)
Theorem popular_in_your_area_raises_on_short_state `{SortValues} :
  Models.top_in_area two_states
    (map (fun ir => cell "customer_state" (snd ir)) (rows two_states))
    2 "RJ" = Ok [VStr "p3"] /\
  Models.popular_in_your_area two_states 2 [] =
    (Raise (ValueError "All arrays must be of the same length"), []).
Proof.
  split.
  - rewrite top_in_area_ok by reflexivity.
    assert (Hlen : List.length
              (Models.top_n_index
                 (product_ids (rows_in_state two_states "RJ")) 2) = 1%nat)
      by (rewrite top_n_index_length by lia; reflexivity).
    destruct (top_n_index_spec (product_ids (rows_in_state two_states "RJ")) 2)
      as [_ [Hin _]]; [lia|].
    destruct (Models.top_n_index
                (product_ids (rows_in_state two_states "RJ")) 2)
      as [|p [|q t]]; try discriminate.
    specialize (Hin p (or_introl eq_refl)). vm_compute in Hin.
    destruct Hin as [<-|[]]. reflexivity.
  - unfold Models.popular_in_your_area, bind, lift.
    rewrite getattr_ok by reflexivity. cbn [rbind].
    change (unique (map (fun ir => cell "customer_state" (snd ir))
                        (rows two_states)))
      with [VStr "SP"; VStr "RJ"].
    cbn [Models.top_in_area_loop].
    rewrite !top_in_area_ok by reflexivity. cbn [rbind].
    rewrite DataFrame_of_dict_uneven; [reflexivity|].
    rewrite !top_n_index_length by lia. vm_compute. discriminate.
Qed.

(* ================================================================== *)
(** ** Time stamps: texts the format accepts *)
(* ================================================================== *)

Lemma first_match_bind {A B : Type} (p : matcher A) (k : A -> matcher B)
      (cs rest : list ascii) (a : A) (x : B * list ascii) :
  first_match p cs (a, rest) -> first_match (k a) rest x ->
  first_match (m_bind p k) cs x.
Proof.
  intros [o1 E1] [o2 E2]. unfold first_match, m_bind.
  rewrite E1. cbn [flat_map fst snd]. rewrite E2.
  eexists. reflexivity.
Qed.

Lemma first_match_ret {A : Type} (a : A) (cs : list ascii) :
  first_match (m_ret a) cs (a, cs).
Proof. exists []. reflexivity. Qed.

Lemma first_match_lit (c : ascii) (rest : list ascii) :
  first_match (lit c) (c :: rest) (tt, rest).
Proof.
  exists []. unfold lit. rewrite Ascii.eqb_refl. reflexivity.
Qed.

Lemma Z_cases_between (P : Z -> Prop) (lo hi : nat) :
  (forall k : nat, (lo <= k <= hi)%nat -> P (Z.of_nat k)) ->
  forall z, Z.of_nat lo <= z <= Z.of_nat hi -> P z.
Proof.
  intros HP z Hz. rewrite <- (Z2Nat.id z) by lia. apply HP. lia.
Qed.

Lemma digit_of_char (k : Z) : 0 <= k <= 9 -> digit_of (digit_char k) = Some k.
Proof.
  revert k. apply (Z_cases_between _ 0 9). intros k Hk.
  do 10 (destruct k as [|k]; [reflexivity|]). exfalso. lia.
Qed.

Lemma is_space_digit_char (k : Z) :
  0 <= k <= 9 -> is_space (digit_char k) = false.
Proof.
  revert k. apply (Z_cases_between _ 0 9). intros k Hk.
  do 10 (destruct k as [|k]; [reflexivity|]). exfalso. lia.
Qed.

(** Each directive reads back the two characters of a field in range. *)
Tactic Notation "first_match_cases" constr(p) constr(lo) constr(hi)
       integer(cnt) :=
  refine (Z_cases_between
            (fun n => forall rest,
                 first_match p (two_chars n ++ rest) (n, rest)) lo hi _);
  let k := fresh "k" in
  let Hk := fresh "Hk" in
  intros k Hk;
  do cnt (destruct k as [|k];
             [first [ exfalso; lia
                    | intros rest; eexists; vm_compute; reflexivity ]|]);
  exfalso; lia.

Lemma first_match_m (n : Z) :
  1 <= n <= 12 ->
  forall rest, first_match re_m (two_chars n ++ rest) (n, rest).
Proof. revert n. first_match_cases re_m 1%nat 12%nat 13. Qed.

Lemma first_match_d (n : Z) :
  1 <= n <= 31 ->
  forall rest, first_match re_d (two_chars n ++ rest) (n, rest).
Proof. revert n. first_match_cases re_d 1%nat 31%nat 32. Qed.

Lemma first_match_H (n : Z) :
  0 <= n <= 23 ->
  forall rest, first_match re_H (two_chars n ++ rest) (n, rest).
Proof. revert n. first_match_cases re_H 0%nat 23%nat 24. Qed.

Lemma first_match_M (n : Z) :
  0 <= n <= 59 ->
  forall rest, first_match re_M (two_chars n ++ rest) (n, rest).
Proof. revert n. first_match_cases re_M 0%nat 59%nat 60. Qed.

Lemma first_match_S (n : Z) :
  0 <= n <= 59 ->
  forall rest, first_match re_S (two_chars n ++ rest) (n, rest).
Proof. revert n. first_match_cases re_S 0%nat 59%nat 60. Qed.

Lemma first_match_digit (k : Z) (rest : list ascii) :
  0 <= k <= 9 ->
  first_match (digit_in 0 9) (digit_char k :: rest) (k, rest).
Proof.
  intros Hk. exists []. unfold digit_in. rewrite (digit_of_char k Hk).
  destruct (Z.leb_spec 0 k); [|lia].
  destruct (Z.leb_spec k 9); [|lia]. reflexivity.
Qed.

Lemma four_digits_value (y : Z) :
  0 <= y <= 9999 ->
  1000 * (y / 1000) + 100 * ((y / 100) mod 10) + 10 * ((y / 10) mod 10) +
  y mod 10 = y.
Proof.
  intros Hy. Z.to_euclidean_division_equations. lia.
Qed.

Lemma first_match_Y (y : Z) (rest : list ascii) :
  0 <= y <= 9999 ->
  first_match re_Y (four_chars y ++ rest) (y, rest).
Proof.
  intros Hy. unfold re_Y.
  assert (H1 : 0 <= y / 1000 <= 9)
    by (Z.to_euclidean_division_equations; lia).
  assert (H2 : 0 <= (y / 100) mod 10 <= 9)
    by (Z.to_euclidean_division_equations; lia).
  assert (H3 : 0 <= (y / 10) mod 10 <= 9)
    by (Z.to_euclidean_division_equations; lia).
  assert (H4 : 0 <= y mod 10 <= 9)
    by (Z.to_euclidean_division_equations; lia).
  eapply first_match_bind; [exact (first_match_digit _ _ H1)|].
  eapply first_match_bind; [exact (first_match_digit _ _ H2)|].
  eapply first_match_bind; [exact (first_match_digit _ _ H3)|].
  eapply first_match_bind; [exact (first_match_digit _ _ H4)|].
  rewrite <- (four_digits_value y Hy) at 5.
  apply first_match_ret.
Qed.

Lemma first_match_blank (k : Z) (rest : list ascii) :
  0 <= k <= 9 ->
  first_match spaces1 (" "%char :: digit_char k :: rest)
              (tt, digit_char k :: rest).
Proof.
  intros Hk. exists []. cbn [spaces1].
  change (is_space " ") with true. cbv iota.
  rewrite (is_space_digit_char k Hk). reflexivity.
Qed.

Lemma days_in_month_le (y m : Z) : days_in_month y m <= 31.
Proof.
  unfold days_in_month.
  destruct m as [|p|p]; try lia.
  do 4 (destruct p as [p|p|]; try lia; try (destruct (is_leap y); lia)).
Qed.

(** The text of a well-formed date and time matches the format, whole. *)
Lemma format_regex_strftime (t : datetime) :
  well_formed t ->
  first_match format_regex (list_ascii_of_string (strftime t)) (t, []).
Proof.
  intros [Hy [Hm [Hd [Hh [Hmi Hs]]]]].
  unfold strftime. rewrite list_ascii_of_string_of_list_ascii.
  pose proof (days_in_month_le (dt_year t) (dt_month t)) as Hdm.
  unfold format_regex.
  eapply first_match_bind; [apply first_match_Y; lia|].
  eapply first_match_bind; [apply first_match_lit|].
  eapply first_match_bind; [apply first_match_m; lia|].
  eapply first_match_bind; [apply first_match_lit|].
  eapply first_match_bind; [apply first_match_d; lia|].
  eapply first_match_bind.
  { apply (first_match_blank (dt_hour t / 10)).
    Z.to_euclidean_division_equations. lia. }
  eapply first_match_bind; [apply (first_match_H (dt_hour t)); lia|].
  eapply first_match_bind; [apply first_match_lit|].
  eapply first_match_bind; [apply first_match_M; lia|].
  eapply first_match_bind; [apply first_match_lit|].
  eapply first_match_bind; [apply (first_match_S (dt_second t) Hs [])|].
  destruct t. apply first_match_ret.
Qed.

Lemma valid_date_well_formed (t : datetime) :
  well_formed t ->
  valid_date (dt_year t) (dt_month t) (dt_day t) = true.
Proof.
  intros [Hy [Hm [Hd _]]]. unfold valid_date.
  rewrite !andb_true_iff, !Z.leb_le. lia.
Qed.

Lemma days_before_month_bounds (y m : Z) :
  0 <= days_before_month y m <= 335.
Proof.
  unfold days_before_month.
  destruct ((2 <? m) && is_leap y);
    (destruct m as [|p|p]; try lia;
     do 4 (destruct p as [p|p|]; try lia)).
Qed.

Lemma days_before_year_bounds (y : Z) :
  1678 <= y <= 2261 -> 612512 <= days_before_year y <= 825448.
Proof.
  intros Hy. unfold days_before_year.
  Z.to_euclidean_division_equations. lia.
Qed.

Lemma in_bounds_well_formed (t : datetime) :
  well_formed t -> in_bounds (epoch_ns t) = true.
Proof.
  intros [Hy [Hm [Hd [Hh [Hmi Hs]]]]].
  pose proof (days_in_month_le (dt_year t) (dt_month t)) as Hdm.
  pose proof (days_before_month_bounds (dt_year t) (dt_month t)) as Hbm.
  pose proof (days_before_year_bounds (dt_year t) Hy) as Hby.
  unfold in_bounds, epoch_ns, epoch_seconds, toordinal.
  change (2 ^ 63) with 9223372036854775808.
  rewrite andb_true_iff, !Z.ltb_lt. lia.
Qed.

(** Parsing the text of a well-formed date and time gives its instant. *)
Lemma strptime_strftime (t : datetime) :
  well_formed t -> strptime (strftime t) = Ok (epoch_ns t).
Proof.
  intros Hwf. unfold strptime.
  destruct (format_regex_strftime t Hwf) as [others E]. rewrite E.
  rewrite (valid_date_well_formed t Hwf), (in_bounds_well_formed t Hwf).
  reflexivity.
Qed.

(* ================================================================== *)
(** ** Time stamps: texts the format rejects *)
(* ================================================================== *)

Lemma In_m_bind {A B : Type} (p : matcher A) (k : A -> matcher B)
      (cs : list ascii) (x : B * list ascii) :
  In x (m_bind p k cs) ->
  exists a r, In (a, r) (p cs) /\ In x (k a r).
Proof.
  unfold m_bind. intros Hin. apply in_flat_map in Hin.
  destruct Hin as [[a r] [Har Hx]]. exists a, r. split; assumption.
Qed.

Lemma In_digit_in (lo hi d : Z) (cs r : list ascii) :
  In (d, r) (digit_in lo hi cs) ->
  exists c, cs = c :: r /\ digit_of c <> None.
Proof.
  unfold digit_in. destruct cs as [|c rest]; [intros []|].
  destruct (digit_of c) as [d'|] eqn:E; [|intros []].
  destruct ((lo <=? d') && (d' <=? hi)); [|intros []].
  intros [Hin|[]]. injection Hin as _ <-.
  exists c. split; [reflexivity | congruence].
Qed.

Lemma In_lit (c : ascii) (cs r : list ascii) (u : unit) :
  In (u, r) (lit c cs) -> cs = c :: r.
Proof.
  unfold lit. destruct cs as [|c' rest]; [intros []|].
  destruct (Ascii.eqb_spec c' c) as [->|]; [|intros []].
  intros [Hin|[]]. injection Hin as _ <-. reflexivity.
Qed.

Lemma In_spaces1 (cs r : list ascii) (u : unit) :
  In (u, r) (spaces1 cs) -> exists w, cs = w ++ r /\ blanks w.
Proof.
  revert r. induction cs as [|c cs IH]; intros r; simpl; [intros []|].
  destruct (is_space c) eqn:Hc; [|intros []].
  intros Hin. apply in_app_or in Hin. destruct Hin as [Hin|[Hin|[]]].
  - destruct (IH r Hin) as [w [-> [_ Hw]]].
    exists (c :: w). split; [reflexivity|]. split; [discriminate|].
    constructor; assumption.
  - injection Hin as _ <-. exists [c]. split; [reflexivity|].
    split; [discriminate|]. constructor; [exact Hc | constructor].
Qed.

Lemma In_one_digit (lo hi v : Z) (cs r : list ascii) :
  In (v, r) (digit_in lo hi cs) ->
  exists txt, cs = txt ++ r /\ short_number txt.
Proof.
  intros Hin. apply In_digit_in in Hin. destruct Hin as [c [-> Hc]].
  exists [c]. split; [reflexivity|]. split.
  - constructor; [exact Hc | constructor].
  - simpl. lia.
Qed.

Lemma In_two_digits (a b c d v : Z) (cs r : list ascii) :
  In (v, r) (two_digits (digit_in a b) (digit_in c d) cs) ->
  exists txt, cs = txt ++ r /\ short_number txt.
Proof.
  unfold two_digits. intros Hin.
  apply In_m_bind in Hin. destruct Hin as [x [r1 [H1 Hin]]].
  apply In_m_bind in Hin. destruct Hin as [y [r2 [H2 Hin]]].
  destruct Hin as [Hin|[]]. injection Hin as _ <-.
  apply In_digit_in in H1. destruct H1 as [c1 [-> Hc1]].
  apply In_digit_in in H2. destruct H2 as [c2 [-> Hc2]].
  exists [c1; c2]. split; [reflexivity|]. split.
  - repeat constructor; assumption.
  - simpl. lia.
Qed.

Ltac short_alternatives Hin :=
  repeat (apply in_app_or in Hin; destruct Hin as [Hin|Hin]);
  first [ apply In_two_digits in Hin; exact Hin
        | apply In_one_digit in Hin; exact Hin ].

Lemma In_re_m (v : Z) (cs r : list ascii) :
  In (v, r) (re_m cs) -> exists txt, cs = txt ++ r /\ short_number txt.
Proof. unfold re_m, m_alt. intros Hin. short_alternatives Hin. Qed.

Lemma In_re_H (v : Z) (cs r : list ascii) :
  In (v, r) (re_H cs) -> exists txt, cs = txt ++ r /\ short_number txt.
Proof. unfold re_H, m_alt. intros Hin. short_alternatives Hin. Qed.

Lemma In_re_M (v : Z) (cs r : list ascii) :
  In (v, r) (re_M cs) -> exists txt, cs = txt ++ r /\ short_number txt.
Proof. unfold re_M, m_alt. intros Hin. short_alternatives Hin. Qed.

Lemma In_re_S (v : Z) (cs r : list ascii) :
  In (v, r) (re_S cs) -> exists txt, cs = txt ++ r /\ short_number txt.
Proof. unfold re_S, m_alt. intros Hin. short_alternatives Hin. Qed.

Lemma In_re_d (v : Z) (cs r : list ascii) :
  In (v, r) (re_d cs) -> exists txt, cs = txt ++ r /\ day_text txt.
Proof.
  unfold re_d, m_alt. intros Hin.
  repeat (apply in_app_or in Hin; destruct Hin as [Hin|Hin]);
    try (apply In_two_digits in Hin; destruct Hin as [txt [E Hs]];
         exists txt; split; [exact E | left; exact Hs]).
  - apply In_one_digit in Hin. destruct Hin as [txt [E Hs]].
    exists txt. split; [exact E | left; exact Hs].
  - apply In_m_bind in Hin. destruct Hin as [u [r1 [H1 Hin]]].
    apply In_lit in H1. subst cs.
    apply In_digit_in in Hin. destruct Hin as [c [-> Hc]].
    exists [" "%char; c]. split; [reflexivity|]. right.
    exists c. split; [reflexivity | exact Hc].
Qed.

Lemma In_re_Y (v : Z) (cs r : list ascii) :
  In (v, r) (re_Y cs) ->
  exists Y, cs = Y ++ r /\ all_digits Y /\ List.length Y = 4%nat.
Proof.
  unfold re_Y. intros Hin.
  apply In_m_bind in Hin. destruct Hin as [a [r1 [H1 Hin]]].
  apply In_m_bind in Hin. destruct Hin as [b [r2 [H2 Hin]]].
  apply In_m_bind in Hin. destruct Hin as [c [r3 [H3 Hin]]].
  apply In_m_bind in Hin. destruct Hin as [d [r4 [H4 Hin]]].
  destruct Hin as [Hin|[]]. injection Hin as _ <-.
  apply In_digit_in in H1. destruct H1 as [c1 [-> Hc1]].
  apply In_digit_in in H2. destruct H2 as [c2 [-> Hc2]].
  apply In_digit_in in H3. destruct H3 as [c3 [-> Hc3]].
  apply In_digit_in in H4. destruct H4 as [c4 [-> Hc4]].
  exists [c1; c2; c3; c4]. split; [reflexivity|]. split.
  - repeat constructor; assumption.
  - reflexivity.
Qed.

(** Whatever the format matches, whole, has the shape of the format. *)
Lemma format_regex_shaped (t : datetime) (s : string) :
  In (t, []) (format_regex (list_ascii_of_string s)) -> format_shaped s.
Proof.
  unfold format_regex, format_shaped.
  generalize (list_ascii_of_string s). intros cs Hin.
  apply In_m_bind in Hin. destruct Hin as [y [r1 [HY Hin]]].
  apply In_m_bind in Hin. destruct Hin as [u1 [r2 [HL1 Hin]]].
  apply In_m_bind in Hin. destruct Hin as [mo [r3 [Hm Hin]]].
  apply In_m_bind in Hin. destruct Hin as [u2 [r4 [HL2 Hin]]].
  apply In_m_bind in Hin. destruct Hin as [d [r5 [Hd Hin]]].
  apply In_m_bind in Hin. destruct Hin as [u3 [r6 [HW Hin]]].
  apply In_m_bind in Hin. destruct Hin as [h [r7 [HH Hin]]].
  apply In_m_bind in Hin. destruct Hin as [u4 [r8 [HL3 Hin]]].
  apply In_m_bind in Hin. destruct Hin as [mi [r9 [HM Hin]]].
  apply In_m_bind in Hin. destruct Hin as [u5 [r10 [HL4 Hin]]].
  apply In_m_bind in Hin. destruct Hin as [sec [r11 [HS Hin]]].
  destruct Hin as [Hin|[]]. injection Hin as _ ->.
  apply In_re_Y in HY. destruct HY as [Y [-> [HY1 HY2]]].
  apply In_lit in HL1. subst r1.
  apply In_re_m in Hm. destruct Hm as [M [-> HM']].
  apply In_lit in HL2. subst r3.
  apply In_re_d in Hd. destruct Hd as [D [-> HD]].
  apply In_spaces1 in HW. destruct HW as [W [-> HW]].
  apply In_re_H in HH. destruct HH as [ht [-> Hht]].
  apply In_lit in HL3. subst r7.
  apply In_re_M in HM. destruct HM as [mt [-> Hmt]].
  apply In_lit in HL4. subst r9.
  apply In_re_S in HS. destruct HS as [st [-> Hst]].
  exists Y, M, D, W, ht, mt, st. rewrite ?app_nil_r.
  repeat split; try assumption; try apply HM'; try apply Hht;
    try apply Hmt; try apply Hst; try apply HW.
Qed.

(** A text that does not have the shape of the format is rejected. *)
Lemma strptime_rejects_unshaped (s : string) :
  ~ format_shaped s -> exists e, strptime s = Raise e.
Proof.
  intros Hns. unfold strptime.
  destruct (format_regex (list_ascii_of_string s)) as [|[t rest] others] eqn:E;
    [eexists; reflexivity|].
  destruct rest as [|c rest]; [|eexists; reflexivity].
  exfalso. apply Hns. apply (format_regex_shaped t). rewrite E.
  left. reflexivity.
Qed.

(* ================================================================== *)
(** ** Time stamps: the conversion of the three columns *)
(* ================================================================== *)

Lemma to_datetime_all_ok (vals : list value) :
  (forall v, In v vals -> exists v', to_datetime_cell v = Ok v') ->
  to_datetime vals = Ok (map converted_cell vals).
Proof.
  induction vals as [|v vals IH]; intros Hok; simpl; [reflexivity|].
  destruct (Hok v (or_introl eq_refl)) as [v' E].
  unfold converted_cell at 1. rewrite E. cbn [rbind].
  rewrite IH; [reflexivity|]. intros w Hw. apply Hok. right. exact Hw.
Qed.

Lemma to_datetime_some_raise (vals : list value) :
  (exists v, In v vals /\ exists e, to_datetime_cell v = Raise e) ->
  exists e, to_datetime vals = Raise e.
Proof.
  induction vals as [|v vals IH]; intros [w [Hw [e E]]]; [destruct Hw|].
  simpl. destruct (to_datetime_cell v) as [v'|e'] eqn:Ev;
    [|exists e'; reflexivity].
  cbn [rbind]. destruct Hw as [->|Hw]; [congruence|].
  destruct IH as [e2 E2]; [exists w; split; [exact Hw | exists e; exact E]|].
  rewrite E2. exists e2. reflexivity.
Qed.

Lemma count_label_present (c : value) (cols : list value) :
  count_label c cols = 1%nat -> add_label c cols = cols.
Proof.
  intros Hc. unfold add_label.
  rewrite count_label_existsb; [reflexivity | rewrite Hc; discriminate].
Qed.

Lemma setitem_converted (data : DataFrame) (name : value) :
  count_label name (columns data) = 1%nat ->
  setitem data name
    (map converted_cell (map (fun ir => cell name (snd ir)) (rows data))) =
  convert_column name data.
Proof.
  intros Hc. unfold setitem, convert_column.
  rewrite (count_label_present _ _ Hc). f_equal. rewrite map_map.
  apply (set_cells_map name
           (fun ir => converted_cell (cell name (snd ir))) (rows data)).
Qed.

Lemma to_datetime_column_ok (data : DataFrame) (name : value) :
  (forall ir, In ir (rows data) ->
     exists v', to_datetime_cell (cell name (snd ir)) = Ok v') ->
  to_datetime (map (fun ir => cell name (snd ir)) (rows data)) =
  Ok (map converted_cell (map (fun ir => cell name (snd ir)) (rows data))).
Proof.
  intros Hok. apply to_datetime_all_ok.
  intros v Hv. apply in_map_iff in Hv. destruct Hv as [ir [<- Hir]].
  apply Hok. exact Hir.
Qed.

Lemma to_datetime_column_raise (data : DataFrame) (name : value) :
  (exists ir, In ir (rows data) /\
     exists e, to_datetime_cell (cell name (snd ir)) = Raise e) ->
  exists e,
    to_datetime (map (fun ir => cell name (snd ir)) (rows data)) = Raise e.
Proof.
  intros [ir [Hir He]]. apply to_datetime_some_raise.
  exists (cell name (snd ir)). split; [|exact He].
  apply in_map_iff. exists ir. split; [reflexivity | exact Hir].
Qed.

Lemma cells_convert_or_not (name : value) (rs : list (Z * row)) :
  (forall ir, In ir rs ->
     exists v', to_datetime_cell (cell name (snd ir)) = Ok v') \/
  (exists ir, In ir rs /\
     exists e, to_datetime_cell (cell name (snd ir)) = Raise e).
Proof.
  induction rs as [|ir rs IH].
  - left. intros ir [].
  - destruct (to_datetime_cell (cell name (snd ir))) as [v'|e] eqn:E.
    + destruct IH as [IH|[ir' [Hin He]]].
      * left. intros ir' [<-|Hin]; [exists v'; exact E | apply IH; exact Hin].
      * right. exists ir'. split; [right; exact Hin | exact He].
    + right. exists ir. split; [left; reflexivity | exists e; exact E].
Qed.

Lemma convert_column_cell_other (c c' : value) (data : DataFrame) :
  c <> c' ->
  map (fun ir => cell c' (snd ir)) (rows (convert_column c data)) =
  map (fun ir => cell c' (snd ir)) (rows data).
Proof.
  intros Hne. unfold convert_column. cbn [rows]. rewrite map_map.
  apply map_ext. intros ir. cbn [snd]. apply cell_set_cell_other. exact Hne.
Qed.

Lemma convert_column_keeps (c c' : value) (data : DataFrame)
      (P : value -> Prop) :
  c <> c' ->
  (exists ir, In ir (rows data) /\ P (cell c' (snd ir))) ->
  exists ir, In ir (rows (convert_column c data)) /\ P (cell c' (snd ir)).
Proof.
  intros Hne [ir [Hin HP]].
  exists (fst ir, set_cell c (converted_cell (cell c (snd ir))) (snd ir)).
  split.
  - unfold convert_column. cbn [rows]. apply in_map_iff. exists ir.
    split; [reflexivity | exact Hin].
  - cbn [snd]. rewrite cell_set_cell_other by exact Hne. exact HP.
Qed.

Lemma convert_column_all (c c' : value) (data : DataFrame)
      (P : value -> Prop) :
  c <> c' ->
  (forall ir, In ir (rows data) -> P (cell c' (snd ir))) ->
  forall ir, In ir (rows (convert_column c data)) -> P (cell c' (snd ir)).
Proof.
  intros Hne Hall ir Hin. unfold convert_column in Hin. cbn [rows] in Hin.
  apply in_map_iff in Hin. destruct Hin as [ir0 [<- Hin0]]. cbn [snd].
  rewrite cell_set_cell_other by exact Hne. apply Hall. exact Hin0.
Qed.

(** The conversion goes through when every cell of the three columns
    converts, and then converts each of them. *)
Lemma convert_to_datetime_ok (data : DataFrame) :
  (forall c, In c timestamp_columns -> count_label c (columns data) = 1%nat) ->
  (forall c ir, In c timestamp_columns -> In ir (rows data) ->
     exists v', to_datetime_cell (cell c (snd ir)) = Ok v') ->
  DataPreprocessing.convert_to_datetime data =
  Ok (mkDF (columns data)
           (map (fun ir => (fst ir, converted_row (snd ir))) (rows data))).
Proof.
  intros Hcols Hok. unfold DataPreprocessing.convert_to_datetime.
  assert (H1 : In (VStr "order_purchase_timestamp") timestamp_columns)
    by (left; reflexivity).
  assert (H2 : In (VStr "order_delivered_customer_date") timestamp_columns)
    by (right; left; reflexivity).
  assert (H3 : In (VStr "order_estimated_delivery_date") timestamp_columns)
    by (right; right; left; reflexivity).
  rewrite (getattr_ok _ _ (Hcols _ H1)). cbn [rbind].
  rewrite to_datetime_column_ok by (intros ir Hir; exact (Hok _ ir H1 Hir)).
  cbn [rbind]. cbv zeta. rewrite (setitem_converted _ _ (Hcols _ H1)).
  rewrite (getattr_ok (convert_column _ data) _ (Hcols _ H2)). cbn [rbind].
  rewrite to_datetime_column_ok
    by (apply (convert_column_all _ _ data
                 (fun v => exists v', to_datetime_cell v = Ok v'));
        [discriminate | intros ir Hir; exact (Hok _ ir H2 Hir)]).
  cbn [rbind]. rewrite (setitem_converted (convert_column _ data) _ (Hcols _ H2)).
  rewrite (getattr_ok (convert_column _ (convert_column _ data)) _ (Hcols _ H3)).
  cbn [rbind].
  rewrite to_datetime_column_ok
    by (apply (convert_column_all _ _ _
                 (fun v => exists v', to_datetime_cell v = Ok v'));
        [discriminate|];
        apply (convert_column_all _ _ data
                 (fun v => exists v', to_datetime_cell v = Ok v'));
        [discriminate | intros ir Hir; exact (Hok _ ir H3 Hir)]).
  cbn [rbind].
  rewrite (setitem_converted (convert_column _ (convert_column _ data)) _
             (Hcols _ H3)).
  f_equal. unfold convert_column. cbn [columns rows]. f_equal.
  rewrite !map_map. apply map_ext. intros ir. cbn [fst snd].
  unfold converted_row.
  rewrite !cell_set_cell_other by discriminate. reflexivity.
Qed.

Lemma convert_to_datetime_raise (data : DataFrame) :
  (forall c, In c timestamp_columns -> count_label c (columns data) = 1%nat) ->
  (exists c ir, In c timestamp_columns /\ In ir (rows data) /\
     exists e, to_datetime_cell (cell c (snd ir)) = Raise e) ->
  exists e, DataPreprocessing.convert_to_datetime data = Raise e.
Proof.
  intros Hcols [c [ir [Hc [Hir He]]]].
  unfold DataPreprocessing.convert_to_datetime.
  assert (H1 : In (VStr "order_purchase_timestamp") timestamp_columns)
    by (left; reflexivity).
  assert (H2 : In (VStr "order_delivered_customer_date") timestamp_columns)
    by (right; left; reflexivity).
  assert (H3 : In (VStr "order_estimated_delivery_date") timestamp_columns)
    by (right; right; left; reflexivity).
  rewrite (getattr_ok _ _ (Hcols _ H1)). cbn [rbind].
  destruct (cells_convert_or_not "order_purchase_timestamp" (rows data))
    as [Ok1|Bad1].
  2:{ destruct (to_datetime_column_raise data _ Bad1) as [e1 E1].
      rewrite E1. exists e1. reflexivity. }
  rewrite (to_datetime_column_ok data _ Ok1). cbn [rbind]. cbv zeta.
  rewrite (setitem_converted _ _ (Hcols _ H1)).
  rewrite (getattr_ok (convert_column _ data) _ (Hcols _ H2)). cbn [rbind].
  destruct (cells_convert_or_not "order_delivered_customer_date"
              (rows (convert_column "order_purchase_timestamp" data)))
    as [Ok2|Bad2].
  2:{ destruct (to_datetime_column_raise _ _ Bad2) as [e2 E2].
      rewrite E2. exists e2. reflexivity. }
  rewrite (to_datetime_column_ok _ _ Ok2). cbn [rbind].
  rewrite (setitem_converted (convert_column _ data) _ (Hcols _ H2)).
  rewrite (getattr_ok (convert_column _ (convert_column _ data)) _ (Hcols _ H3)).
  cbn [rbind].
  destruct (to_datetime_column_raise
              (convert_column "order_delivered_customer_date"
                 (convert_column "order_purchase_timestamp" data))
              "order_estimated_delivery_date") as [e3 E3].
  2:{ rewrite E3. exists e3. reflexivity. }
  destruct Hc as [<-|[<-|[<-|[]]]].
  - exfalso. destruct (Ok1 ir Hir) as [v' E]. destruct He as [e He]. congruence.
  - exfalso.
    destruct (convert_column_keeps "order_purchase_timestamp"
                "order_delivered_customer_date" data
                (fun v => exists e, to_datetime_cell v = Raise e))
      as [ir' [Hir' [e He']]];
      [discriminate | exists ir; split; assumption |].
    destruct (Ok2 ir' Hir') as [v' E]. congruence.
  - apply (convert_column_keeps _ _ _
             (fun v => exists e, to_datetime_cell v = Raise e));
      [discriminate|].
    apply (convert_column_keeps _ _ data
             (fun v => exists e, to_datetime_cell v = Raise e));
      [discriminate|].
    exists ir. split; assumption.
Qed.

Lemma day_first_date_unshaped : ~ format_shaped "05/01/2018".
Proof.
  intros [Y [M [D [W [h [m [sec [E [HY [HL _]]]]]]]]]].
  destruct Y as [|c1 [|c2 [|c3 [|c4 [|c5 Y]]]]]; discriminate.
Qed.

Lemma converted_well_formed (t : datetime) :
  well_formed t -> converted_cell (VStr (strftime t)) = VTime (epoch_ns t).
Proof.
  intros Hwf. unfold converted_cell, to_datetime_cell.
  rewrite (strptime_strftime t Hwf). reflexivity.
Qed.

Lemma cell_converted_row (c : value) (r : row) :
  cell c (converted_row r) =
  if is_timestamp_column c then converted_cell (cell c r) else cell c r.
Proof.
  unfold converted_row, is_timestamp_column, timestamp_columns.
  cbn [existsb].
  destruct (value_eqb c "order_purchase_timestamp") eqn:E1.
  { apply value_eqb_eq in E1. subst c. cbn [orb].
    do 2 rewrite cell_set_cell_other by discriminate.
    apply cell_set_cell_same. }
  destruct (value_eqb c "order_delivered_customer_date") eqn:E2.
  { apply value_eqb_eq in E2. subst c. cbn [orb].
    rewrite cell_set_cell_other by discriminate.
    rewrite cell_set_cell_same. reflexivity. }
  destruct (value_eqb c "order_estimated_delivery_date") eqn:E3.
  { apply value_eqb_eq in E3. subst c. cbn [orb].
    rewrite cell_set_cell_same. reflexivity. }
  cbn [orb]. apply value_eqb_neq in E1, E2, E3.
  do 3 rewrite cell_set_cell_other by congruence. reflexivity.
Qed.


Lemma timestamps_columns_once (purchase delivered estimated : value) (c : value) :
  In c timestamp_columns ->
  count_label c
    (columns (mkDF timestamps_columns
                   [(0, timestamps_row purchase delivered estimated)])) = 1%nat.
Proof.
  intros [<-|[<-|[<-|[]]]]; reflexivity.
Qed.



(* ================================================================== *)
(** ** The cleaning script as a whole *)
(* ================================================================== *)

Lemma existsb_filter_false {A : Type} (p f : A -> bool) (l : list A) :
  existsb p l = false -> existsb p (filter f l) = false.
Proof.
  induction l as [|a l IH]; simpl; [reflexivity|].
  intros E. apply orb_false_iff in E. destruct E as [Ea El].
  destruct (f a); simpl; [rewrite Ea|]; apply IH; exact El.
Qed.

Lemma create_total_payment_value_columns (data out : DataFrame) :
  DataPreprocessing.create_total_payment_value data = Ok out ->
  existsb (value_eqb "Unnamed: 0") (columns data) = false ->
  existsb (value_eqb "Unnamed: 0") (columns out) = false.
Proof.
  unfold DataPreprocessing.create_total_payment_value. intros Hrun Hno.
  destruct (getitem data "payment_value") as [pv|]; [|discriminate].
  destruct (getitem data "order_id") as [oid|]; [|discriminate].
  cbn [rbind] in Hrun.
  destruct (transform_sum pv oid) as [tot|]; [|discriminate].
  cbn [rbind] in Hrun. unfold drop_column in Hrun.
  destruct (existsb (value_eqb "payment_value")
                    (columns (setitem data "total_payment" tot)));
    [|discriminate].
  injection Hrun as <-. cbn [columns]. apply existsb_filter_false.
  rewrite existsb_add_label_other by discriminate. exact Hno.
Qed.

Lemma convert_to_datetime_columns (data out : DataFrame) :
  DataPreprocessing.convert_to_datetime data = Ok out ->
  existsb (value_eqb "Unnamed: 0") (columns data) = false ->
  existsb (value_eqb "Unnamed: 0") (columns out) = false.
Proof.
  unfold DataPreprocessing.convert_to_datetime. intros Hrun Hno.
  destruct (getattr data "order_purchase_timestamp") as [c1|]; [|discriminate].
  cbn [rbind] in Hrun.
  destruct (to_datetime c1) as [t1|]; [|discriminate].
  cbn [rbind] in Hrun. cbv zeta in Hrun.
  destruct (getattr (setitem data "order_purchase_timestamp" t1)
                    "order_delivered_customer_date") as [c2|]; [|discriminate].
  cbn [rbind] in Hrun.
  destruct (to_datetime c2) as [t2|]; [|discriminate].
  cbn [rbind] in Hrun.
  destruct (getattr _ "order_estimated_delivery_date") as [c3|];
    [|discriminate].
  cbn [rbind] in Hrun.
  destruct (to_datetime c3) as [t3|]; [|discriminate].
  injection Hrun as <-. cbn [setitem columns].
  do 3 rewrite existsb_add_label_other by discriminate. exact Hno.
Qed.

Lemma groupby_filter_columns (data out : DataFrame) (by_ : value)
      (func : DataFrame -> bool) :
  groupby_filter data by_ func = Ok out -> columns out = columns data.
Proof.
  unfold groupby_filter.
  destruct (getitem data by_) as [keys|]; [|discriminate].
  intros E. injection E as <-. reflexivity.
Qed.

(** X24: on any table without a column "Unnamed: 0", and the query selects
    none, the cleaning script never runs to its end: it stops at the
    recombination step at the latest, so the combined table and the
    ratings table are not written. *)
Lemma main_never_completes (olist_data : DataFrame) (fs : files) :
  existsb (value_eqb "Unnamed: 0") (columns olist_data) = false ->
  exists e fs',
    DataPreprocessing.main olist_data fs = (Raise e, fs') /\
    read_file "data/combined_data.csv" fs' =
      read_file "data/combined_data.csv" fs /\
    read_file "data/repeat_user_ratings_data.csv" fs' =
      read_file "data/repeat_user_ratings_data.csv" fs.
Proof.
  intros Hno. unfold DataPreprocessing.main, bind, lift.
  destruct (DataPreprocessing.create_total_payment_value olist_data)
    as [d1|e1] eqn:E1; [|exists e1, fs; repeat split].
  pose proof (create_total_payment_value_columns _ _ E1 Hno) as Hno1.
  destruct (DataPreprocessing.convert_to_datetime
              (DataPreprocessing.duplicates d1)) as [d2|e2] eqn:E2;
    [|exists e2, fs; repeat split].
  pose proof (convert_to_datetime_columns _ _ E2 Hno1) as Hno2.
  unfold DataPreprocessing.repeat_and_first_time, bind, lift.
  destruct (groupby_filter d2 "customer_unique_id"
                           (fun x => (1 <? len x)%nat))
    as [rep|e3] eqn:E3; [|exists e3, fs; repeat split].
  destruct (groupby_filter d2 "customer_unique_id"
                           (fun x => (len x =? 1)%nat))
    as [ft|e4] eqn:E4; [|exists e4, fs; repeat split].
  cbn [save_csv ret fst snd].
  set (fs1 := (_ :: _ :: fs)).
  destruct (regenerate_raises_without_unnamed rep ft fs1) as [e5 E5].
  - rewrite (groupby_filter_columns _ _ _ _ E3). exact Hno2.
  - rewrite (groupby_filter_columns _ _ _ _ E4). exact Hno2.
  - exists e5, fs1.
    destruct (DataPreprocessing.regenerate_dataset_with_indicators rep ft)
      as [mutated run] eqn:Er.
    cbn [snd] in E5. rewrite E5. repeat split.
Qed.

(* ================================================================== *)
(** ** Payment totals, in general *)
(* ================================================================== *)


Lemma voucher_orders_numeric : numeric_column voucher_orders "payment_value".
Proof. intros ir [<-|[<-|[<-|[]]]]; reflexivity. Qed.


(** X2: a table that lacks the payment column, or has it and lacks the
    order column, is refused with a KeyError naming the missing column, the
    payment column first. *)
Theorem create_total_payment_value_missing_column (data : DataFrame) :
  count_label "payment_value" (columns data) = 0%nat \/
  (count_label "payment_value" (columns data) = 1%nat /\
   count_label "order_id" (columns data) = 0%nat) ->
  DataPreprocessing.create_total_payment_value data =
  Raise (KeyError
           (if (count_label "payment_value" (columns data) =? 0)%nat
            then VStr "payment_value" else VStr "order_id")).
Proof.
  unfold DataPreprocessing.create_total_payment_value, getitem.
  intros [E|[E1 E2]].
  - rewrite E. reflexivity.
  - rewrite E1, E2. reflexivity.
Qed.

Lemma create_total_payment_value_missing_column_witness :
  DataPreprocessing.create_total_payment_value cleaned_orders =
  Raise (KeyError "payment_value").
Proof.
  apply (create_total_payment_value_missing_column cleaned_orders).
  left. reflexivity.
Defined.

(* ================================================================== *)
(** ** Deduplication, in general *)
(* ================================================================== *)

Lemma existsb_row_In (r : row) (seen : list row) :
  existsb (row_eqb r) seen = true <-> In r seen.
Proof.
  rewrite existsb_exists. split.
  - intros [x [Hx E]]. apply row_eqb_eq in E. subst x. exact Hx.
  - intros Hin. exists r. split; [exact Hin | apply row_eqb_refl].
Qed.

Lemma existsb_row_not_In (r : row) (seen : list row) :
  existsb (row_eqb r) seen = false <-> ~ In r seen.
Proof.
  rewrite <- existsb_row_In. destruct (existsb (row_eqb r) seen);
    split; congruence.
Qed.

Lemma drop_dups_subseq (rs : list (Z * row)) :
  forall seen, subseq (drop_dups seen rs) rs.
Proof.
  induction rs as [|[i r] rs IH]; intros seen; simpl; [constructor|].
  destruct (existsb (row_eqb r) seen); constructor; apply IH.
Qed.

Lemma drop_dups_fresh (rs : list (Z * row)) :
  forall seen ir, In ir (drop_dups seen rs) -> ~ In (snd ir) seen.
Proof.
  induction rs as [|[i r] rs IH]; intros seen ir; simpl; [intros []|].
  destruct (existsb (row_eqb r) seen) eqn:E.
  - apply IH.
  - intros [<-|Hin].
    + apply existsb_row_not_In. exact E.
    + intros Hs. apply (IH _ _ Hin). right. exact Hs.
Qed.

Lemma drop_dups_NoDup (rs : list (Z * row)) :
  forall seen, NoDup (map snd (drop_dups seen rs)).
Proof.
  induction rs as [|[i r] rs IH]; intros seen; simpl; [constructor|].
  destruct (existsb (row_eqb r) seen); [apply IH|].
  cbn [map snd]. constructor; [|apply IH].
  intros Hin. apply in_map_iff in Hin. destruct Hin as [ir [E Hin]].
  apply (drop_dups_fresh _ _ _ Hin). left. symmetry. exact E.
Qed.

Lemma drop_dups_covers (rs : list (Z * row)) :
  forall seen ir, In ir rs ->
    In (snd ir) seen \/ In (snd ir) (map snd (drop_dups seen rs)).
Proof.
  induction rs as [|[i r] rs IH]; intros seen ir; simpl; [intros []|].
  destruct (existsb (row_eqb r) seen) eqn:E.
  - intros [<-|Hin]; [left; apply existsb_row_In; exact E | apply IH; exact Hin].
  - intros [<-|Hin]; [right; left; reflexivity|].
    destruct (IH (r :: seen) ir Hin) as [[<-|Hs]|Hout].
    + right. left. reflexivity.
    + left. exact Hs.
    + right. right. exact Hout.
Qed.

Lemma drop_dups_first (l1 l2 : list (Z * row)) (ir : Z * row) :
  forall seen,
    ~ In (snd ir) seen -> ~ In (snd ir) (map snd l1) ->
    In ir (drop_dups seen (l1 ++ ir :: l2)).
Proof.
  destruct ir as [j s]. cbn [snd].
  induction l1 as [|[i r] l1 IH]; intros seen Hs Hl; simpl.
  - apply existsb_row_not_In in Hs. rewrite Hs. left. reflexivity.
  - simpl in Hl. destruct (existsb (row_eqb r) seen).
    + apply IH; tauto.
    + right. apply IH; [|tauto]. intros [E|Hin]; [|tauto].
      apply Hl. left. exact E.
Qed.

(** X3: deduplication keeps the columns and, of the rows, exactly the first
    of each group of equal rows: what is left is the table with rows taken
    out (order and index labels kept), no two rows left are equal, every
    row of the table still has its equal among them, and a row with no
    equal before it is kept. *)
Theorem duplicates_keeps_first (data : DataFrame) :
  columns (DataPreprocessing.duplicates data) = columns data /\
  subseq (rows (DataPreprocessing.duplicates data)) (rows data) /\
  NoDup (map snd (rows (DataPreprocessing.duplicates data))) /\
  (forall ir, In ir (rows data) ->
     In (snd ir) (map snd (rows (DataPreprocessing.duplicates data)))) /\
  (forall l1 ir l2, rows data = l1 ++ ir :: l2 ->
     ~ In (snd ir) (map snd l1) ->
     In ir (rows (DataPreprocessing.duplicates data))).
Proof.
  unfold DataPreprocessing.duplicates, drop_duplicates. cbn [columns rows].
  split; [reflexivity|]. split; [apply drop_dups_subseq|].
  split; [apply drop_dups_NoDup|]. split.
  - intros ir Hin. destruct (drop_dups_covers _ [] ir Hin) as [[]|H]. exact H.
  - intros l1 ir l2 E Hfirst. rewrite E.
    apply drop_dups_first; [intros [] | exact Hfirst].
Qed.

Lemma drop_dups_distinct (rs : list (Z * row)) :
  forall seen,
    NoDup (map snd rs) -> (forall ir, In ir rs -> ~ In (snd ir) seen) ->
    drop_dups seen rs = rs.
Proof.
  induction rs as [|[i r] rs IH]; intros seen Hnd Hs; simpl; [reflexivity|].
  assert (E : existsb (row_eqb r) seen = false).
  { apply existsb_row_not_In. apply (Hs (i, r)). left. reflexivity. }
  rewrite E. f_equal. cbn [map snd] in Hnd.
  apply NoDup_cons_iff in Hnd. destruct Hnd as [Hr Hnd].
  apply IH; [exact Hnd|].
  intros ir Hin [Er|Hin']; [|apply (Hs ir); [right; exact Hin | exact Hin']].
  apply Hr. rewrite Er. apply in_map. exact Hin.
Qed.

(** X4: a table in which no two rows are equal comes out of deduplication
    unchanged. *)
Theorem duplicates_without_duplicates (data : DataFrame) :
  NoDup (map snd (rows data)) -> DataPreprocessing.duplicates data = data.
Proof.
  intros Hnd. unfold DataPreprocessing.duplicates, drop_duplicates.
  rewrite drop_dups_distinct; [destruct data; reflexivity | exact Hnd |].
  intros ir _ [].
Qed.

Lemma duplicates_without_duplicates_witness :
  DataPreprocessing.duplicates cleaned_orders = cleaned_orders.
Proof.
  apply (duplicates_without_duplicates cleaned_orders).
  repeat constructor; simpl; intuition discriminate.
Defined.

(* ================================================================== *)
(** ** Time stamps: converting twice, missing columns, impossible dates *)
(* ================================================================== *)

Lemma getattr_inv (data : DataFrame) (name : string) (col : list value) :
  getattr data name = Ok col -> count_label name (columns data) = 1%nat.
Proof.
  unfold getattr.
  destruct (count_label name (columns data)) as [|[|n]];
    [discriminate | reflexivity | discriminate].
Qed.

Lemma convert_to_datetime_has_columns (data out : DataFrame) :
  DataPreprocessing.convert_to_datetime data = Ok out ->
  forall c, In c timestamp_columns -> count_label c (columns data) = 1%nat.
Proof.
  unfold DataPreprocessing.convert_to_datetime. intros Hrun.
  destruct (getattr data "order_purchase_timestamp") as [c1|] eqn:G1;
    [|discriminate].
  cbn [rbind] in Hrun.
  destruct (to_datetime c1) as [t1|]; [|discriminate].
  cbn [rbind] in Hrun. cbv zeta in Hrun.
  apply getattr_inv in G1.
  destruct (getattr (setitem data "order_purchase_timestamp" t1)
                    "order_delivered_customer_date") as [c2|] eqn:G2;
    [|discriminate].
  cbn [rbind] in Hrun.
  destruct (to_datetime c2) as [t2|]; [|discriminate].
  cbn [rbind] in Hrun.
  apply getattr_inv in G2. cbn [setitem columns] in G2.
  rewrite (count_label_present _ _ G1) in G2.
  destruct (getattr _ "order_estimated_delivery_date") as [c3|] eqn:G3;
    [|discriminate].
  apply getattr_inv in G3. cbn [setitem columns] in G3.
  rewrite (count_label_present _ _ G1) in G3.
  rewrite (count_label_present _ _ G2) in G3.
  intros c [<-|[<-|[<-|[]]]]; assumption.
Qed.

(** What a conversion that succeeds returns. *)
Lemma convert_to_datetime_inv (data out : DataFrame) :
  DataPreprocessing.convert_to_datetime data = Ok out ->
  out = mkDF (columns data)
             (map (fun ir => (fst ir, converted_row (snd ir))) (rows data)).
Proof.
  intros Hrun.
  pose proof (convert_to_datetime_has_columns _ _ Hrun) as Hcols.
  assert (Hall : forall c ir, In c timestamp_columns -> In ir (rows data) ->
                   exists v', to_datetime_cell (cell c (snd ir)) = Ok v').
  { intros c ir Hc Hir.
    destruct (to_datetime_cell (cell c (snd ir))) as [v'|e] eqn:E;
      [exists v'; reflexivity|].
    exfalso. destruct (convert_to_datetime_raise data Hcols) as [e' E'].
    - exists c, ir. split; [exact Hc|]. split; [exact Hir|].
      exists e. exact E.
    - congruence. }
  rewrite (convert_to_datetime_ok data Hcols Hall) in Hrun.
  injection Hrun as <-. reflexivity.
Qed.

Lemma to_datetime_cell_converted (v : value) :
  to_datetime_cell (converted_cell v) = Ok (converted_cell v).
Proof.
  unfold converted_cell.
  destruct (to_datetime_cell v) as [t|e] eqn:E; [|reflexivity].
  destruct v; simpl in E; try discriminate.
  - injection E as <-. reflexivity.
  - destruct (strptime s); simpl in E; [|discriminate].
    injection E as <-. reflexivity.
  - injection E as <-. reflexivity.
Qed.

Lemma converted_cell_twice (v : value) :
  converted_cell (converted_cell v) = converted_cell v.
Proof.
  unfold converted_cell at 1. rewrite to_datetime_cell_converted. reflexivity.
Qed.

Lemma set_cell_has_column (c v : value) (r : row) :
  has_column c (set_cell c v r) = true.
Proof.
  unfold set_cell, has_column. destruct (existsb (has_label c) r) eqn:E.
  - induction r as [|kv r IH]; simpl in *; [discriminate|].
    destruct (has_label c kv) eqn:Hkv; simpl.
    + unfold has_label in *. simpl. rewrite Hkv. reflexivity.
    + rewrite Hkv. simpl. apply IH. exact E.
  - rewrite existsb_app. simpl. unfold has_label at 2. simpl.
    rewrite value_eqb_refl. apply orb_true_r.
Qed.

Lemma set_cell_cells_are (c v : value) (r : row) :
  cells_are c v (set_cell c v r).
Proof.
  unfold cells_are, set_cell. intros kv Hin Hl.
  destruct (has_column c r) eqn:Hc.
  - apply in_map_iff in Hin. destruct Hin as [kv0 [E Hin]].
    destruct (has_label c kv0) eqn:H0.
    + subst kv. reflexivity.
    + subst kv. congruence.
  - apply in_app_or in Hin. destruct Hin as [Hin|[<-|[]]]; [|reflexivity].
    exfalso.
    assert (T : has_column c r = true)
      by (apply existsb_exists; exists kv; tauto).
    congruence.
Qed.

Lemma set_cell_other_cells_are (c c' v v' : value) (r : row) :
  c <> c' -> cells_are c v r -> cells_are c v (set_cell c' v' r).
Proof.
  intros Hne Hr kv Hin Hl. unfold set_cell in Hin.
  assert (Hl' : has_label c' kv = false).
  { unfold has_label in *. apply value_eqb_eq in Hl. rewrite Hl.
    apply value_eqb_neq. exact Hne. }
  destruct (has_column c' r).
  - apply in_map_iff in Hin. destruct Hin as [kv0 [E Hin]].
    destruct (has_label c' kv0) eqn:H0.
    + subst kv. unfold has_label in *. simpl in *. congruence.
    + subst kv. apply Hr; assumption.
  - apply in_app_or in Hin. destruct Hin as [Hin|[<-|[]]].
    + apply Hr; assumption.
    + unfold has_label in Hl'. simpl in Hl'. rewrite value_eqb_refl in Hl'.
      discriminate.
Qed.

Lemma set_cell_other_has_column (c c' v' : value) (r : row) :
  has_column c r = true -> has_column c (set_cell c' v' r) = true.
Proof.
  intros Hc. unfold set_cell. destruct (has_column c' r).
  - unfold has_column in *. apply existsb_exists in Hc.
    destruct Hc as [kv [Hin Hl]]. apply existsb_exists.
    exists (if has_label c' kv then (fst kv, v') else kv). split.
    + apply in_map_iff. exists kv. split; [reflexivity | exact Hin].
    + destruct (has_label c' kv); [|exact Hl]. exact Hl.
  - unfold has_column in *. rewrite existsb_app, Hc. reflexivity.
Qed.

Lemma set_cell_already (c v : value) (r : row) :
  has_column c r = true -> cells_are c v r -> set_cell c v r = r.
Proof.
  intros Hc Hr. unfold set_cell. rewrite Hc.
  rewrite <- (map_id r) at 2. apply map_ext_in. intros kv Hin.
  destruct (has_label c kv) eqn:Hl; [|reflexivity].
  rewrite <- (Hr kv Hin Hl). destruct kv. reflexivity.
Qed.

Lemma converted_row_twice (r : row) :
  converted_row (converted_row r) = converted_row r.
Proof.
  set (R := converted_row r).
  assert (H1 : cell "order_purchase_timestamp" R =
               converted_cell (cell "order_purchase_timestamp" r))
    by (unfold R; rewrite cell_converted_row; reflexivity).
  assert (H2 : cell "order_delivered_customer_date" R =
               converted_cell (cell "order_delivered_customer_date" r))
    by (unfold R; rewrite cell_converted_row; reflexivity).
  assert (H3 : cell "order_estimated_delivery_date" R =
               converted_cell (cell "order_estimated_delivery_date" r))
    by (unfold R; rewrite cell_converted_row; reflexivity).
  unfold converted_row at 1. rewrite H1, H2, H3, !converted_cell_twice.
  rewrite (set_cell_already "order_purchase_timestamp").
  - rewrite (set_cell_already "order_delivered_customer_date").
    + apply set_cell_already.
      * unfold R, converted_row. apply set_cell_has_column.
      * unfold R, converted_row. apply set_cell_cells_are.
    + unfold R, converted_row.
      apply set_cell_other_has_column, set_cell_has_column.
    + unfold R, converted_row.
      apply set_cell_other_cells_are; [discriminate|].
      apply set_cell_cells_are.
  - unfold R, converted_row.
    do 2 apply set_cell_other_has_column. apply set_cell_has_column.
  - unfold R, converted_row.
    do 2 (apply set_cell_other_cells_are; [discriminate|]).
    apply set_cell_cells_are.
Qed.

(** X5: converting a table that was already converted changes nothing: the
    second conversion succeeds and returns the table it was given. *)
Theorem convert_to_datetime_twice (data out : DataFrame) :
  DataPreprocessing.convert_to_datetime data = Ok out ->
  DataPreprocessing.convert_to_datetime out = Ok out.
Proof.
  intros Hrun.
  pose proof (convert_to_datetime_has_columns _ _ Hrun) as Hcols.
  apply convert_to_datetime_inv in Hrun. subst out.
  rewrite convert_to_datetime_ok.
  - cbn [columns rows]. f_equal. f_equal. rewrite map_map.
    apply map_ext. intros ir. cbn [fst snd].
    rewrite converted_row_twice. reflexivity.
  - exact Hcols.
  - intros c ir Hc Hir. cbn [rows] in Hir. apply in_map_iff in Hir.
    destruct Hir as [ir0 [<- _]]. cbn [snd].
    assert (Hts : is_timestamp_column c = true).
    { unfold is_timestamp_column. apply existsb_exists. exists c.
      split; [exact Hc | apply value_eqb_refl]. }
    rewrite cell_converted_row, Hts. eexists.
    apply to_datetime_cell_converted.
Qed.

Lemma convert_to_datetime_twice_witness :
  exists out,
    DataPreprocessing.convert_to_datetime undelivered_order = Ok out /\
    DataPreprocessing.convert_to_datetime out = Ok out.
Proof.
  eexists. split; [reflexivity|].
  apply (convert_to_datetime_twice undelivered_order). reflexivity.
Defined.

(** X6: a table that lacks one of the three time-stamp columns is never
    converted: the conversion ends in an exception. *)
Theorem convert_to_datetime_missing_column (data : DataFrame) (c : value) :
  In c timestamp_columns -> count_label c (columns data) = 0%nat ->
  exists e, DataPreprocessing.convert_to_datetime data = Raise e.
Proof.
  intros Hc H0.
  destruct (DataPreprocessing.convert_to_datetime data) as [out|e] eqn:E;
    [|exists e; reflexivity].
  pose proof (convert_to_datetime_has_columns _ _ E c Hc) as H1.
  congruence.
Qed.

Lemma convert_to_datetime_missing_column_witness :
  exists e, DataPreprocessing.convert_to_datetime cleaned_orders = Raise e.
Proof.
  apply (convert_to_datetime_missing_column cleaned_orders
           "order_delivered_customer_date").
  - right. left. reflexivity.
  - reflexivity.
Defined.

(** The text of fields in range matches the format, whole, whether or not
    the date exists. *)
Lemma format_regex_fields (t : datetime) :
  fields_in_range t ->
  first_match format_regex (list_ascii_of_string (strftime t)) (t, []).
Proof.
  intros [Hy [Hm [Hd [Hh [Hmi Hs]]]]].
  unfold strftime. rewrite list_ascii_of_string_of_list_ascii.
  unfold format_regex.
  eapply first_match_bind; [apply first_match_Y; lia|].
  eapply first_match_bind; [apply first_match_lit|].
  eapply first_match_bind; [apply first_match_m; lia|].
  eapply first_match_bind; [apply first_match_lit|].
  eapply first_match_bind; [apply first_match_d; lia|].
  eapply first_match_bind.
  { apply (first_match_blank (dt_hour t / 10)).
    Z.to_euclidean_division_equations. lia. }
  eapply first_match_bind; [apply (first_match_H (dt_hour t)); lia|].
  eapply first_match_bind; [apply first_match_lit|].
  eapply first_match_bind; [apply first_match_M; lia|].
  eapply first_match_bind; [apply first_match_lit|].
  eapply first_match_bind; [apply (first_match_S (dt_second t) Hs [])|].
  destruct t. apply first_match_ret.
Qed.





(* ================================================================== *)
(** ** Segmentation: what is returned and written *)
(* ================================================================== *)

Lemma subseq_filter {A : Type} (f : A -> bool) (l : list A) :
  subseq (filter f l) l.
Proof.
  induction l as [|a l IH]; simpl; [constructor|].
  destruct (f a); constructor; exact IH.
Qed.

(** X9: the two subsets have the columns of the table and are the table
    with rows left out: the rows kept are in their original order, under
    their original index labels.  Two files are written, repeater_data
    first and first_timers_data after it, holding the rows of the two
    subsets; files written before stay. *)
Theorem repeat_and_first_time_outputs (data : DataFrame) (fs : files) :
  count_label "customer_unique_id" (columns data) = 1%nat ->
  exists repeaters first_timers,
    DataPreprocessing.repeat_and_first_time data fs =
      (Ok (repeaters, first_timers),
       ("data/first_timers_data.csv", to_csv first_timers) ::
       ("data/repeater_data.csv", to_csv repeaters) :: fs) /\
    columns repeaters = columns data /\
    columns first_timers = columns data /\
    subseq (rows repeaters) (rows data) /\
    subseq (rows first_timers) (rows data).
Proof.
  intros Hc. eexists _, _.
  split; [apply repeat_and_first_time_ok; exact Hc|].
  cbn [columns rows]. repeat split; apply subseq_filter.
Qed.

Lemma repeat_and_first_time_outputs_witness :
  exists repeaters first_timers,
    DataPreprocessing.repeat_and_first_time cleaned_orders [] =
      (Ok (repeaters, first_timers),
       [("data/first_timers_data.csv", to_csv first_timers);
        ("data/repeater_data.csv", to_csv repeaters)]) /\
    columns repeaters = columns cleaned_orders /\
    columns first_timers = columns cleaned_orders /\
    subseq (rows repeaters) (rows cleaned_orders) /\
    subseq (rows first_timers) (rows cleaned_orders).
Proof.
  apply (repeat_and_first_time_outputs cleaned_orders []). reflexivity.
Defined.

(** X10: a table without the customer column is not split: the step ends
    in a KeyError naming the column, before any file is written. *)
Theorem repeat_and_first_time_missing_column (data : DataFrame) (fs : files) :
  count_label "customer_unique_id" (columns data) = 0%nat ->
  DataPreprocessing.repeat_and_first_time data fs =
  (Raise (KeyError "customer_unique_id"), fs).
Proof.
  intros H0.
  unfold DataPreprocessing.repeat_and_first_time, bind, lift, groupby_filter,
    getitem.
  rewrite H0. reflexivity.
Qed.

Lemma repeat_and_first_time_missing_column_witness :
  DataPreprocessing.repeat_and_first_time hot_orders [] =
  (Raise (KeyError "customer_unique_id"), []).
Proof.
  apply (repeat_and_first_time_missing_column hot_orders []). reflexivity.
Defined.

(* ================================================================== *)
(** ** Recombination, when it goes through *)
(* ================================================================== *)

Lemma list_value_eqb_refl (l : list value) : list_value_eqb l l = true.
Proof.
  unfold list_value_eqb. rewrite Nat.eqb_refl. simpl.
  induction l as [|v l IH]; simpl; [reflexivity|].
  rewrite value_eqb_refl. exact IH.
Qed.

Lemma map_snd_enumerate_from {A : Type} (l : list A) :
  forall n, map snd (enumerate_from n l) = l.
Proof.
  induction l as [|a l IH]; intros n; simpl; [reflexivity|].
  rewrite IH. reflexivity.
Qed.

(** X11: on two tables with the same columns, among them "Unnamed: 0" and
    not "index", the recombination goes through and writes combined_data:
    the rows of the repeat table, then those of the first-time table, each
    with repeater 1 or 0, without its "Unnamed: 0" cell, and with the index
    label it had, kept in a first column named index. *)
Theorem regenerate_writes_combined (repeaters first_timers : DataFrame)
        (fs : files) :
  columns first_timers = columns repeaters ->
  existsb (value_eqb "Unnamed: 0") (columns repeaters) = true ->
  existsb (value_eqb "index") (columns repeaters) = false ->
  snd (DataPreprocessing.regenerate_dataset_with_indicators
         repeaters first_timers) fs =
  (Ok tt,
   ("data/combined_data.csv",
    mkCSV (VStr "index" ::
           filter (fun c => negb (value_eqb c "Unnamed: 0"))
                  (add_label "repeater" (columns repeaters)))
          (map (combined_record 1) (rows repeaters) ++
           map (combined_record 0) (rows first_timers))) :: fs).
Proof.
  intros Hsame Hun Hidx.
  cbn [DataPreprocessing.regenerate_dataset_with_indicators snd].
  unfold bind, lift, concat. cbn [setitem_scalar columns rows].
  rewrite Hsame, list_value_eqb_refl.
  unfold drop_column. cbn [columns rows rbind].
  rewrite existsb_add_label by exact Hun. cbn [rbind].
  unfold reset_index. cbn [columns rows].
  assert (Hfresh : existsb (value_eqb "index")
                     (filter (fun c' => negb (value_eqb c' "Unnamed: 0"))
                             (add_label "repeater" (columns repeaters)))
                   = false).
  { apply existsb_filter_false.
    rewrite existsb_add_label_other by discriminate. exact Hidx. }
  rewrite Hfresh. cbn [negb]. unfold save_csv, to_csv. cbn [columns rows].
  f_equal. f_equal. f_equal. f_equal.
  rewrite map_snd_enumerate_from, map_map, map_app, !map_map.
  reflexivity.
Qed.

Lemma regenerate_writes_combined_witness :
  snd (DataPreprocessing.regenerate_dataset_with_indicators
         reloaded_repeaters reloaded_first_timers) [] =
  (Ok tt,
   [("data/combined_data.csv",
     mkCSV [VStr "index"; VStr "customer_unique_id"; VStr "product_id";
            VStr "review_score"; VStr "repeater"]
           (map (combined_record 1) (rows reloaded_repeaters) ++
            map (combined_record 0) (rows reloaded_first_timers)))]).
Proof.
  apply (regenerate_writes_combined reloaded_repeaters reloaded_first_timers []);
    reflexivity.
Defined.

(* ================================================================== *)
(** ** Ratings: after the labelling, for repeat customers only, in range *)
(* ================================================================== *)

Lemma count_label_add_other (c c' : value) (cols : list value) :
  c <> c' -> count_label c (add_label c' cols) = count_label c cols.
Proof.
  intros Hne. unfold add_label. destruct (existsb (value_eqb c') cols);
    [reflexivity|].
  unfold count_label. rewrite filter_app, length_app. simpl.
  assert (E : value_eqb c c' = false) by (apply value_eqb_neq; exact Hne).
  rewrite E. simpl. lia.
Qed.

Lemma getitem_labelled (data : DataFrame) (v c : value) :
  c <> VStr "repeater" ->
  getitem (setitem_scalar data "repeater" v) c = getitem data c.
Proof.
  intros Hne. unfold getitem, setitem_scalar. cbn [columns rows].
  rewrite count_label_add_other by exact Hne.
  rewrite map_map. cbn [snd].
  destruct (count_label c (columns data)) as [|[|n]]; try reflexivity.
  f_equal. apply map_ext. intros ir.
  apply cell_set_cell_other. congruence.
Qed.

(** X12: the labelling step writes its repeater column into the table the
    ratings are computed from afterwards; the ratings do not depend on it:
    the ratings file is the same from the labelled table as from the table
    before it was labelled. *)
Theorem ratings_unchanged_by_labelling (repeaters first_timers : DataFrame)
        (fs : files) :
  DataPreprocessing.create_user_ratings_df
    (fst (fst (DataPreprocessing.regenerate_dataset_with_indicators
                 repeaters first_timers))) fs =
  DataPreprocessing.create_user_ratings_df repeaters fs.
Proof.
  cbn [DataPreprocessing.regenerate_dataset_with_indicators fst].
  unfold DataPreprocessing.create_user_ratings_df.
  rewrite !getitem_labelled by discriminate. reflexivity.
Qed.

Lemma kept_rows_In (data : DataFrame) (f : nat -> bool) (ir : Z * row) :
  In ir (filter (kept data f) (rows data)) ->
  In ir (rows data) /\
  f (List.length (rows_of_customer data (customer_of ir))) = true.
Proof.
  intros Hin. apply filter_In in Hin. destruct Hin as [Hin Hk].
  split; [exact Hin|]. unfold kept in Hk.
  apply andb_true_iff in Hk. tauto.
Qed.

(** X13: only repeat customers are rated: when the ratings are computed
    from the repeat subset, every line of the ratings file is about a
    customer with more than one row in the cleaned table. *)
Theorem ratings_only_for_repeat_customers (data : DataFrame) (fs : files) :
  count_label "customer_unique_id" (columns data) = 1%nat ->
  count_label "product_id" (columns data) = 1%nat ->
  count_label "review_score" (columns data) = 1%nat ->
  numeric_column data "review_score" ->
  exists repeaters first_timers fs' out,
    DataPreprocessing.repeat_and_first_time data fs =
      (Ok (repeaters, first_timers), fs') /\
    DataPreprocessing.create_user_ratings_df repeaters fs' =
      (Ok tt, ("data/repeat_user_ratings_data.csv", out) :: fs') /\
    forall r, In r (records out) ->
      (1 < List.length
             (rows_of_customer data (cell "customer_unique_id" r)))%nat.
Proof.
  intros Hc Hp Hs Hnum.
  eexists _, _, _, _.
  split; [apply repeat_and_first_time_ok; exact Hc|].
  split.
  - apply create_user_ratings_df_ok; try assumption.
    intros ir Hin. cbn [rows] in Hin. apply kept_rows_In in Hin.
    apply Hnum. tauto.
  - cbn [records rows]. intros r Hin.
    apply in_map_iff in Hin. destruct Hin as [[c p] [<- Hin]].
    cbn [fst snd]. change (cell "customer_unique_id" _) with c.
    apply (Permutation_in _
             (Permutation_sym (sort_keys_perm _))) in Hin.
    apply (proj1 (distinct_keys_In _ _)) in Hin.
    apply filter_In in Hin. destruct Hin as [Hin _].
    apply combine_map_In in Hin. destruct Hin as [ir [Hir E]].
    injection E as Ec _. apply kept_rows_In in Hir.
    destruct Hir as [_ Hk]. rewrite Ec in Hk.
    apply Nat.ltb_lt. exact Hk.
Qed.

Lemma ratings_only_for_repeat_customers_witness :
  exists repeaters first_timers fs' out,
    DataPreprocessing.repeat_and_first_time cleaned_orders [] =
      (Ok (repeaters, first_timers), fs') /\
    DataPreprocessing.create_user_ratings_df repeaters fs' =
      (Ok tt, ("data/repeat_user_ratings_data.csv", out) :: fs') /\
    forall r, In r (records out) ->
      (1 < List.length
             (rows_of_customer cleaned_orders (cell "customer_unique_id" r)))%nat.
Proof.
  apply (ratings_only_for_repeat_customers cleaned_orders []);
    try reflexivity.
  exact cleaned_orders_scores.
Defined.

Lemma count_Qc_S (n : nat) : count_Qc (S n) = (count_Qc n + 1)%Qc.
Proof.
  unfold count_Qc, Qcplus. apply Q2Qc_eq_iff.
  rewrite Nat2Z.inj_succ. unfold Z.succ. rewrite inject_Z_plus.
  unfold Q2Qc. cbn [this]. rewrite !Qred_correct. reflexivity.
Qed.

Lemma count_Qc_nonneg (n : nat) : (0 <= count_Qc n)%Qc.
Proof.
  unfold Qcle, count_Qc, Q2Qc. cbn [this]. rewrite !Qred_correct.
  unfold Qle. simpl. lia.
Qed.

Lemma count_Qc_pos (n : nat) : (0 < count_Qc (S n))%Qc.
Proof.
  unfold Qclt, count_Qc, Q2Qc. cbn [this]. rewrite !Qred_correct.
  unfold Qlt. simpl. lia.
Qed.

Lemma sum_numbers_bounds (lo hi : Qc) (cells : list value) :
  (forall v, In v cells ->
     exists q, as_number v = Some q /\ (lo <= q)%Qc /\ (q <= hi)%Qc) ->
  (lo * count_Qc (List.length cells) <= sum_numbers (map as_number cells))%Qc /\
  (sum_numbers (map as_number cells) <= hi * count_Qc (List.length cells))%Qc.
Proof.
  induction cells as [|v cells IH]; intros Hall.
  - simpl. change (count_Qc 0) with (Q2Qc 0).
    replace (lo * Q2Qc 0)%Qc with (Q2Qc 0) by ring.
    replace (hi * Q2Qc 0)%Qc with (Q2Qc 0) by ring.
    split; apply Qcle_refl.
  - destruct (Hall v (or_introl eq_refl)) as [q [Eq [Hlo Hhi]]].
    destruct IH as [IHlo IHhi];
      [intros w Hw; apply Hall; right; exact Hw|].
    cbn [map sum_numbers List.length]. rewrite Eq, count_Qc_S.
    replace (lo * (count_Qc (List.length cells) + 1))%Qc
      with (lo + lo * count_Qc (List.length cells))%Qc by ring.
    replace (hi * (count_Qc (List.length cells) + 1))%Qc
      with (hi + hi * count_Qc (List.length cells))%Qc by ring.
    split; apply Qcplus_le_compat; assumption.
Qed.

Lemma mean_group_bounds (lo hi : Qc) (cells : list value) :
  (forall v q, In v cells -> as_number v = Some q ->
               (lo <= q)%Qc /\ (q <= hi)%Qc) ->
  forallb is_numeric cells = true ->
  mean_group cells = VNull \/
  exists q, mean_group cells = VFloat q /\ (lo <= q)%Qc /\ (q <= hi)%Qc.
Proof.
  intros Hrange Hnum. unfold mean_group.
  set (present := filter (fun v => negb (isnull v)) cells).
  assert (Hp : forall v, In v present ->
             exists q, as_number v = Some q /\ (lo <= q)%Qc /\ (q <= hi)%Qc).
  { intros v Hv. apply filter_In in Hv. destruct Hv as [Hv Hnn].
    rewrite forallb_forall in Hnum. specialize (Hnum v Hv).
    destruct v; simpl in Hnn, Hnum; try discriminate.
    - exists (Q2Qc (inject_Z z)). split; [reflexivity|].
      apply (Hrange (VInt z)); [exact Hv | reflexivity].
    - exists q. split; [reflexivity|].
      apply (Hrange (VFloat q)); [exact Hv | reflexivity]. }
  destruct (sum_numbers_bounds lo hi present Hp) as [Hlo Hhi].
  destruct present as [|v0 rest] eqn:E; [left; reflexivity|].
  right. eexists. split; [reflexivity|].
  fold (count_Qc (List.length (v0 :: rest))) in *.
  set (s := sum_numbers (map as_number (v0 :: rest))) in *.
  set (n := count_Qc (List.length (v0 :: rest))) in *.
  assert (Hn : (0 < n)%Qc) by apply count_Qc_pos.
  assert (Hn0 : n <> Q2Qc 0).
  { intros E0. rewrite E0 in Hn. apply (Qclt_not_eq _ _ Hn). reflexivity. }
  assert (Es : (s / n * n)%Qc = s) by (field; exact Hn0).
  split.
  - apply (Qcmult_lt_0_le_reg_r _ _ n Hn). rewrite Es. exact Hlo.
  - apply (Qcmult_lt_0_le_reg_r _ _ n Hn). rewrite Es. exact Hhi.
Qed.


Lemma cleaned_orders_within : scores_within cleaned_orders (Q2Qc 1) (Q2Qc 5).
Proof.
  intros ir q [<-|[<-|[<-|[<-|[<-|[]]]]]] E; vm_compute in E;
    injection E as <-; split; vm_compute; discriminate.
Qed.


Lemma value_compare_antisym (a b : value) :
  value_compare b a = CompOpp (value_compare a b).
Proof.
  destruct a, b; simpl; try reflexivity;
    try (unfold Qccompare; rewrite <- Qcompare_antisym; reflexivity);
    try (rewrite Z.compare_antisym; reflexivity);
    try (rewrite String.compare_antisym; reflexivity).
Qed.

Lemma key2_leb_total (a b : key2) :
  key2_leb a b = false -> key2_leb b a = true.
Proof.
  unfold key2_leb.
  rewrite (value_compare_antisym (fst a) (fst b)).
  rewrite (value_compare_antisym (snd a) (snd b)).
  destruct (value_compare (fst a) (fst b));
    destruct (value_compare (snd a) (snd b)); simpl; congruence.
Qed.

Lemma insert_key_sorted (k : key2) (l : list key2) :
  Sorted (fun a b => key2_leb a b = true) l ->
  Sorted (fun a b => key2_leb a b = true) (insert_key k l).
Proof.
  induction l as [|k' l IH]; intros Hs; simpl.
  - constructor; constructor.
  - destruct (key2_leb k k') eqn:E.
    + constructor; [exact Hs | constructor; exact E].
    + inversion Hs as [|? ? Hs' Hhd]. subst.
      constructor; [apply IH; exact Hs'|].
      destruct l as [|k'' l]; simpl.
      * constructor. apply key2_leb_total. exact E.
      * destruct (key2_leb k k''); constructor.
        -- apply key2_leb_total. exact E.
        -- inversion Hhd. assumption.
Qed.

Lemma sort_keys_sorted (l : list key2) :
  Sorted (fun a b => key2_leb a b = true) (sort_keys l).
Proof.
  induction l as [|k l IH]; simpl; [constructor|].
  apply insert_key_sorted. exact IH.
Qed.

(** X15: the lines of the ratings file come in ascending order of customer
    and, for one customer, of product, and no pair of customer and product
    has two lines. *)
Theorem ratings_sorted_by_key (data : DataFrame) (fs : files) :
  count_label "customer_unique_id" (columns data) = 1%nat ->
  count_label "product_id" (columns data) = 1%nat ->
  count_label "review_score" (columns data) = 1%nat ->
  numeric_column data "review_score" ->
  exists out,
    DataPreprocessing.create_user_ratings_df data fs =
      (Ok tt, ("data/repeat_user_ratings_data.csv", out) :: fs) /\
    Sorted (fun a b => key2_leb a b = true)
           (map (fun r => (cell "customer_unique_id" r, cell "productId" r))
                (records out)) /\
    NoDup (map (fun r => (cell "customer_unique_id" r, cell "productId" r))
               (records out)).
Proof.
  intros Hc Hp Hs Hnum.
  eexists. split; [apply create_user_ratings_df_ok; assumption|].
  cbn [records]. rewrite map_map.
  match goal with
  | |- context [map ?f (sort_keys ?l)] =>
      replace (map f (sort_keys l)) with (sort_keys l)
  end.
  - split; [apply sort_keys_sorted|].
    apply (Permutation_NoDup (sort_keys_perm _)). apply distinct_keys_NoDup.
  - rewrite <- (map_id (sort_keys _)) at 1. apply map_ext.
    intros [c p]. reflexivity.
Qed.

Lemma ratings_sorted_by_key_witness :
  exists out,
    DataPreprocessing.create_user_ratings_df cleaned_orders [] =
      (Ok tt, [("data/repeat_user_ratings_data.csv", out)]) /\
    Sorted (fun a b => key2_leb a b = true)
           (map (fun r => (cell "customer_unique_id" r, cell "productId" r))
                (records out)) /\
    NoDup (map (fun r => (cell "customer_unique_id" r, cell "productId" r))
               (records out)).
Proof.
  apply (ratings_sorted_by_key cleaned_orders []); try reflexivity.
  exact cleaned_orders_scores.
Defined.

(** X16: a table that lacks the customer, product or score column gets no
    ratings: the step ends in a KeyError before the file is written. *)
Theorem create_user_ratings_df_missing_column (data : DataFrame)
        (fs : files) (c : value) :
  In c [VStr "customer_unique_id"; VStr "product_id"; VStr "review_score"] ->
  count_label c (columns data) = 0%nat ->
  exists e, DataPreprocessing.create_user_ratings_df data fs = (Raise e, fs).
Proof.
  intros Hc H0. unfold DataPreprocessing.create_user_ratings_df, bind, lift.
  destruct (getitem data "customer_unique_id") as [k1|e1] eqn:G1;
    [|exists e1; reflexivity].
  cbn [rbind].
  destruct (getitem data "product_id") as [k2|e2] eqn:G2;
    [|exists e2; reflexivity].
  cbn [rbind].
  destruct (getitem data "review_score") as [k3|e3] eqn:G3;
    [|exists e3; reflexivity].
  exfalso. unfold getitem in G1, G2, G3.
  destruct Hc as [<-|[<-|[<-|[]]]]; rewrite H0 in *; discriminate.
Qed.

Lemma create_user_ratings_df_missing_column_witness :
  exists e,
    DataPreprocessing.create_user_ratings_df hot_orders [] = (Raise e, []).
Proof.
  apply (create_user_ratings_df_missing_column hot_orders []
           "review_score").
  - right. right. left. reflexivity.
  - reflexivity.
Defined.

(* ================================================================== *)
(** ** Hot items: edges of the count asked for *)
(* ================================================================== *)

(** X17: without a product column there is no ranking: the step ends in an
    AttributeError and writes no file. *)
Theorem find_popular_items_missing_column `{SortValues} (data : DataFrame)
        (n_recs : Z) (fs : files) :
  count_label "product_id" (columns data) = 0%nat ->
  Models.find_popular_items data n_recs fs =
  (Raise (AttributeError "product_id"), fs).
Proof.
  intros H0. unfold Models.find_popular_items, bind, lift, getattr.
  rewrite H0. reflexivity.
Qed.

Lemma find_popular_items_missing_column_witness :
  Models.find_popular_items undelivered_order 10 [] =
  (Raise (AttributeError "product_id"), []).
Proof.
  apply (find_popular_items_missing_column undelivered_order 10 []).
  reflexivity.
Defined.



Lemma firstn_prefix {A : Type} (n m : nat) (l : list A) :
  (n <= m)%nat -> exists rest, firstn m l = firstn n l ++ rest.
Proof.
  revert m l. induction n as [|n IH]; intros m l Hle.
  - exists (firstn m l). reflexivity.
  - destruct m as [|m]; [lia|]. destruct l as [|a l].
    + exists []. reflexivity.
    + destruct (IH m l) as [rest E]; [lia|].
      exists rest. simpl. rewrite E. reflexivity.
Qed.

(** X19: asking for more only adds at the end: the list written for a
    count is the beginning of the list written for any larger count. *)
Theorem find_popular_items_prefix `{SortValues} (data : DataFrame)
        (n m : Z) (fs : files) :
  count_label "product_id" (columns data) = 1%nat ->
  0 <= n <= m ->
  exists top more,
    Models.find_popular_items data n fs =
      (Ok tt, ("data/hot_items.csv", to_csv (DataFrame_of_list top)) :: fs) /\
    Models.find_popular_items data m fs =
      (Ok tt,
       ("data/hot_items.csv", to_csv (DataFrame_of_list (top ++ more))) :: fs).
Proof.
  intros Hp Hnm.
  destruct (firstn_prefix (Z.to_nat n) (Z.to_nat m)
              (sort_values_desc (value_counts (product_ids data))))
    as [rest E]; [lia|].
  exists (Models.top_n_index (product_ids data) n), (map fst rest).
  split; [apply find_popular_items_ok; exact Hp|].
  rewrite find_popular_items_ok by exact Hp.
  unfold Models.top_n_index. rewrite !slice_to_firstn by lia.
  rewrite E, map_app. reflexivity.
Qed.

Lemma find_popular_items_prefix_witness :
  exists top more,
    Models.find_popular_items hot_orders 2 [] =
      (Ok tt, [("data/hot_items.csv", to_csv (DataFrame_of_list top))]) /\
    Models.find_popular_items hot_orders 3 [] =
      (Ok tt,
       [("data/hot_items.csv", to_csv (DataFrame_of_list (top ++ more)))]).
Proof.
  apply (find_popular_items_prefix hot_orders 2 3 []).
  - reflexivity.
  - lia.
Defined.

(** X20: a count of zero, or a table without any product, gives a file
    with no line and no header, not even the column 0. *)
Theorem find_popular_items_empty `{SortValues} (data : DataFrame)
        (n_recs : Z) (fs : files) :
  count_label "product_id" (columns data) = 1%nat ->
  n_recs = 0 \/ (0 <= n_recs /\ distinct_products data = []) ->
  Models.find_popular_items data n_recs fs =
  (Ok tt, ("data/hot_items.csv", mkCSV [] []) :: fs).
Proof.
  intros Hp Hempty. rewrite find_popular_items_ok by exact Hp.
  assert (Hn : 0 <= n_recs) by lia.
  assert (E : Models.top_n_index (product_ids data) n_recs = []).
  { apply length_zero_iff_nil. rewrite top_n_index_length by exact Hn.
    destruct Hempty as [->|[_ Hd]].
    - reflexivity.
    - unfold distinct_products in Hd. rewrite Hd. simpl. lia. }
  rewrite E. reflexivity.
Qed.

Lemma find_popular_items_empty_witness :
  Models.find_popular_items hot_orders 0 [] =
  (Ok tt, [("data/hot_items.csv", mkCSV [] [])]).
Proof.
  apply (find_popular_items_empty hot_orders 0 []).
  - reflexivity.
  - left. reflexivity.
Defined.

(* ================================================================== *)
(** ** Popular in your area: the table of the states *)
(* ================================================================== *)

Lemma top_in_area_loop_ok `{SortValues} (data : DataFrame) (n_recs : Z)
      (states : list value) :
  count_label "product_id" (columns data) = 1%nat ->
  Models.top_in_area_loop data
    (map (fun ir => cell "customer_state" (snd ir)) (rows data))
    n_recs states =
  Ok (map (fun s => (s, Models.top_n_index
                          (product_ids (rows_in_state data s)) n_recs))
          states).
Proof.
  intros Hp. induction states as [|s states IH]; [reflexivity|].
  cbn [Models.top_in_area_loop map].
  rewrite top_in_area_ok by exact Hp. cbn [rbind].
  rewrite IH. reflexivity.
Qed.

Lemma popular_in_your_area_dict `{SortValues} (data : DataFrame)
      (n_recs : Z) (fs : files) :
  count_label "customer_state" (columns data) = 1%nat ->
  count_label "product_id" (columns data) = 1%nat ->
  Models.popular_in_your_area data n_recs fs =
  match DataFrame_of_dict
          (map (fun s => (s, Models.top_n_index
                               (product_ids (rows_in_state data s)) n_recs))
               (states_of data)) with
  | Ok df => (Ok tt, ("data/in_your_area.csv", to_csv df) :: fs)
  | Raise e => (Raise e, fs)
  end.
Proof.
  intros Hs Hp. unfold Models.popular_in_your_area, bind, lift.
  rewrite (getattr_ok _ _ Hs). cbn [rbind].
  rewrite top_in_area_loop_ok by exact Hp. cbn [rbind].
  unfold states_of.
  destruct (DataFrame_of_dict _); reflexivity.
Qed.

Lemma same_lengths_all (d : list (value * list value)) :
  same_lengths d = true ->
  forall kv kv', In kv d -> In kv' d ->
    List.length (snd kv) = List.length (snd kv').
Proof.
  destruct d as [|k0 d]; [intros _ kv kv' []|].
  cbn [same_lengths]. intros Hall.
  assert (Hk : forall kv, In kv (k0 :: d) ->
                 List.length (snd kv) = List.length (snd k0)).
  { intros kv [<-|Hin]; [reflexivity|].
    rewrite forallb_forall in Hall. apply Nat.eqb_eq. apply Hall. exact Hin. }
  intros kv kv' Hin Hin'. rewrite (Hk kv Hin), (Hk kv' Hin'). reflexivity.
Qed.

Lemma same_lengths_const (d : list (value * list value)) (k : nat) :
  (forall kv, In kv d -> List.length (snd kv) = k) -> same_lengths d = true.
Proof.
  destruct d as [|k0 d]; [reflexivity|]. intros Hall.
  cbn [same_lengths]. apply forallb_forall. intros kv Hin.
  apply Nat.eqb_eq.
  rewrite (Hall kv (or_intror Hin)), (Hall k0 (or_introl eq_refl)).
  reflexivity.
Qed.

(** X21: rankings of different lengths cannot be laid side by side: as
    soon as two states of the table have rankings of different lengths
    (one of them has fewer products than asked for, and not as many as the
    other), the run ends in a ValueError and no file is written. *)
Theorem popular_in_your_area_uneven `{SortValues} (data : DataFrame)
        (n_recs : Z) (fs : files) (s1 s2 : value) :
  count_label "customer_state" (columns data) = 1%nat ->
  count_label "product_id" (columns data) = 1%nat ->
  0 <= n_recs ->
  In s1 (states_of data) -> In s2 (states_of data) ->
  Nat.min (Z.to_nat n_recs) (products_in_state data s1) <>
  Nat.min (Z.to_nat n_recs) (products_in_state data s2) ->
  Models.popular_in_your_area data n_recs fs =
  (Raise (ValueError "All arrays must be of the same length"), fs).
Proof.
  intros Hs Hp Hn H1 H2 Hne.
  rewrite popular_in_your_area_dict by assumption.
  set (d := map (fun s => (s, Models.top_n_index
                                (product_ids (rows_in_state data s)) n_recs))
                (states_of data)).
  assert (Hbad : same_lengths d = false).
  { apply not_true_is_false. intros Hsame.
    apply Hne. unfold products_in_state, distinct_products.
    rewrite <- !top_n_index_length by exact Hn.
    apply (same_lengths_all d Hsame
             (s1, Models.top_n_index
                    (product_ids (rows_in_state data s1)) n_recs)
             (s2, Models.top_n_index
                    (product_ids (rows_in_state data s2)) n_recs));
      unfold d; apply in_map_iff; eexists; split; try reflexivity; assumption. }
  unfold DataFrame_of_dict. destruct d as [|kv d']; [discriminate|].
  rewrite Hbad. reflexivity.
Qed.

Lemma popular_in_your_area_uneven_witness :
  Models.popular_in_your_area two_states 2 [] =
  (Raise (ValueError "All arrays must be of the same length"), []).
Proof.
  apply (popular_in_your_area_uneven two_states 2 [] "SP" "RJ").
  - reflexivity.
  - reflexivity.
  - lia.
  - left. reflexivity.
  - right. left. reflexivity.
  - vm_compute. discriminate.
Defined.

Lemma cell_of_dict (g : value -> value) (states : list value) (s : value) :
  In s states -> cell s (map (fun s' => (s', g s')) states) = g s.
Proof.
  unfold cell. induction states as [|s' states IH]; [intros []|].
  intros Hin. cbn [map find]. unfold has_label at 1. cbn [fst].
  destruct (value_eqb s' s) eqn:E.
  - apply value_eqb_eq in E. subst s'. reflexivity.
  - destruct Hin as [->|Hin]; [rewrite value_eqb_refl in E; discriminate|].
    apply IH. exact Hin.
Qed.

Lemma map_nth_seq {A : Type} (l : list A) (a : A) :
  map (fun i => nth i l a) (seq 0 (List.length l)) = l.
Proof.
  induction l as [|x l IH]; [reflexivity|].
  cbn [List.length seq map nth]. f_equal.
  rewrite <- seq_shift, map_map. exact IH.
Qed.

Lemma DataFrame_of_dict_even (d : list (value * list value)) (k : nat) :
  d <> [] ->
  (forall kv, In kv d -> List.length (snd kv) = k) ->
  DataFrame_of_dict d =
  Ok (mkDF (map fst d)
           (enumerate_from 0
              (map (fun i => map (fun kv' => (fst kv', nth i (snd kv') VNull)) d)
                   (seq 0 k)))).
Proof.
  intros Hne Hall. unfold DataFrame_of_dict.
  rewrite (same_lengths_const d k Hall).
  destruct d as [|kv d']; [contradiction Hne; reflexivity|].
  rewrite (Hall kv (or_introl eq_refl)). reflexivity.
Qed.


Lemma hot_orders_states (s : value) :
  In s (states_of hot_orders) ->
  (Z.to_nat 2 <= products_in_state hot_orders s)%nat.
Proof.
  intros [<-|[]]. vm_compute. repeat constructor.
Qed.


(** X23: without a state column there is no table of the states, and with
    rows but no product column there is no ranking: either way the step
    ends in an AttributeError and writes no file. *)
Theorem popular_in_your_area_missing_column `{SortValues} (data : DataFrame)
        (n_recs : Z) (fs : files) :
  count_label "customer_state" (columns data) = 0%nat \/
  (count_label "customer_state" (columns data) = 1%nat /\
   count_label "product_id" (columns data) = 0%nat /\ rows data <> []) ->
  Models.popular_in_your_area data n_recs fs =
  (Raise (AttributeError
            (if (count_label "customer_state" (columns data) =? 0)%nat
             then "customer_state" else "product_id")), fs).
Proof.
  intros [H0|[H1 [H0 Hrows]]];
    unfold Models.popular_in_your_area, bind, lift.
  - unfold getattr. rewrite H0. reflexivity.
  - rewrite (getattr_ok _ _ H1), H1. cbn [rbind Nat.eqb].
    destruct (rows data) as [|ir rs]; [contradiction Hrows; reflexivity|].
    cbn [map unique distinct Models.top_in_area_loop].
    unfold Models.top_in_area at 1, getattr. cbn [select_rows columns].
    rewrite H0. reflexivity.
Qed.

Lemma popular_in_your_area_missing_column_witness :
  Models.popular_in_your_area undelivered_order 10 [] =
  (Raise (AttributeError "customer_state"), []).
Proof.
  apply (popular_in_your_area_missing_column undelivered_order 10 []).
  left. reflexivity.
Defined.

(* ================================================================== *)
(** ** Time stamps: different dates, different instants *)
(* ================================================================== *)

Lemma year_length (y : Z) :
  days_before_year (y + 1) =
  days_before_year y + (if is_leap y then 366 else 365).
Proof.
  unfold days_before_year, is_leap.
  replace (y + 1 - 1) with y by lia.
  destruct (Z.eqb_spec (y mod 4) 0); destruct (Z.eqb_spec (y mod 100) 0);
    destruct (Z.eqb_spec (y mod 400) 0); cbn [negb andb orb];
    Z.to_euclidean_division_equations; lia.
Qed.

Lemma days_before_year_mono (y1 y2 : Z) :
  y1 <= y2 -> days_before_year y1 <= days_before_year y2.
Proof.
  intros Hle. unfold days_before_year.
  Z.to_euclidean_division_equations. lia.
Qed.

Lemma month_end (y m : Z) :
  1 <= m <= 12 ->
  days_before_month y m + days_in_month y m =
  if m =? 12 then (if is_leap y then 366 else 365)
  else days_before_month y (m + 1).
Proof.
  intros Hm. unfold days_before_month, days_in_month.
  assert (Hc : m = 1 \/ m = 2 \/ m = 3 \/ m = 4 \/ m = 5 \/ m = 6 \/ m = 7 \/
               m = 8 \/ m = 9 \/ m = 10 \/ m = 11 \/ m = 12) by lia.
  destruct Hc as [->|[->|[->|[->|[->|[->|[->|[->|[->|[->|[->| ->]]]]]]]]]]];
    destruct (is_leap y); reflexivity.
Qed.

Lemma days_before_month_mono (y m1 m2 : Z) :
  1 <= m1 -> m1 <= m2 -> m2 <= 12 ->
  days_before_month y m1 <= days_before_month y m2.
Proof.
  intros H1 H12 H2. unfold days_before_month.
  assert (Hc1 : m1 = 1 \/ m1 = 2 \/ m1 = 3 \/ m1 = 4 \/ m1 = 5 \/ m1 = 6 \/
                m1 = 7 \/ m1 = 8 \/ m1 = 9 \/ m1 = 10 \/ m1 = 11 \/ m1 = 12)
    by lia.
  assert (Hc2 : m2 = 1 \/ m2 = 2 \/ m2 = 3 \/ m2 = 4 \/ m2 = 5 \/ m2 = 6 \/
                m2 = 7 \/ m2 = 8 \/ m2 = 9 \/ m2 = 10 \/ m2 = 11 \/ m2 = 12)
    by lia.
  destruct (is_leap y);
    destruct Hc1 as [->|[->|[->|[->|[->|[->|[->|[->|[->|[->|[->| ->]]]]]]]]]]];
    destruct Hc2 as [->|[->|[->|[->|[->|[->|[->|[->|[->|[->|[->| ->]]]]]]]]]]];
    cbn; lia.
Qed.

Lemma toordinal_in_year (y m d : Z) :
  1 <= m <= 12 -> 1 <= d <= days_in_month y m ->
  days_before_year y < toordinal y m d <= days_before_year (y + 1).
Proof.
  intros Hm Hd. unfold toordinal. rewrite year_length.
  pose proof (days_before_month_bounds y m) as Hb.
  pose proof (month_end y m Hm) as He.
  destruct (Z.eqb_spec m 12) as [->|Hne].
  - lia.
  - pose proof (days_before_month_mono y (m + 1) 12) as Hmono.
    assert (H12 : days_before_month y 12 + days_in_month y 12 =
                  if is_leap y then 366 else 365)
      by (rewrite month_end by lia; reflexivity).
    assert (Hd12 : 0 <= days_in_month y 12) by (cbn; lia).
    destruct (is_leap y); lia.
Qed.

Lemma toordinal_injective (y1 m1 d1 y2 m2 d2 : Z) :
  1 <= m1 <= 12 -> 1 <= d1 <= days_in_month y1 m1 ->
  1 <= m2 <= 12 -> 1 <= d2 <= days_in_month y2 m2 ->
  toordinal y1 m1 d1 = toordinal y2 m2 d2 ->
  y1 = y2 /\ m1 = m2 /\ d1 = d2.
Proof.
  intros Hm1 Hd1 Hm2 Hd2 E.
  pose proof (toordinal_in_year y1 m1 d1 Hm1 Hd1) as B1.
  pose proof (toordinal_in_year y2 m2 d2 Hm2 Hd2) as B2.
  assert (Ey : y1 = y2).
  { destruct (Z.lt_trichotomy y1 y2) as [Hlt|[Heq|Hgt]]; [|exact Heq|].
    - pose proof (days_before_year_mono (y1 + 1) y2 ltac:(lia)). lia.
    - pose proof (days_before_year_mono (y2 + 1) y1 ltac:(lia)). lia. }
  subst y2. split; [reflexivity|].
  unfold toordinal in E.
  assert (Em : m1 = m2).
  { destruct (Z.lt_trichotomy m1 m2) as [Hlt|[Heq|Hgt]]; [|exact Heq|].
    - pose proof (month_end y1 m1 Hm1) as He.
      destruct (Z.eqb_spec m1 12); [lia|].
      pose proof (days_before_month_mono y1 (m1 + 1) m2
                    ltac:(lia) ltac:(lia) ltac:(lia)). lia.
    - pose proof (month_end y1 m2 Hm2) as He.
      destruct (Z.eqb_spec m2 12); [lia|].
      pose proof (days_before_month_mono y1 (m2 + 1) m1
                    ltac:(lia) ltac:(lia) ltac:(lia)). lia. }
  subst m2. split; [reflexivity | lia].
Qed.

Lemma epoch_ns_injective (t1 t2 : datetime) :
  well_formed t1 -> well_formed t2 -> epoch_ns t1 = epoch_ns t2 -> t1 = t2.
Proof.
  intros [Hy1 [Hm1 [Hd1 [Hh1 [Hmi1 Hs1]]]]] [Hy2 [Hm2 [Hd2 [Hh2 [Hmi2 Hs2]]]]] E.
  unfold epoch_ns, epoch_seconds in E.
  assert (Eo : toordinal (dt_year t1) (dt_month t1) (dt_day t1) =
               toordinal (dt_year t2) (dt_month t2) (dt_day t2)) by lia.
  destruct (toordinal_injective _ _ _ _ _ _ Hm1 Hd1 Hm2 Hd2 Eo)
    as [Ey [Em Ed]].
  rewrite Eo in E.
  assert (Eh : dt_hour t1 = dt_hour t2) by lia.
  assert (Emi : dt_minute t1 = dt_minute t2) by lia.
  assert (Es : dt_second t1 = dt_second t2) by lia.
  destruct t1, t2; simpl in *; congruence.
Qed.

(** X25: no two dates are taken for one another: two different existing
    dates and times, written in the format, convert to different
    instants. *)
Theorem to_datetime_injective (t1 t2 : datetime) :
  well_formed t1 -> well_formed t2 -> t1 <> t2 ->
  to_datetime_cell (VStr (strftime t1)) <>
  to_datetime_cell (VStr (strftime t2)).
Proof.
  intros H1 H2 Hne E. apply Hne. unfold to_datetime_cell in E.
  rewrite (strptime_strftime t1 H1), (strptime_strftime t2 H2) in E.
  cbn [rbind] in E. injection E as E.
  apply epoch_ns_injective; assumption.
Qed.

Lemma to_datetime_injective_witness :
  to_datetime_cell (VStr "2018/05/01 10:00:00") <>
  to_datetime_cell (VStr "2018/05/01 10:00:01").
Proof.
  apply (to_datetime_injective (mkDT 2018 5 1 10 0 0) (mkDT 2018 5 1 10 0 1)).
  - vm_compute. intuition discriminate.
  - vm_compute. intuition discriminate.
  - discriminate.
Defined.

Lemma main_never_completes_witness :
  exists e fs',
    DataPreprocessing.main query_result [] = (Raise e, fs') /\
    read_file "data/combined_data.csv" fs' = None /\
    read_file "data/repeat_user_ratings_data.csv" fs' = None.
Proof.
  apply (main_never_completes query_result []). reflexivity.
Defined.

(* ================================================================== *)
(** ** Collapse, then deduplication *)
(* ================================================================== *)

Lemma has_label_other (c c' : value) (kv : value * value) :
  c <> c' -> has_label c kv = true -> has_label c' kv = false.
Proof.
  unfold has_label. intros Hne Hc. apply value_eqb_eq in Hc. rewrite Hc.
  apply value_eqb_neq. exact Hne.
Qed.

Lemma has_column_drop_cell_other (c c' : value) (r : row) :
  c <> c' -> has_column c' (drop_cell c r) = has_column c' r.
Proof.
  intros Hne. unfold has_column, drop_cell.
  induction r as [|kv r IH]; [reflexivity|].
  simpl. destruct (has_label c kv) eqn:Hc; simpl.
  - rewrite (has_label_other c c' kv Hne Hc). exact IH.
  - rewrite IH. reflexivity.
Qed.

Lemma drop_cell_overwrite_comm (c c' v : value) (r : row) :
  c <> c' ->
  drop_cell c (map (fun kv => if has_label c' kv then (fst kv, v) else kv) r) =
  map (fun kv => if has_label c' kv then (fst kv, v) else kv) (drop_cell c r).
Proof.
  intros Hne. unfold drop_cell.
  induction r as [|kv r IH]; [reflexivity|].
  simpl. destruct (has_label c' kv) eqn:Hc'.
  - assert (E : has_label c kv = false).
    { apply (has_label_other c' c kv); [congruence | exact Hc']. }
    assert (E' : has_label c (fst kv, v) = false) by exact E.
    rewrite E, E'. simpl. rewrite Hc'. f_equal. exact IH.
  - destruct (has_label c kv); simpl; [exact IH|].
    rewrite Hc'. f_equal. exact IH.
Qed.

Lemma drop_set_cell_comm (c c' v : value) (r : row) :
  c <> c' ->
  drop_cell c (set_cell c' v r) = set_cell c' v (drop_cell c r).
Proof.
  intros Hne. unfold set_cell.
  rewrite (has_column_drop_cell_other c c' r Hne).
  destruct (has_column c' r).
  - apply drop_cell_overwrite_comm. exact Hne.
  - unfold drop_cell. rewrite filter_app. simpl.
    assert (E : has_label c (c', v) = false).
    { unfold has_label. simpl. apply value_eqb_neq. congruence. }
    rewrite E. reflexivity.
Qed.

Lemma count_rows_NoDup (r : row) (rs : list (Z * row)) :
  NoDup (map snd rs) -> In r (map snd rs) ->
  List.length (filter (fun jr => row_eqb (snd jr) r) rs) = 1%nat.
Proof.
  induction rs as [|[j s] rs IH]; intros Hnd Hin; [destruct Hin|].
  cbn [map snd] in Hnd, Hin. apply NoDup_cons_iff in Hnd.
  destruct Hnd as [Hs Hnd]. cbn [filter snd].
  destruct (row_eqb s r) eqn:E.
  - apply row_eqb_eq in E. subst s. cbn [List.length]. f_equal.
    apply length_zero_iff_nil.
    destruct (filter (fun jr => row_eqb (snd jr) r) rs) as [|jr l] eqn:F;
      [reflexivity|].
    exfalso. apply Hs.
    assert (Hj : In jr (filter (fun jr => row_eqb (snd jr) r) rs))
      by (rewrite F; left; reflexivity).
    apply filter_In in Hj. destruct Hj as [Hj Er].
    apply row_eqb_eq in Er. rewrite <- Er. apply in_map. exact Hj.
  - apply IH; [exact Hnd|]. destruct Hin as [Es|Hin]; [|exact Hin].
    subst s. rewrite row_eqb_refl in E. discriminate.
Qed.

(** X26: the payment lines of one order come out as one row: two rows of
    the query result that differ in their payment value only get the same
    cells from the payment-collapse step, and deduplication then leaves
    exactly one row with these cells. *)
Theorem payment_lines_become_one_row (data : DataFrame) (ir1 ir2 : Z * row) :
  count_label "payment_value" (columns data) = 1%nat ->
  count_label "order_id" (columns data) = 1%nat ->
  numeric_column data "payment_value" ->
  In ir1 (rows data) -> In ir2 (rows data) ->
  drop_cell "payment_value" (snd ir1) = drop_cell "payment_value" (snd ir2) ->
  exists out r,
    DataPreprocessing.create_total_payment_value data = Ok out /\
    In (fst ir1, r) (rows out) /\ In (fst ir2, r) (rows out) /\
    List.length
      (filter (fun jr => row_eqb (snd jr) r)
              (rows (DataPreprocessing.duplicates out))) = 1%nat.
Proof.
  intros Hpv Hoid Hnum H1 H2 Hsame.
  assert (Hord : cell "order_id" (snd ir1) = cell "order_id" (snd ir2)).
  { rewrite <- (cell_drop_cell_other "payment_value" "order_id" (snd ir1))
      by discriminate.
    rewrite Hsame. apply cell_drop_cell_other. discriminate. }
  assert (Htot : total_of data ir1 = total_of data ir2).
  { unfold total_of. rewrite Hord. reflexivity. }
  exists (mkDF (filter (fun c' => negb (value_eqb c' "payment_value"))
                       (add_label "total_payment" (columns data)))
               (map (fun ir => (fst ir,
                                drop_cell "payment_value"
                                  (set_cell "total_payment" (total_of data ir)
                                            (snd ir))))
                    (rows data))),
         (drop_cell "payment_value"
            (set_cell "total_payment" (total_of data ir1) (snd ir1))).
  split; [apply create_total_payment_value_ok; assumption|].
  cbn [rows]. split; [|split].
  - apply in_map_iff. exists ir1. split; [reflexivity | exact H1].
  - apply in_map_iff. exists ir2. split; [|exact H2]. f_equal.
    rewrite !drop_set_cell_comm by discriminate.
    rewrite Htot, Hsame. reflexivity.
  - apply count_rows_NoDup.
    + unfold DataPreprocessing.duplicates, drop_duplicates. cbn [rows].
      apply drop_dups_NoDup.
    + unfold DataPreprocessing.duplicates, drop_duplicates. cbn [rows].
      destruct (drop_dups_covers
                  (map (fun ir => (fst ir,
                                   drop_cell "payment_value"
                                     (set_cell "total_payment"
                                               (total_of data ir) (snd ir))))
                       (rows data)) []
                  (fst ir1,
                   drop_cell "payment_value"
                     (set_cell "total_payment" (total_of data ir1) (snd ir1))))
        as [[]|Hin]; [|exact Hin].
      apply in_map_iff. exists ir1. split; [reflexivity | exact H1].
Qed.

Lemma payment_lines_become_one_row_witness :
  exists out r,
    DataPreprocessing.create_total_payment_value voucher_orders = Ok out /\
    In (0, r) (rows out) /\ In (1, r) (rows out) /\
    List.length
      (filter (fun jr => row_eqb (snd jr) r)
              (rows (DataPreprocessing.duplicates out))) = 1%nat.
Proof.
  apply (payment_lines_become_one_row voucher_orders
           (0, order_row "c1" "o1" "p1" (VFloat (Q2Qc 30)) (VInt 4) "SP")
           (1, order_row "c1" "o1" "p1" (VFloat (Q2Qc 20)) (VInt 4) "SP")).
  - reflexivity.
  - reflexivity.
  - exact voucher_orders_numeric.
  - left. reflexivity.
  - right. left. reflexivity.
  - reflexivity.
Defined.
